(** * Scientific Stat Engine (app.py): test selection and bilingual reports

    A shallow embedding of the Streamlit script [app.py]: the construction of
    [data_dict] from the input widgets, the assumption checks, the choice of
    the hypothesis test, the post-hoc gating and the two generated reports.

    The numeric libraries (scipy, statsmodels, scikit_posthocs, pandas) and
    the builtin [float] are not part of the script: they are taken as a record
    of fallible functions, and every call to a statistical one is recorded in
    the run's event log together with the Streamlit output calls. *)

From Stdlib Require Import String Ascii List ZArith NArith PArith Bool Lia.
Import ListNotations.
Local Open Scope string_scope.

(* ===================================================================== *)
(** ** Python floats and the two format specifications of the script     *)
(* ===================================================================== *)

Module PyFloat.

(** A float is nan, an infinity, or a finite value kept exactly as
    sign, numerator and denominator: every finite binary64 value is a
    rational of this form, and comparison and [format] depend on the exact
    value only (and on the sign of zero, which the sign bit keeps). *)
Inductive float : Type :=
| NaN
| Inf (neg : bool)
| Fin (neg : bool) (num : N) (den : positive).

Definition snum (neg : bool) (num : N) : Z :=
  if neg then (- Z.of_N num)%Z else Z.of_N num.

(** [x < y] on floats: false as soon as one side is nan. *)
Definition ltb (x y : float) : bool :=
  match x, y with
  | NaN, _ => false
  | _, NaN => false
  | Inf nx, Inf ny => nx && negb ny
  | Inf nx, Fin _ _ _ => nx
  | Fin _ _ _, Inf ny => negb ny
  | Fin sx nx dx, Fin sy ny dy =>
      (snum sx nx * Z.pos dy <? snum sy ny * Z.pos dx)%Z
  end.

(** [x > y]. *)
Definition gtb (x y : float) : bool := ltb y x.

(** The binary64 values of the literals that occur in the script. *)
Definition lit_0_05 : float := Fin false 3602879701896397 72057594037927936.
Definition lit_0_01 : float := Fin false 5764607523034235 576460752303423488.
Definition lit_0_001 : float := Fin false 1152921504606847 1152921504606846976.
Definition lit_0_0 : float := Fin false 0 1.

(** *** Decimal digits *)

Definition digit (n : N) : ascii :=
  match (n mod 10)%N with
  | 0%N => "0" | 1%N => "1" | 2%N => "2" | 3%N => "3" | 4%N => "4"
  | 5%N => "5" | 6%N => "6" | 7%N => "7" | 8%N => "8" | _ => "9"
  end%char.

(** The [w] low decimal digits of [n], most significant first, before [acc]. *)
Fixpoint fixed_digits (w : nat) (n : N) (acc : string) : string :=
  match w with
  | O => acc
  | S w' => fixed_digits w' (n / 10)%N (String (digit n) acc)
  end.

Fixpoint digits_fuel (fuel : nat) (n : N) (acc : string) : string :=
  match fuel with
  | O => acc
  | S f =>
      let acc' := String (digit n) acc in
      if (n <? 10)%N then acc' else digits_fuel f (n / 10)%N acc'
  end.

(** [str(n)] for a natural number: its decimal digits, no leading zero. *)
Definition dec (n : N) : string := digits_fuel (S (N.size_nat n)) n "".

(** Round [n / d] to the nearest integer, ties to even: the rounding of
    Python's float formatting, which works on the exact value. *)
Definition round_half_even (n d : N) : N :=
  let q := (n / d)%N in
  let r := (n mod d)%N in
  match (2 * r ?= d)%N with
  | Lt => q
  | Gt => (q + 1)%N
  | Eq => if N.even q then q else (q + 1)%N
  end.

Definition sign_str (neg : bool) : string := if neg then "-" else "".

(** The point and the [prec] decimals of [k / 10^prec]; nothing when
    [prec] is 0. *)
Definition frac_str (prec : nat) (k : N) : string :=
  match prec with
  | O => ""
  | S _ => String "."%char (fixed_digits prec k "")
  end.

(** *** [format(x, '.4f')], for any number of decimals *)

Definition format_f (prec : nat) (x : float) : string :=
  match x with
  | NaN => "nan"
  | Inf neg => sign_str neg ++ "inf"
  | Fin neg n d =>
      let p10 := (10 ^ N.of_nat prec)%N in
      let k := round_half_even (n * p10) (N.pos d) in
      sign_str neg ++ dec (k / p10) ++ frac_str prec k
  end.

(** *** [format(x, '.2e')], for any number of decimals *)

(** Search for the decimal exponent of [n / d]: the [e] with
    [10^e <= n/d < 10^(e+1)]. *)
Fixpoint exp10_fuel (fuel : nat) (n d : N) (e : Z) : Z :=
  match fuel with
  | O => e
  | S f =>
      if (n <? d)%N then exp10_fuel f (10 * n)%N d (e - 1)%Z
      else if (10 * d <=? n)%N then exp10_fuel f n (10 * d)%N (e + 1)%Z
      else e
  end.

Definition exp10 (n : N) (d : positive) : Z :=
  exp10_fuel (S (N.size_nat n + Pos.size_nat d)) n (N.pos d) 0.

(** The exponent field: a sign and at least two digits. *)
Definition exp_str (e : Z) : string :=
  let a := Z.abs_N e in
  String "e"%char
    ((if (e <? 0)%Z then "-" else "+") ++
     (if (a <? 10)%N then String "0"%char (dec a) else dec a)).

Definition mantissa_str (prec : nat) (k : N) : string :=
  String (digit (k / 10 ^ N.of_nat prec)) (frac_str prec k).

Definition format_e (prec : nat) (x : float) : string :=
  match x with
  | NaN => "nan"
  | Inf neg => sign_str neg ++ "inf"
  | Fin neg 0%N _ => sign_str neg ++ mantissa_str prec 0 ++ exp_str 0
  | Fin neg n d =>
      let e := exp10 n d in
      let s := (e - Z.of_nat prec)%Z in
      let k := round_half_even (n * 10 ^ Z.to_N (- s))
                               (N.pos d * 10 ^ Z.to_N s) in
      let top := (10 ^ N.of_nat (S prec))%N in
      let '(k', e') :=
        if (top <=? k)%N then ((10 ^ N.of_nat prec)%N, (e + 1)%Z) else (k, e) in
      sign_str neg ++ mantissa_str prec k' ++ exp_str e'
  end.

End PyFloat.

Import PyFloat.

(* ===================================================================== *)
(** ** Python strings: the operations of the input parser                *)
(* ===================================================================== *)

Module PyStr.

(** A [str] is kept as the bytes of its UTF-8 encoding. *)

Definition LF : ascii := "010"%char.
Definition nl : string := String LF "".

(** Number of bytes of the white-space character that starts [l], 0 when
    [l] does not start with one. The characters are those of
    [str.isspace]: U+0009..000D, U+001C..0020, U+0085, U+00A0, U+1680,
    U+2000..200A, U+2028, U+2029, U+202F, U+205F and U+3000. *)
Definition ws_prefix (l : list N) : nat :=
  match l with
  | c :: r =>
      if ((9 <=? c) && (c <=? 13) || (28 <=? c) && (c <=? 32))%N then 1
      else
        match c, r with
        | 194%N, b :: _ => if ((b =? 133) || (b =? 160))%N then 2 else 0
        | 225%N, 154%N :: 128%N :: _ => 3
        | 226%N, 128%N :: b :: _ =>
            if ((128 <=? b) && (b <=? 138) || (b =? 168) || (b =? 169)
                || (b =? 175))%N then 3 else 0
        | 226%N, 129%N :: 159%N :: _ => 3
        | 227%N, 128%N :: 128%N :: _ => 3
        | _, _ => 0
        end
  | [] => 0
  end.

(** The same, for the white-space character that ends the reversed [l]. *)
Definition ws_suffix_rev (l : list N) : nat :=
  match l with
  | c :: r =>
      if ((9 <=? c) && (c <=? 13) || (28 <=? c) && (c <=? 32))%N then 1
      else
        match c, r with
        | 133%N, 194%N :: _ => 2
        | 160%N, 194%N :: _ => 2
        | 128%N, 154%N :: 225%N :: _ => 3
        | 159%N, 129%N :: 226%N :: _ => 3
        | 128%N, 128%N :: 227%N :: _ => 3
        | b, 128%N :: 226%N :: _ =>
            if ((128 <=? b) && (b <=? 138) || (b =? 168) || (b =? 169)
                || (b =? 175))%N then 3 else 0
        | _, _ => 0
        end
  | [] => 0
  end.

Fixpoint strip_fuel (ws : list N -> nat) (fuel : nat) (l : list N) : list N :=
  match fuel with
  | O => l
  | S f =>
      match ws l with
      | O => l
      | k => strip_fuel ws f (skipn k l)
      end
  end.

Definition codes (s : string) : list N :=
  map N_of_ascii (list_ascii_of_string s).

Definition of_codes (l : list N) : string :=
  string_of_list_ascii (map ascii_of_N l).

(** [s.strip()] *)
Definition strip (s : string) : string :=
  let l := strip_fuel ws_prefix (String.length s) (codes s) in
  of_codes (rev (strip_fuel ws_suffix_rev (length l) (rev l))).

(** [s.replace(',', '\n')] *)
Fixpoint replace_comma (s : string) : string :=
  match s with
  | EmptyString => EmptyString
  | String c r =>
      String (if Ascii.eqb c ","%char then LF else c) (replace_comma r)
  end.

(** [s.split('\n')]: never empty, [''] for the empty string. *)
Fixpoint split_nl_aux (s : string) (cur : string) : list string :=
  match s with
  | EmptyString => [cur]
  | String c r =>
      if Ascii.eqb c LF then cur :: split_nl_aux r ""
      else split_nl_aux r (cur ++ String c "")
  end.

Definition split_nl (s : string) : list string := split_nl_aux s "".

(** Truth value of a [str]: non-empty. *)
Definition truthy (s : string) : bool :=
  match s with EmptyString => false | _ => true end.

(** [s.startswith(sub)] *)
Fixpoint starts_with (sub s : string) : bool :=
  match sub, s with
  | EmptyString, _ => true
  | String a sub', String b s' => Ascii.eqb a b && starts_with sub' s'
  | String _ _, EmptyString => false
  end.

(** [sub in s] *)
Fixpoint contains (sub s : string) : bool :=
  starts_with sub s ||
  match s with
  | EmptyString => false
  | String _ r => contains sub r
  end.

(** Every character of [s] satisfies [p]. *)
Fixpoint all_chars (p : ascii -> bool) (s : string) : bool :=
  match s with
  | EmptyString => true
  | String c r => p c && all_chars p r
  end.

End PyStr.

Import PyStr.

(* ===================================================================== *)
(** ** Python dicts with string keys: insertion-ordered                  *)
(* ===================================================================== *)

Module PyDict.

Section Dict.
Context {V : Type}.

(** Items in insertion order; a key occurs once. *)
Definition dict : Type := list (string * V).

(** [d[k] = v]: a key already present keeps its place and gets the new
    value, a new key goes to the end. *)
Fixpoint set (k : string) (v : V) (d : dict) : dict :=
  match d with
  | [] => [(k, v)]
  | (k', v') :: r =>
      if String.eqb k k' then (k, v) :: r else (k', v') :: set k v r
  end.

(** [d[k]], [None] standing for KeyError. *)
Fixpoint get (d : dict) (k : string) : option V :=
  match d with
  | [] => None
  | (k', v') :: r => if String.eqb k k' then Some v' else get r k
  end.

Definition keys (d : dict) : list string := map fst d.
Definition values (d : dict) : list V := map snd d.

End Dict.

Arguments dict V : clear implicits.

End PyDict.

(* ===================================================================== *)
(** ** Effects: exceptions and the event log of a script run             *)
(* ===================================================================== *)

(** A raised Python exception: its class and its message. *)
Inductive exn : Type :=
| PyExc (cls : string) (msg : string).

(** Values of a table cell or of an axis label. *)
Inductive cell : Type :=
| CStr (s : string)
| CFloat (x : float)
| CInt (z : Z)
| CBool (b : bool).

(** A pandas DataFrame, as far as the script sees it. *)
Record DataFrame : Type := mkDataFrame {
  df_columns : list cell;
  df_index : list cell;
  df_data : list (list cell)
}.

(** What a run does, in order: the calls to the statistical capabilities
    (with their arguments) and the Streamlit calls. *)
Inductive event : Type :=
| Call_shapiro (v : list float)
| Call_levene (groups : list (list float))
| Call_ttest_ind (v1 v2 : list float) (equal_var : bool)
| Call_mannwhitneyu (v1 v2 : list float)
| Call_f_oneway (groups : list (list float))
| Call_kruskal (groups : list (list float))
| Call_pairwise_tukeyhsd (flat_data : list float) (labels : list string)
| Call_posthoc_dunn (groups : list (list float))
| St_text_input (label value key : string)
| St_text_area_input (label key : string) (height : nat)
| St_header (body : string)
| St_success (body : string)
| St_warning (body : string)
| St_info (body : string)
| St_metric (label value : string)
| St_write (body : string)
| St_table (df : DataFrame)
| St_expander (label : string)
| St_divider
| St_caption (body : string)
| St_tabs (labels : list string)
| St_text_area (label value : string) (height : nat)
| St_download_button (label data file_name : string).

(** A computation logs events and either raises or returns. *)
Definition M (A : Type) : Type := (list event * (exn + A))%type.

Definition ret {A} (a : A) : M A := ([], inr a).

Definition bind {A B} (m : M A) (f : A -> M B) : M B :=
  match m with
  | (l, inl e) => (l, inl e)
  | (l, inr a) => let '(l', r) := f a in ((l ++ l')%list, r)
  end.

Definition emit (e : event) : M unit := ([e], inr tt).

Definition raise {A} (e : exn) : M A := ([], inl e).

(** A library call that is logged as [e] and has the result [r]. *)
Definition call {A} (e : event) (r : exn + A) : M A := ([e], r).

(** A library call that is not logged. *)
Definition lift {A} (r : exn + A) : M A := ([], r).

Declare Scope py_scope.
Delimit Scope py_scope with py.
Notation "x <- c ;; k" := (bind c (fun x => k))
  (at level 61, c at next level, right associativity) : py_scope.
Notation "' pat <- c ;; k" := (bind c (fun x => match x with pat => k end))
  (at level 61, pat pattern, c at next level, right associativity) : py_scope.
Notation "c ;; k" := (bind c (fun _ => k))
  (at level 61, right associativity) : py_scope.
Local Open Scope py_scope.

Definition log_of {A} (m : M A) : list event := fst m.
Definition result_of {A} (m : M A) : exn + A := snd m.

(** The libraries the script imports, and the builtin [float]. A test
    returns (statistic, p-value). *)
Record Lib : Type := mkLib {
  float_of_str : string -> exn + float;
  shapiro : list float -> exn + (float * float);
  levene : list (list float) -> exn + (float * float);
  ttest_ind : list float -> list float -> bool -> exn + (float * float);
  mannwhitneyu : list float -> list float -> exn + (float * float);
  f_oneway : list (list float) -> exn + (float * float);
  kruskal : list (list float) -> exn + (float * float);
  (** [pairwise_tukeyhsd(...)._results_table.data]: the header row
      ([data[0]]) and the rows after it ([data[1:]]) *)
  pairwise_tukeyhsd :
    list float -> list string -> exn + (list cell * list (list cell));
  (** [posthoc_dunn(..., p_adjust='bonferroni')] *)
  posthoc_dunn : list (list float) -> exn + DataFrame;
  (** [pd.DataFrame(data=..., columns=...)] *)
  pd_DataFrame : list (list cell) -> list cell -> exn + DataFrame;
  (** [df.columns = ...] and [df.index = ...] *)
  set_columns : DataFrame -> list string -> exn + DataFrame;
  set_index : DataFrame -> list string -> exn + DataFrame
}.

(** [get_sig_label] *)
Definition get_sig_label (p : float) : string :=
  if ltb p lit_0_001 then "***"
  else if ltb p lit_0_01 then "**"
  else if ltb p lit_0_05 then "*"
  else "ns".

(* ===================================================================== *)
(** ** The script                                                        *)
(* ===================================================================== *)

Definition dict : Type := PyDict.dict (list float).

(** f-string field of a non-negative [int]. *)
Definition str_nat (n : nat) : string := dec (N.of_nat n).

Section Script.

Variable lib : Lib.

(** *** 3. Data input (the loop over the [g_count] widget pairs) *)

(** [[float(x.strip()) for x in ... if x.strip()]] *)
Fixpoint parse_lines (xs : list string) : exn + list float :=
  match xs with
  | [] => inr []
  | x :: r =>
      if truthy (strip x) then
        match float_of_str lib (strip x) with
        | inl e => inl e
        | inr v =>
            match parse_lines r with
            | inl e => inl e
            | inr vs => inr (v :: vs)
            end
        end
      else parse_lines r
  end.

Definition parse_vals (raw : string) : exn + list float :=
  parse_lines (split_nl (replace_comma raw)).

(** The body of [for i in range(g_count)], from index [i] on. The widget
    state is the list of the (name, raw text) pairs that [st.text_input]
    and [st.text_area] return, one pair per index; [g_count] is its
    length. *)
Fixpoint input_loop (i : nat) (widgets : list (string * string))
    (data_dict : dict) : M dict :=
  match widgets with
  | [] => ret data_dict
  | (name, raw) :: rest =>
      emit (St_text_input ("Group " ++ str_nat (i + 1) ++ " Name")
                          ("Group " ++ str_nat (i + 1))
                          ("n" ++ str_nat i)) ;;
      emit (St_text_area_input
              ("Input Data for " ++ name ++ " (Line separated)")
              ("d" ++ str_nat i) 120) ;;
      vals <- lift (parse_vals raw) ;;
      input_loop (S i) rest
        (if (3 <=? length vals)%nat then PyDict.set name vals data_dict
         else data_dict)
  end.

Definition build_data_dict (widgets : list (string * string)) : M dict :=
  input_loop 0 widgets [].

(** *** 4. Analysis engine *)

(** The loop over [data_dict.items()] that runs the normality test. *)
Fixpoint shapiro_loop (items : list (string * list float))
    (all_normal : bool) (shapiro_log : list string)
    : M (bool * list string) :=
  match items with
  | [] => ret (all_normal, shapiro_log)
  | (n, v) :: rest =>
      '(_, p_s) <- call (Call_shapiro v) (shapiro lib v) ;;
      shapiro_loop rest
        (all_normal && gtb p_s lit_0_05)
        (app shapiro_log [n ++ "(p=" ++ format_f 4 p_s ++ ")"])
  end.

(** What the comparison branches leave in the variables of the script. *)
Record Comparison : Type := mkComparison {
  c_method : string;
  c_p_final : float;
  c_p_disp : string;
  c_posthoc : option DataFrame
}.

(** A. 2-Group Comparison *)
Definition two_group_comparison (data_dict : dict)
    (all_normal is_equal_var : bool) : M Comparison :=
  match PyDict.keys data_dict with
  | gn0 :: gn1 :: _ =>
      match PyDict.get data_dict gn0, PyDict.get data_dict gn1 with
      | Some v1, Some v2 =>
          '(method, p_final) <-
            (if all_normal then
               let method :=
                 if is_equal_var then "Student's t-test"
                 else "Welch's t-test" in
               '(_, p_final) <- call (Call_ttest_ind v1 v2 is_equal_var)
                                     (ttest_ind lib v1 v2 is_equal_var) ;;
               ret (method, p_final)
             else
               let method := "Mann-Whitney U-test" in
               '(_, p_final) <- call (Call_mannwhitneyu v1 v2)
                                     (mannwhitneyu lib v1 v2) ;;
               ret (method, p_final)) ;;
          emit (St_success ("**Method Selected: " ++ method ++ "**")) ;;
          let p_disp :=
            if ltb p_final lit_0_001 then format_e 2 p_final
            else format_f 4 p_final in
          emit (St_metric "P-value" p_disp) ;;
          ret (mkComparison method p_final p_disp None)
      | _, _ => raise (PyExc "KeyError" "")
      end
  | _ => raise (PyExc "IndexError" "list index out of range")
  end.

(** B. 3+ Group Comparison *)
Definition multi_group_comparison (data_dict : dict)
    (all_normal is_equal_var : bool) : M Comparison :=
  if all_normal && is_equal_var then
    let method := "One-way ANOVA + Tukey's HSD" in
    '(_, p_anova) <- call (Call_f_oneway (PyDict.values data_dict))
                          (f_oneway lib (PyDict.values data_dict)) ;;
    let p_final := p_anova in
    emit (St_success ("**Method Selected: " ++ method ++ "**")) ;;
    let p_disp :=
      if ltb p_anova lit_0_001 then format_e 2 p_anova
      else format_f 4 p_anova in
    emit (St_write ("Overall P-value (ANOVA): **" ++ p_disp ++ "**")) ;;
    if ltb p_anova lit_0_05 then
      let flat_data := concat (PyDict.values data_dict) in
      let labels :=
        flat_map (fun '(n, sub) => map (fun _ => n) sub) data_dict in
      '(header, rows) <- call (Call_pairwise_tukeyhsd flat_data labels)
                              (pairwise_tukeyhsd lib flat_data labels) ;;
      df_res <- lift (pd_DataFrame lib rows header) ;;
      emit (St_table df_res) ;;
      ret (mkComparison method p_final p_disp (Some df_res))
    else ret (mkComparison method p_final p_disp None)
  else
    let method := "Kruskal-Wallis test (Non-parametric)" in
    '(_, p_kw) <- call (Call_kruskal (PyDict.values data_dict))
                       (kruskal lib (PyDict.values data_dict)) ;;
    let p_final := p_kw in
    emit (St_warning ("**Method Selected: " ++ method ++ "**")) ;;
    let p_disp := format_f 4 p_kw in
    emit (St_write ("Overall P-value (Kruskal-Wallis): **" ++ p_disp ++ "**")) ;;
    if ltb p_kw lit_0_05 then
      emit (St_write "Post-hoc (Dunn's test):") ;;
      df_dunn <- call (Call_posthoc_dunn (PyDict.values data_dict))
                      (posthoc_dunn lib (PyDict.values data_dict)) ;;
      df_dunn <- lift (set_columns lib df_dunn (PyDict.keys data_dict)) ;;
      df_dunn <- lift (set_index lib df_dunn (PyDict.keys data_dict)) ;;
      emit (St_table df_dunn) ;;
      ret (mkComparison method p_final p_disp (Some df_dunn))
    else ret (mkComparison method p_final p_disp None).

(** *** 5. Report generation *)

Definition jp_reason_parametric : string :=
  "データの分布が偏っておらず、バラツキも均一だったため、標準的なt検定/ANOVAを選択しました。".
Definition en_reason_parametric : string :=
  "Since the data followed a normal distribution with equal variance, a parametric test (t-test/ANOVA) was selected.".
Definition jp_reason_nonparametric : string :=
  "データに外れ値や偏りが見られたため、順位を重視するノンパラメトリック検定を選択しました。".
Definition en_reason_nonparametric : string :=
  "Due to the presence of outliers or non-normal distribution, a non-parametric test was selected for robustness.".
Definition jp_reason_unequal : string :=
  "バラツキが群間で異なっていたため、ウェルチの補正を行いました。".
Definition en_reason_unequal : string :=
  "Due to unequal variances, Welch's correction was applied.".

(** The [if / elif / else] that sets [jp_reason] and [en_reason]. *)
Definition reasons (all_normal is_equal_var : bool) : string * string :=
  if all_normal && is_equal_var then
    (jp_reason_parametric, en_reason_parametric)
  else if negb all_normal then
    (jp_reason_nonparametric, en_reason_nonparametric)
  else
    (jp_reason_unequal, en_reason_unequal).

Definition jp_report (method jp_reason : string) (is_sig : bool)
    (p_disp : string) : string :=
  "【解析報告書】" ++ nl ++
  "1. 手法: " ++ method ++ nl ++
  "2. 理由: " ++ jp_reason ++ nl ++
  "3. 結果: " ++ (if is_sig then "有意差あり" else "有意差なし") ++
    " (P=" ++ p_disp ++ ")" ++ nl.

Definition en_report (method en_reason : string) (is_sig : bool)
    (p_disp : string) : string :=
  "【Statistical Analysis Report】" ++ nl ++
  "1. Method: " ++ method ++ nl ++
  "2. Rationale: " ++ en_reason ++ nl ++
  "3. Results: " ++
    (if is_sig then "Significant Difference Found"
     else "No Significant Difference") ++
    " (P=" ++ p_disp ++ ")" ++ nl ++
  "4. Conclusion: Based on the " ++ method ++
    ", the null hypothesis was " ++
    (if is_sig then "rejected" else "not rejected") ++ "." ++ nl.

(** The variables of the script when the analysis branch has run. *)
Record Outcome : Type := mkOutcome {
  all_normal : bool;
  shapiro_log : list string;
  p_lev : float;
  is_equal_var : bool;
  method : string;
  p_final : float;
  p_disp : string;
  posthoc : option DataFrame;
  is_sig : bool;
  jp_reason : string;
  en_reason : string;
  out_jp_report : string;
  out_en_report : string
}.

Definition disclaimer : string :=
  nl ++
  "    This tool is intended for assistive purposes in statistical analysis and data visualization. " ++ nl ++
  "    While the calculations are based on reliable libraries, final interpretations and conclusions " ++ nl ++
  "    must be made by the user based on professional expertise. " ++ nl ++
  "    The developer assumes no responsibility for any outcomes resulting from the use of this software." ++ nl ++
  "    ".

(** Sections 4 and 5 of the script, from [if len(data_dict) >= 2:] to the
    end; [None] is the [else] branch, where none of the variables exist. *)
Definition analysis (data_dict : dict) : M (option Outcome) :=
  if (2 <=? length data_dict)%nat then
    emit (St_header "📊 Results & Analysis Log") ;;
    '(all_normal, shapiro_log) <- shapiro_loop data_dict true [] ;;
    '(_, p_lev) <- call (Call_levene (PyDict.values data_dict))
                        (levene lib (PyDict.values data_dict)) ;;
    let is_equal_var := gtb p_lev lit_0_05 in
    c <- (if (length data_dict =? 2)%nat
          then two_group_comparison data_dict all_normal is_equal_var
          else multi_group_comparison data_dict all_normal is_equal_var) ;;
    emit (St_expander "Detailed Diagnostic Log") ;;
    emit (St_write ("・Normality (Shapiro-Wilk): " ++
                    String.concat ", " shapiro_log)) ;;
    emit (St_write ("・Equal Variance (Levene): p = " ++ format_f 4 p_lev)) ;;
    emit St_divider ;;
    emit (St_header "📝 Generated Reports") ;;
    let is_sig := ltb (c_p_final c) lit_0_05 in
    let '(jp_reason, en_reason) := reasons all_normal is_equal_var in
    let jp := jp_report (c_method c) jp_reason is_sig (c_p_disp c) in
    let en := en_report (c_method c) en_reason is_sig (c_p_disp c) in
    emit (St_tabs ["日本語レポート"; "English Report"]) ;;
    emit (St_text_area "JP Report" jp 200) ;;
    emit (St_download_button "レポート(JP)を保存" jp "report_jp.txt") ;;
    emit (St_text_area "EN Report" en 200) ;;
    emit (St_download_button "Download Report (EN)" en "report_en.txt") ;;
    ret (Some (mkOutcome all_normal shapiro_log p_lev is_equal_var
                 (c_method c) (c_p_final c) (c_p_disp c) (c_posthoc c)
                 is_sig jp_reason en_reason jp en))
  else
    emit (St_info "Please input data for at least 2 groups.") ;;
    emit St_divider ;;
    emit (St_caption "【Disclaimer】") ;;
    emit (St_caption disclaimer) ;;
    ret None.

(** The script from section 3 on, for the given widget state. *)
Definition main (widgets : list (string * string)) : M (option Outcome) :=
  data_dict <- build_data_dict widgets ;;
  analysis data_dict.

End Script.

(* ===================================================================== *)
(** ** A concrete library, for running the script on examples            *)
(* ===================================================================== *)

(** [x == y] on floats. *)
Definition feqb (x y : float) : bool :=
  match x, y with
  | Inf a, Inf b => Bool.eqb a b
  | Fin sx nx dx, Fin sy ny dy =>
      (snum sx nx * Z.pos dy =? snum sy ny * Z.pos dx)%Z
  | _, _ => false
  end.

(** [float] restricted to unsigned decimal integers; anything else raises
    ValueError, as [float] does on text that is not a number. *)
Fixpoint nat_of_digits (s : string) (acc : N) : option N :=
  match s with
  | EmptyString => Some acc
  | String c r =>
      let n := N_of_ascii c in
      if ((48 <=? n) && (n <=? 57))%N
      then nat_of_digits r (10 * acc + (n - 48))%N
      else None
  end.

Definition sample_float (s : string) : exn + float :=
  match s with
  | EmptyString => inl (PyExc "ValueError" "could not convert string to float")
  | _ =>
      match nat_of_digits s 0 with
      | Some n => inr (Fin false n 1)
      | None => inl (PyExc "ValueError" "could not convert string to float")
      end
  end.

Definition range_index (n : nat) : list cell :=
  map (fun i => CInt (Z.of_nat i)) (seq 0 n).

(** A library whose normality test has the p-value [p_shapiro v] on the
    sample [v], whose variance test has the p-value [p_levene] and whose
    hypothesis tests all have the p-value [p_test]; the statistics are 0 and
    the post-hoc tables have a header and no rows. *)
Definition sample_lib (p_shapiro : list float -> float)
    (p_levene p_test : float) : Lib :=
  {| float_of_str := sample_float;
     shapiro := fun v => inr (lit_0_0, p_shapiro v);
     levene := fun _ => inr (lit_0_0, p_levene);
     ttest_ind := fun _ _ _ => inr (lit_0_0, p_test);
     mannwhitneyu := fun _ _ => inr (lit_0_0, p_test);
     f_oneway := fun _ => inr (lit_0_0, p_test);
     kruskal := fun _ => inr (lit_0_0, p_test);
     pairwise_tukeyhsd := fun _ _ =>
       inr ([CStr "group1"; CStr "group2"; CStr "meandiff"; CStr "p-adj";
             CStr "lower"; CStr "upper"; CStr "reject"], []);
     posthoc_dunn := fun gs =>
       inr (mkDataFrame (range_index (length gs)) (range_index (length gs)) []);
     pd_DataFrame := fun rows header =>
       inr (mkDataFrame header (range_index (length rows)) rows);
     set_columns := fun df ks =>
       inr (mkDataFrame (map CStr ks) (df_index df) (df_data df));
     set_index := fun df ks =>
       inr (mkDataFrame (df_columns df) (map CStr ks) (df_data df)) |}.

(** The binary64 values of 1.0, 0.5, 0.0005, 0.000511, 0.00001, 0.0321 and
    0.999. *)
Definition lit_1_0 : float := Fin false 1 1.
Definition lit_0_5 : float := Fin false 1 2.
Definition lit_0_0005 : float :=
  Fin false 1152921504606847 2305843009213693952.
Definition lit_0_000511 : float :=
  Fin false 2356571555416395 4611686018427387904.
Definition lit_0_00001 : float :=
  Fin false 5902958103587057 590295810358705651712.
Definition lit_0_0321 : float :=
  Fin false 4626097537234973 144115188075855872.
Definition lit_0_999 : float :=
  Fin false 8998192055486251 9007199254740992.

(** Every sample is found normal; the variances are found equal, or not;
    the hypothesis test has the p-value 0.0321. *)
Definition sample_lib_equal : Lib :=
  sample_lib (fun _ => lit_1_0) lit_0_5 lit_0_0321.
Definition sample_lib_unequal : Lib :=
  sample_lib (fun _ => lit_1_0) lit_0_0321 lit_0_0321.

(** The sample with the outlier 100 is found not normal (p-value 0.00001);
    the variances are found equal; the hypothesis test has the p-value
    0.000511, which is what three samples of six values have when the
    ranks of the samples do not overlap. *)
Definition sample_lib_kruskal : Lib :=
  sample_lib
    (fun v => if existsb (feqb (Fin false 100 1)) v then lit_0_00001
              else lit_1_0)
    lit_0_5 lit_0_000511.

(* ===================================================================== *)
(** ** Observations on a run                                             *)
(* ===================================================================== *)

(** A library call returns, it does not raise. *)
Definition returns {A} (r : exn + A) : Prop := exists a, r = inr a.

(** Every call of the statistical and table libraries returns. *)
Record lib_returns (lib : Lib) : Prop := mk_lib_returns {
  shapiro_returns : forall v, returns (shapiro lib v);
  levene_returns : forall gs, returns (levene lib gs);
  ttest_ind_returns : forall v1 v2 b, returns (ttest_ind lib v1 v2 b);
  mannwhitneyu_returns : forall v1 v2, returns (mannwhitneyu lib v1 v2);
  f_oneway_returns : forall gs, returns (f_oneway lib gs);
  kruskal_returns : forall gs, returns (kruskal lib gs);
  pairwise_tukeyhsd_returns :
    forall fd ls, returns (pairwise_tukeyhsd lib fd ls);
  posthoc_dunn_returns : forall gs, returns (posthoc_dunn lib gs);
  pd_DataFrame_returns : forall rows h, returns (pd_DataFrame lib rows h);
  set_columns_returns : forall df ks, returns (set_columns lib df ks);
  set_index_returns : forall df ks, returns (set_index lib df ks)
}.

(** The p-value of a test result, nan standing for a call that raised. *)
Definition pvalue (r : exn + (float * float)) : float :=
  match r with
  | inr (_, p) => p
  | inl _ => NaN
  end.

(** The events of a list that are calls of a statistical capability. *)
Definition is_call (e : event) : bool :=
  match e with
  | Call_shapiro _ | Call_levene _ | Call_ttest_ind _ _ _
  | Call_mannwhitneyu _ _ | Call_f_oneway _ | Call_kruskal _
  | Call_pairwise_tukeyhsd _ _ | Call_posthoc_dunn _ => true
  | _ => false
  end.

(** A table is shown; a post-hoc procedure is called. *)
Definition is_table (e : event) : bool :=
  match e with St_table _ => true | _ => false end.

Definition is_posthoc_call (e : event) : bool :=
  match e with
  | Call_pairwise_tukeyhsd _ _ | Call_posthoc_dunn _ => true
  | _ => false
  end.

(** The calls of the two assumption checks. *)
Definition is_assumption_call (e : event) : bool :=
  match e with
  | Call_shapiro _ | Call_levene _ => true
  | _ => false
  end.

(** The events that show or deliver a report. *)
Definition is_report (e : event) : bool :=
  match e with
  | St_text_area _ _ _ | St_download_button _ _ _ => true
  | _ => false
  end.

(** The two input widgets of a group. *)
Definition is_input_widget (e : event) : bool :=
  match e with
  | St_text_input _ _ _ | St_text_area_input _ _ _ => true
  | _ => false
  end.

(** The value of [method] after the 2-group branch, and after the branch
    for 3 or more groups. *)
Definition method_two_group (all_normal is_equal_var : bool) : string :=
  if all_normal
  then (if is_equal_var then "Student's t-test" else "Welch's t-test")
  else "Mann-Whitney U-test".

Definition method_multi_group (all_normal is_equal_var : bool) : string :=
  if all_normal && is_equal_var then "One-way ANOVA + Tukey's HSD"
  else "Kruskal-Wallis test (Non-parametric)".

(** The display rule of the t-test, Mann-Whitney and ANOVA branches. *)
Definition p_disp_rule (p : float) : string :=
  if ltb p lit_0_001 then format_e 2 p else format_f 4 p.

(** The branch has left a post-hoc table. *)
Definition has_posthoc (c : Comparison) : bool :=
  match c_posthoc c with Some _ => true | None => false end.

(** The comparison branch that the script takes. *)
Definition comparison (lib : Lib) (d : dict) (an ev : bool)
    : M Comparison :=
  if (length d =? 2)%nat then two_group_comparison lib d an ev
  else multi_group_comparison lib d an ev.

(** The tabs with the two reports and their download buttons. *)
Definition report_events (jp en : string) : list event :=
  [St_tabs ["日本語レポート"; "English Report"];
   St_text_area "JP Report" jp 200;
   St_download_button "レポート(JP)を保存" jp "report_jp.txt";
   St_text_area "EN Report" en 200;
   St_download_button "Download Report (EN)" en "report_en.txt"].

(** A run of the analysis on [d] that reaches the end of the script with
    the log [l] and the variables [o]. *)
Definition completes (lib : Lib) (d : dict) (l : list event) (o : Outcome)
    : Prop :=
  analysis lib d = (l, inr (Some o)).

(* ===================================================================== *)
(** ** The decision table of the specification                           *)
(* ===================================================================== *)

Inductive MethodChoice : Type :=
| StudentT
| WelchT
| MannWhitneyU
| OneWayAnovaTukey
| KruskalWallisDunn.

(** The table of the specification, row by row; there is no row for fewer
    than two groups. *)
Definition decision_table (group_count : nat)
    (all_normal equal_variance : bool) : option MethodChoice :=
  match group_count, all_normal, equal_variance with
  | 0, _, _ | 1, _, _ => None
  | 2, true, true => Some StudentT
  | 2, true, false => Some WelchT
  | 2, false, _ => Some MannWhitneyU
  | _, true, true => Some OneWayAnovaTukey
  | _, true, false => Some KruskalWallisDunn
  | _, false, _ => Some KruskalWallisDunn
  end.

(** The name under which the script shows and reports each method. *)
Definition method_name (m : MethodChoice) : string :=
  match m with
  | StudentT => "Student's t-test"
  | WelchT => "Welch's t-test"
  | MannWhitneyU => "Mann-Whitney U-test"
  | OneWayAnovaTukey => "One-way ANOVA + Tukey's HSD"
  | KruskalWallisDunn => "Kruskal-Wallis test (Non-parametric)"
  end.

(* ===================================================================== *)
(** ** Observations on the reports                                       *)
(* ===================================================================== *)

(** The characters a formatted float can have: digits, the point, the
    exponent mark and its sign, and the letters of "nan" and "inf". *)
Definition num_char (c : ascii) : bool :=
  existsb (Ascii.eqb c)
    (list_ascii_of_string "0123456789.e+-naif").

(** [c] is another character than [x]. *)
Definition not_char (x : ascii) (c : ascii) : bool := negb (Ascii.eqb c x).

(** No line break in [s]. *)
Definition no_lf (s : string) : bool := all_chars (not_char LF) s.

(** The verdict words of the two templates. *)
Definition jp_verdict (is_sig : bool) : string :=
  if is_sig then "有意差あり" else "有意差なし".

Definition en_verdict (is_sig : bool) : string :=
  if is_sig then "Significant Difference Found"
  else "No Significant Difference".

Definition en_decision (is_sig : bool) : string :=
  if is_sig then "rejected" else "not rejected".

Definition is_digit (c : ascii) : bool :=
  let n := N_of_ascii c in ((48 <=? n) && (n <=? 57))%N.

Fixpoint skip_digits (s : string) : string :=
  match s with
  | String c r => if is_digit c then skip_digits r else s
  | EmptyString => s
  end.

Fixpoint until_colon (s : string) : option string :=
  match s with
  | EmptyString => None
  | String c r =>
      if Ascii.eqb c ":"%char then Some ""
      else option_map (String c) (until_colon r)
  end.

(** The label of a numbered line [N. label: text]. *)
Definition section_label (line : string) : option string :=
  match line with
  | String c _ =>
      if is_digit c then
        match skip_digits line with
        | String "."%char (String " "%char rest) => until_colon rest
        | _ => None
        end
      else None
  | EmptyString => None
  end.

Fixpoint labels_of (lines : list string) : list string :=
  match lines with
  | [] => []
  | x :: r =>
      match section_label x with
      | Some lab => lab :: labels_of r
      | None => labels_of r
      end
  end.

(** The sections of a report: the labels of its numbered lines. *)
Definition sections (report : string) : list string :=
  labels_of (split_nl report).

(* ===================================================================== *)
(** ** Observations on the input                                         *)
(* ===================================================================== *)

(** A group is kept when it has at least 3 values. *)
Definition valid (vals : list float) : bool := (3 <=? length vals)%nat.

(** One turn of the input loop on a parsed group. *)
Definition store (data_dict : dict) (g : string * list float) : dict :=
  if valid (snd g) then PyDict.set (fst g) (snd g) data_dict else data_dict.

(** [groups] are the names and the parsed values of the widgets. *)
Definition parsed (lib : Lib) (widgets : list (string * string))
    (groups : list (string * list float)) : Prop :=
  Forall2 (fun w g => fst g = fst w /\ parse_vals lib (snd w) = inr (snd g))
          widgets groups.

(** The groups that are kept. *)
Definition valid_groups (groups : list (string * list float))
    : list (string * list float) :=
  filter (fun g => valid (snd g)) groups.

(** All the values of the sample are the same. *)
Definition zero_variance (v : list float) : bool :=
  match v with
  | [] => false
  | x :: r => forallb (feqb x) r
  end.

(* ===================================================================== *)
(** ** Sample inputs                                                     *)
(* ===================================================================== *)

Definition sample_groups2 : dict :=
  [("A", [Fin false 10 1; Fin false 12 1; Fin false 11 1]);
   ("B", [Fin false 20 1; Fin false 22 1; Fin false 21 1])].

Definition sample_groups3 : dict :=
  [("A", [Fin false 10 1; Fin false 12 1; Fin false 11 1]);
   ("B", [Fin false 20 1; Fin false 22 1; Fin false 21 1]);
   ("C", [Fin false 5 1; Fin false 5 1; Fin false 5 1])].

Definition kruskal_groups : dict :=
  [("A", [Fin false 1 1; Fin false 2 1; Fin false 3 1;
          Fin false 4 1; Fin false 5 1; Fin false 100 1]);
   ("B", [Fin false 201 1; Fin false 202 1; Fin false 203 1;
          Fin false 204 1; Fin false 205 1; Fin false 206 1]);
   ("C", [Fin false 301 1; Fin false 302 1; Fin false 303 1;
          Fin false 304 1; Fin false 305 1; Fin false 306 1])].

Definition sample_widgets : list (string * string) :=
  [("A", "1,2,3"); ("B", "4,5,6"); ("A", "7,8,9")].

(** The same with a later group "A" of two values only. *)
Definition short_widgets : list (string * string) :=
  [("A", "1,2,3"); ("B", "4,5,6"); ("A", "7,8")].

(* ===================================================================== *)
(** ** 2. Group management, and further observations                     *)
(* ===================================================================== *)

(** Section 2 of the script. [session] is [st.session_state.g_count] when
    the key exists; [add] and [remove] are what the two [st.button] calls
    return. The result is the list of the buttons that are shown and the
    new [g_count]: the second button is created, and its value read, only
    when [g_count > 2] holds after the first one. *)
Definition group_controls (session : option nat) (add remove : bool)
    : list string * nat :=
  let g_count := match session with None => 3 | Some g => g end in
  let g_count := if add then g_count + 1 else g_count in
  if (2 <? g_count)%nat then
    (["＋ Add Group"; "－ Remove Group"],
     if remove then g_count - 1 else g_count)
  else (["＋ Add Group"], g_count).

(** The session state after a rerun of the script, and after a sequence
    of reruns of a new session. *)
Definition rerun (session : option nat) (clicks : bool * bool) : option nat :=
  Some (snd (group_controls session (fst clicks) (snd clicks))).

Definition session_after (clicks : list (bool * bool)) : option nat :=
  fold_left rerun clicks None.

(** [w] is one white-space character, any of those of [str.isspace] that
    [strip] removes, in UTF-8: the white-space prefix of [w] is all of
    [w]. *)
Definition is_ws_char (w : string) : bool :=
  match ws_prefix (codes w) with
  | O => false
  | S k => (S k =? String.length w)%nat
  end.

(** The white-space characters of [str.isspace], as UTF-8 bytes. *)
Definition ws_codes : list (list N) :=
  [[9]; [10]; [11]; [12]; [13]; [28]; [29]; [30]; [31]; [32];
   [194; 133]; [194; 160]; [225; 154; 128];
   [226; 128; 128]; [226; 128; 129]; [226; 128; 130]; [226; 128; 131];
   [226; 128; 132]; [226; 128; 133]; [226; 128; 134]; [226; 128; 135];
   [226; 128; 136]; [226; 128; 137]; [226; 128; 138];
   [226; 128; 168]; [226; 128; 169]; [226; 128; 175];
   [226; 129; 159]; [227; 128; 128]]%N.

(** A character of a text without entries: white space or a comma. *)
Definition blank_chunk (w : string) : bool :=
  String.eqb w "," || is_ws_char w.

(** The text made of the characters [chunks]. *)
Definition join (chunks : list string) : string :=
  fold_right String.append "" chunks.

(** Neither a comma nor a line break. *)
Definition token_char (c : ascii) : bool :=
  negb (Ascii.eqb c ","%char) && negb (Ascii.eqb c LF).

(** The values of the last of the groups [gs] that has the name [name] and
    at least 3 values, [acc] when there is none. *)
Definition last_valid (name : string) (gs : list (string * list float))
    (acc : option (list float)) : option (list float) :=
  fold_left
    (fun acc g =>
       if valid (snd g) && String.eqb name (fst g) then Some (snd g)
       else acc)
    gs acc.

(** The calls of a hypothesis test. *)
Definition is_test_call (e : event) : bool :=
  match e with
  | Call_ttest_ind _ _ _ | Call_mannwhitneyu _ _
  | Call_f_oneway _ | Call_kruskal _ => true
  | _ => false
  end.

(** The hypothesis test that the script calls for the groups [d] and the
    two flags: its event and its result. *)
Definition test_call (lib : Lib) (d : dict) (an ev : bool)
    : option (event * (exn + (float * float))) :=
  match d with
  | [(_, v1); (_, v2)] =>
      Some (if an
            then (Call_ttest_ind v1 v2 ev, ttest_ind lib v1 v2 ev)
            else (Call_mannwhitneyu v1 v2, mannwhitneyu lib v1 v2))
  | _ =>
      Some (if an && ev
            then (Call_f_oneway (PyDict.values d),
                  f_oneway lib (PyDict.values d))
            else (Call_kruskal (PyDict.values d),
                  kruskal lib (PyDict.values d)))
  end.

(** What the script shows of the method and of the p-value. *)
Definition method_banner (method : string) : string :=
  "**Method Selected: " ++ method ++ "**".

Definition shown_p_value (group_count : nat) (parametric : bool)
    (p_disp : string) : event :=
  if (group_count =? 2)%nat then St_metric "P-value" p_disp
  else if parametric
  then St_write ("Overall P-value (ANOVA): **" ++ p_disp ++ "**")
  else St_write ("Overall P-value (Kruskal-Wallis): **" ++ p_disp ++ "**").

(** What follows the overall p-value in the branch for 3 or more groups:
    nothing, or the post-hoc call and its table. *)
Definition posthoc_log (lib : Lib) (d : dict) (parametric : bool)
    (c : Comparison) (l : list event) : Prop :=
  if ltb (c_p_final c) lit_0_05 then
    if parametric then
      exists header rows df,
        pairwise_tukeyhsd lib (concat (PyDict.values d))
          (flat_map (fun '(n, sub) => map (fun _ => n) sub) d)
          = inr (header, rows) /\
        pd_DataFrame lib rows header = inr df /\
        c_posthoc c = Some df /\
        l = [Call_pairwise_tukeyhsd (concat (PyDict.values d))
               (flat_map (fun '(n, sub) => map (fun _ => n) sub) d);
             St_table df]
    else
      exists df0 df1 df2,
        posthoc_dunn lib (PyDict.values d) = inr df0 /\
        set_columns lib df0 (PyDict.keys d) = inr df1 /\
        set_index lib df1 (PyDict.keys d) = inr df2 /\
        c_posthoc c = Some df2 /\
        l = [St_write "Post-hoc (Dunn's test):";
             Call_posthoc_dunn (PyDict.values d);
             St_table df2]
  else c_posthoc c = None /\ l = [].

(** The events of a run that are the same in every branch: the headers,
    the assumption checks, the diagnostic log and the reports. *)
Definition is_frame (e : event) : bool :=
  match e with
  | St_header _ | Call_shapiro _ | Call_levene _ | St_expander _
  | St_write _ | St_divider | St_tabs _ | St_text_area _ _ _
  | St_download_button _ _ _ => true
  | _ => false
  end.

(** The banner that names the method. *)
Definition is_banner (e : event) : bool :=
  match e with
  | St_success _ | St_warning _ => true
  | _ => false
  end.

(** The sample library with a normality test that raises on the samples
    that [shapiro_fails] selects, and a variance test that raises when
    [levene_fails] is set. *)
Definition failing_lib (shapiro_fails : list float -> bool)
    (levene_fails : bool) : Lib :=
  {| float_of_str := float_of_str sample_lib_equal;
     shapiro := fun v =>
       if shapiro_fails v then inl (PyExc "ValueError" "shapiro")
       else shapiro sample_lib_equal v;
     levene := fun gs =>
       if levene_fails then inl (PyExc "ValueError" "levene")
       else levene sample_lib_equal gs;
     ttest_ind := ttest_ind sample_lib_equal;
     mannwhitneyu := mannwhitneyu sample_lib_equal;
     f_oneway := f_oneway sample_lib_equal;
     kruskal := kruskal sample_lib_equal;
     pairwise_tukeyhsd := pairwise_tukeyhsd sample_lib_equal;
     posthoc_dunn := posthoc_dunn sample_lib_equal;
     pd_DataFrame := pd_DataFrame sample_lib_equal;
     set_columns := set_columns sample_lib_equal;
     set_index := set_index sample_lib_equal |}.

(** An entry of the diagnostic log of the normality tests. *)
Definition shapiro_entry (lib : Lib) (kv : string * list float) : string :=
  fst kv ++ "(p=" ++ format_f 4 (pvalue (shapiro lib (snd kv))) ++ ")".


(** Three groups of the widgets, the second without a number. *)
Definition bad_widgets : list (string * string) :=
  [("A", "1,2,3"); ("B", "4,x,6"); ("C", "7,8,9")].

(* ===================================================================== *)
(** ** Facts about strings and about formatted numbers                   *)
(* ===================================================================== *)

Example strip_ex : strip "  12.5 	" = "12.5" /\ strip " 　 " = "".
Proof. vm_compute. split; reflexivity. Qed.

Lemma all_chars_app p s t :
  all_chars p (s ++ t) = all_chars p s && all_chars p t.
Proof.
  induction s as [|c s IH]; simpl; [reflexivity|].
  now rewrite IH, andb_assoc.
Qed.

Lemma all_chars_weaken (p q : ascii -> bool) s :
  (forall c, p c = true -> q c = true) ->
  all_chars p s = true -> all_chars q s = true.
Proof.
  intros Hpq. induction s as [|c s IH]; simpl; [reflexivity|].
  intros H. apply andb_true_iff in H as [Hc Hs].
  now rewrite (Hpq _ Hc), IH.
Qed.

Lemma digit_num_char n : num_char (digit n) = true.
Proof.
  unfold digit.
  destruct (n mod 10)%N as [|q]; [reflexivity|].
  do 4 (try (destruct q as [q|q|]; try reflexivity)).
Qed.

Lemma fixed_digits_num_char w : forall n acc,
  all_chars num_char acc = true ->
  all_chars num_char (fixed_digits w n acc) = true.
Proof.
  induction w as [|w IH]; intros n acc Hacc; simpl; [exact Hacc|].
  apply IH. simpl. now rewrite digit_num_char.
Qed.

Lemma digits_fuel_num_char fuel : forall n acc,
  all_chars num_char acc = true ->
  all_chars num_char (digits_fuel fuel n acc) = true.
Proof.
  induction fuel as [|f IH]; intros n acc Hacc; simpl; [exact Hacc|].
  destruct (n <? 10)%N.
  - simpl. now rewrite digit_num_char.
  - apply IH. simpl. now rewrite digit_num_char.
Qed.

Lemma dec_num_char n : all_chars num_char (dec n) = true.
Proof. apply digits_fuel_num_char. reflexivity. Qed.

Lemma sign_str_num_char neg : all_chars num_char (sign_str neg) = true.
Proof. now destruct neg. Qed.

Lemma frac_str_num_char prec k : all_chars num_char (frac_str prec k) = true.
Proof.
  unfold frac_str. destruct prec as [|w]; [reflexivity|].
  change (all_chars num_char (fixed_digits (S w) k "") = true).
  apply fixed_digits_num_char. reflexivity.
Qed.

Lemma exp_str_num_char e : all_chars num_char (exp_str e) = true.
Proof.
  unfold exp_str.
  change (all_chars num_char
            ((if (e <? 0)%Z then "-" else "+") ++
             (if (Z.abs_N e <? 10)%N
              then String "0"%char (dec (Z.abs_N e))
              else dec (Z.abs_N e))) = true).
  rewrite all_chars_app.
  destruct (e <? 0)%Z, (Z.abs_N e <? 10)%N;
    cbn [all_chars andb]; try apply dec_num_char;
    change (all_chars num_char (dec (Z.abs_N e)) = true); apply dec_num_char.
Qed.

Lemma mantissa_str_num_char prec k :
  all_chars num_char (mantissa_str prec k) = true.
Proof.
  unfold mantissa_str. cbn [all_chars].
  now rewrite digit_num_char, frac_str_num_char.
Qed.

Lemma format_f_num_char prec x : all_chars num_char (format_f prec x) = true.
Proof.
  destruct x as [|neg|neg n d]; [reflexivity| now destruct neg|].
  unfold format_f.
  now rewrite !all_chars_app, sign_str_num_char, dec_num_char,
    frac_str_num_char.
Qed.

Lemma format_e_num_char prec x : all_chars num_char (format_e prec x) = true.
Proof.
  destruct x as [|neg|neg n d]; [reflexivity| now destruct neg|].
  unfold format_e.
  destruct n as [|q].
  - now rewrite !all_chars_app, sign_str_num_char, mantissa_str_num_char,
      exp_str_num_char.
  - cbv zeta.
    match goal with |- context [if ?c then _ else _] => destruct c end;
    now rewrite !all_chars_app, sign_str_num_char, mantissa_str_num_char,
      exp_str_num_char.
Qed.

(* ===================================================================== *)
(** ** The fuel of the digit and exponent loops is enough                *)
(* ===================================================================== *)

Lemma pos_size_bound p : (N.pos p < 2 ^ N.of_nat (Pos.size_nat p))%N.
Proof.
  induction p as [p IH|p IH|]; cbn [Pos.size_nat].
  - rewrite Nat2N.inj_succ, N.pow_succ_r'. lia.
  - rewrite Nat2N.inj_succ, N.pow_succ_r'. lia.
  - reflexivity.
Qed.

Lemma n_size_bound n : (n < 2 ^ N.of_nat (N.size_nat n))%N.
Proof. destruct n as [|p]; [reflexivity|apply pos_size_bound]. Qed.






Lemma exp10_fuel_S f n d e :
  exp10_fuel (S f) n d e =
  if (n <? d)%N then exp10_fuel f (10 * n)%N d (e - 1)%Z
  else if (10 * d <=? n)%N then exp10_fuel f n (10 * d)%N (e + 1)%Z
  else e.
Proof. reflexivity. Qed.

Lemma exp10_fuel_down f : forall n d e,
  (0 < n)%N -> (n < d)%N -> (d < n * 2 ^ N.of_nat f)%N ->
  exists k, exp10_fuel (S f) n d e = (e - Z.of_N k)%Z /\
            (d <= n * 10 ^ k)%N /\ (n * 10 ^ k < 10 * d)%N.
Proof.
  induction f as [|f IH]; intros n d e Hn Hlt Hf.
  - cbn in Hf. lia.
  - rewrite exp10_fuel_S. apply N.ltb_lt in Hlt as Hb. rewrite Hb.
    destruct (N.lt_ge_cases (10 * n) d) as [E|E].
    + destruct (IH (10 * n)%N d (e - 1)%Z) as (k & Hk & Hlo & Hhi);
        [lia|exact E| |].
      * rewrite Nat2N.inj_succ, N.pow_succ_r' in Hf. nia.
      * exists (N.succ k). rewrite Hk, N.pow_succ_r'.
        split; [lia|]. split; nia.
    + rewrite exp10_fuel_S.
      replace (10 * n <? d)%N with false by (symmetry; apply N.ltb_ge; lia).
      replace (10 * d <=? 10 * n)%N with false
        by (symmetry; apply N.leb_gt; lia).
      exists 1%N. rewrite N.pow_1_r. split; [lia|]. split; lia.
Qed.

Lemma exp10_fuel_up f : forall n d e,
  (0 < d)%N -> (10 * d <= n)%N -> (n < d * 2 ^ N.of_nat f)%N ->
  exists k, exp10_fuel (S f) n d e = (e + Z.of_N k)%Z /\
            (d * 10 ^ k <= n)%N /\ (n < 10 * (d * 10 ^ k))%N.
Proof.
  induction f as [|f IH]; intros n d e Hd Hle Hf.
  - cbn in Hf. lia.
  - rewrite exp10_fuel_S.
    replace (n <? d)%N with false by (symmetry; apply N.ltb_ge; lia).
    apply N.leb_le in Hle as Hb. rewrite Hb.
    destruct (N.lt_ge_cases n (10 * (10 * d))) as [E|E].
    + rewrite exp10_fuel_S.
      replace (n <? 10 * d)%N with false by (symmetry; apply N.ltb_ge; lia).
      replace (10 * (10 * d) <=? n)%N with false
        by (symmetry; apply N.leb_gt; lia).
      exists 1%N. rewrite N.pow_1_r. split; [lia|]. split; lia.
    + destruct (IH n (10 * d)%N (e + 1)%Z) as (k & Hk & Hlo & Hhi);
        [lia|exact E| |].
      * rewrite Nat2N.inj_succ, N.pow_succ_r' in Hf. nia.
      * exists (N.succ k). rewrite Hk, N.pow_succ_r'.
        split; [lia|]. split; nia.
Qed.

(** The exponent that [format_e] uses is the decimal exponent of the
    value: [10^e <= n/d < 10^(e+1)]. *)
Lemma exp10_spec n d :
  (0 < n)%N ->
  (N.pos d * 10 ^ Z.to_N (exp10 n d) <= n * 10 ^ Z.to_N (- exp10 n d))%N /\
  (n * 10 ^ Z.to_N (- exp10 n d) <
   10 * (N.pos d * 10 ^ Z.to_N (exp10 n d)))%N.
Proof.
  intros Hn. unfold exp10.
  pose proof (n_size_bound n) as Bn.
  pose proof (pos_size_bound d) as Bd.
  set (f := (N.size_nat n + Pos.size_nat d)%nat).
  assert (Hpow : (2 ^ N.of_nat f =
                  2 ^ N.of_nat (N.size_nat n) *
                  2 ^ N.of_nat (Pos.size_nat d))%N).
  { unfold f. now rewrite Nat2N.inj_add, N.pow_add_r. }
  destruct (N.lt_ge_cases n (N.pos d)) as [Hlt|Hge].
  - destruct (exp10_fuel_down f n (N.pos d) 0 Hn Hlt) as (k & -> & Hlo & Hhi).
    { rewrite Hpow. nia. }
    replace (Z.to_N (0 - Z.of_N k)) with 0%N by lia.
    replace (Z.to_N (- (0 - Z.of_N k))) with k by lia.
    rewrite N.pow_0_r. lia.
  - destruct (N.lt_ge_cases n (10 * N.pos d)) as [Hlt|Hge10].
    + cbn [exp10_fuel].
      replace (n <? N.pos d)%N with false by (symmetry; apply N.ltb_ge; lia).
      replace (10 * N.pos d <=? n)%N with false
        by (symmetry; apply N.leb_gt; lia).
      cbn. lia.
    + destruct (exp10_fuel_up f n (N.pos d) 0 ltac:(lia) Hge10)
        as (k & -> & Hlo & Hhi).
      { rewrite Hpow. nia. }
      replace (Z.to_N (0 + Z.of_N k)) with k by lia.
      replace (Z.to_N (- (0 + Z.of_N k))) with 0%N by lia.
      rewrite N.pow_0_r. lia.
Qed.

(** After [strip_fuel] with the length of the text as fuel, no white
    space is left at the front. *)
Lemma strip_fuel_done (ws : list N -> nat) fuel : forall l,
  ws [] = 0 -> length l <= fuel -> ws (strip_fuel ws fuel l) = 0.
Proof.
  induction fuel as [|f IH]; intros l Hnil Hlen.
  - destruct l; [exact Hnil|cbn in Hlen; lia].
  - cbn [strip_fuel]. destruct (ws l) as [|k] eqn:E; [exact E|].
    apply IH; [exact Hnil|].
    destruct l as [|x l]; [rewrite Hnil in E; discriminate|].
    cbn [skipn length] in *. rewrite length_skipn. lia.
Qed.

(* ===================================================================== *)
(** ** Runs of the script                                                *)
(* ===================================================================== *)

Lemma sample_lib_returns sh lv pt : lib_returns (sample_lib sh lv pt).
Proof. constructor; intros; eexists; reflexivity. Qed.

Lemma bind_inr {A B} (m : M A) (f : A -> M B) l b :
  bind m f = (l, inr b) ->
  exists l1 a l2, m = (l1, inr a) /\ f a = (l2, inr b) /\ l = (l1 ++ l2)%list.
Proof.
  unfold bind. destruct m as [l1 [e|a]]; [discriminate|].
  destruct (f a) as [l2 r] eqn:E. intros H. inversion H; subst.
  now exists l1, a, l2.
Qed.

Lemma call_inr {A} e (r : exn + A) l a :
  call e r = (l, inr a) -> l = [e] /\ r = inr a.
Proof. unfold call. intros H. now inversion H. Qed.

Lemma lift_inr {A} (r : exn + A) l a :
  lift r = (l, inr a) -> l = [] /\ r = inr a.
Proof. unfold lift. intros H. now inversion H. Qed.

Lemma emit_inr e l u : emit e = (l, inr u) -> l = [e].
Proof. unfold emit. intros H. now inversion H. Qed.

Lemma ret_inr {A} (a b : A) l : ret a = (l, inr b) -> l = [] /\ a = b.
Proof. unfold ret. intros H. now inversion H. Qed.

Lemma some_inj {A} (x y : A) : Some x = Some y -> x = y.
Proof. congruence. Qed.

(** Take a completed run apart, call by call. *)
Ltac run_inv H :=
  lazymatch type of H with
  | bind _ _ = (_, inr _) =>
      let l1 := fresh "l" in
      let a := fresh "a" in
      let l2 := fresh "l" in
      let Hc := fresh "Hc" in
      apply bind_inr in H as (l1 & a & l2 & Hc & H & ->);
      run_inv Hc;
      lazymatch type of a with
      | prod _ _ => destruct a as [? ?]
      | unit => destruct a
      | _ => idtac
      end;
      run_inv H
  | call _ _ = (_, inr _) => apply call_inr in H as [-> H]
  | lift _ = (_, inr _) => apply lift_inr in H as [-> H]
  | emit _ = (_, inr _) => apply emit_inr in H as ->
  | ret _ = (_, inr _) => apply ret_inr in H as [-> H]
  | _ => idtac
  end.

(** Unfold the monad once the results of the calls are known. *)
Ltac run_eval := cbv beta iota delta [bind call emit ret lift raise].

Section Runs.

Variable lib : Lib.

Lemma shapiro_loop_inv items : forall an sl l an' sl',
  shapiro_loop lib items an sl = (l, inr (an', sl')) ->
  Forall (fun kv => returns (shapiro lib (snd kv))) items /\
  an' = an &&
        forallb (fun kv => gtb (pvalue (shapiro lib (snd kv))) lit_0_05) items /\
  l = map (fun kv => Call_shapiro (snd kv)) items /\
  sl' = app sl (map (fun kv => fst kv ++ "(p=" ++
                       format_f 4 (pvalue (shapiro lib (snd kv))) ++ ")")
                    items).
Proof.
  induction items as [|[n v] rest IH]; intros an sl l an' sl' H.
  - inversion H; subst. rewrite andb_true_r, app_nil_r. auto.
  - cbn [shapiro_loop] in H.
    apply bind_inr in H as (l1 & [s p] & l2 & Hc & Hk & ->).
    unfold call in Hc. inversion Hc as [[Hl Hs]]; subst l1.
    apply IH in Hk as (Hall & -> & -> & ->).
    cbn [snd fst map forallb]. rewrite Hs. cbn [pvalue].
    repeat split.
    + constructor; [now exists (s, p)|exact Hall].
    + now rewrite andb_assoc.
    + now rewrite <- app_assoc.
Qed.

Lemma shapiro_loop_returns items : forall an sl,
  (forall v, returns (shapiro lib v)) ->
  exists l r, shapiro_loop lib items an sl = (l, inr r).
Proof.
  induction items as [|[n v] rest IH]; intros an sl Hsh.
  - now exists [], (an, sl).
  - cbn [shapiro_loop]. destruct (Hsh v) as [[s p] Hv]. rewrite Hv.
    unfold call. cbn [bind].
    destruct (IH (an && gtb p lit_0_05)
                 (app sl [n ++ "(p=" ++ format_f 4 p ++ ")"]) Hsh)
      as (l & r & ->).
    now eexists _, r.
Qed.

Lemma two_group_inv d an ev l c :
  two_group_comparison lib d an ev = (l, inr c) ->
  c_method c = method_two_group an ev /\
  c_p_disp c = p_disp_rule (c_p_final c) /\
  c_posthoc c = None /\
  existsb is_table l = false /\
  existsb is_posthoc_call l = false /\
  existsb is_assumption_call l = false.
Proof.
  unfold two_group_comparison, method_two_group, p_disp_rule.
  destruct (PyDict.keys d) as [|gn0 [|gn1 ks]]; try discriminate.
  destruct (PyDict.get d gn0) as [v1|]; try discriminate.
  destruct (PyDict.get d gn1) as [v2|]; try discriminate.
  intros H. destruct an; run_inv H; subst c; injection Hc as <- <-;
    cbn [c_method c_p_disp c_p_final c_posthoc app existsb is_table
         is_posthoc_call is_assumption_call orb];
    repeat split; reflexivity.
Qed.

Lemma multi_group_inv d an ev l c :
  multi_group_comparison lib d an ev = (l, inr c) ->
  c_method c = method_multi_group an ev /\
  c_p_disp c = (if an && ev then p_disp_rule (c_p_final c)
                else format_f 4 (c_p_final c)) /\
  c_p_final c =
    pvalue (if an && ev then f_oneway lib (PyDict.values d)
            else kruskal lib (PyDict.values d)) /\
  has_posthoc c = ltb (c_p_final c) lit_0_05 /\
  existsb is_table l = ltb (c_p_final c) lit_0_05 /\
  existsb is_posthoc_call l = ltb (c_p_final c) lit_0_05 /\
  existsb is_assumption_call l = false.
Proof.
  unfold multi_group_comparison, method_multi_group, p_disp_rule, has_posthoc.
  intros H. destruct (an && ev); run_inv H;
    match type of H with
    | context [ltb ?p lit_0_05] => destruct (ltb p lit_0_05) eqn:Hp
    end; run_inv H; subst c;
    cbn [c_method c_p_disp c_p_final c_posthoc app existsb is_table
         is_posthoc_call is_assumption_call orb];
    rewrite Hp, Hc; repeat split; reflexivity.
Qed.

(** A completed run of the analysis branch, taken apart. *)
Lemma analysis_inv d l o :
  analysis lib d = (l, inr (Some o)) ->
  2 <= length d /\
  exists l_cmp c,
    comparison lib d (all_normal o) (is_equal_var o) = (l_cmp, inr c) /\
    Forall (fun kv => returns (shapiro lib (snd kv))) d /\
    all_normal o =
      forallb (fun kv => gtb (pvalue (shapiro lib (snd kv))) lit_0_05) d /\
    returns (levene lib (PyDict.values d)) /\
    p_lev o = pvalue (levene lib (PyDict.values d)) /\
    is_equal_var o = gtb (p_lev o) lit_0_05 /\
    method o = c_method c /\
    p_final o = c_p_final c /\
    p_disp o = c_p_disp c /\
    posthoc o = c_posthoc c /\
    is_sig o = ltb (p_final o) lit_0_05 /\
    (jp_reason o, en_reason o) = reasons (all_normal o) (is_equal_var o) /\
    out_jp_report o =
      jp_report (method o) (jp_reason o) (is_sig o) (p_disp o) /\
    out_en_report o =
      en_report (method o) (en_reason o) (is_sig o) (p_disp o) /\
    l = (St_header "📊 Results & Analysis Log"
         :: map (fun kv => Call_shapiro (snd kv)) d
         ++ Call_levene (PyDict.values d)
         :: l_cmp
         ++ St_expander "Detailed Diagnostic Log"
         :: St_write ("・Normality (Shapiro-Wilk): " ++
                      String.concat ", " (shapiro_log o))
         :: St_write ("・Equal Variance (Levene): p = " ++
                      format_f 4 (p_lev o))
         :: St_divider
         :: St_header "📝 Generated Reports"
         :: report_events (out_jp_report o) (out_en_report o))%list.
Proof.
  unfold analysis. destruct (2 <=? length d)%nat eqn:Hlen.
  2:{ intros H. run_inv H. discriminate. }
  apply Nat.leb_le in Hlen. intros H. split; [exact Hlen|].
  run_inv H.
  apply shapiro_loop_inv in Hc as (Hall & Han & -> & Hsl).
  destruct (reasons b (gtb f0 lit_0_05)) as [jp en] eqn:Hr.
  run_inv H. apply some_inj in H. subst o.
  cbv beta iota delta
    [all_normal is_equal_var p_lev method p_final p_disp posthoc
     is_sig jp_reason en_reason out_jp_report out_en_report shapiro_log].
  exists l0, a. unfold comparison. rewrite Hc1, Hc0.
  repeat (split; [first [reflexivity | assumption | now eexists
                         | now rewrite Hr]|]).
  cbn [app]. rewrite ?app_nil_r, <- ?app_assoc. reflexivity.
Qed.


Lemma comparison_returns d an ev :
  lib_returns lib -> 2 <= length d ->
  exists l c, comparison lib d an ev = (l, inr c).
Proof.
  intros R Hlen. unfold comparison.
  destruct (length d =? 2)%nat eqn:H2.
  - apply Nat.eqb_eq in H2.
    destruct d as [|[k0 v0] [|[k1 v1] [|x r]]]; try discriminate.
    unfold two_group_comparison. cbn [PyDict.keys PyDict.get map fst].
    rewrite !String.eqb_refl.
    assert (exists v, (if String.eqb k1 k0 then Some v0 else Some v1)
                      = Some v) as [v ->]
      by (destruct (String.eqb k1 k0); eauto).
    destruct an.
    + destruct (ttest_ind_returns _ R v0 v ev) as [[s p] ->].
      run_eval. eauto.
    + destruct (mannwhitneyu_returns _ R v0 v) as [[s p] ->].
      run_eval. eauto.
  - unfold multi_group_comparison. destruct (an && ev).
    + destruct (f_oneway_returns _ R (PyDict.values d)) as [[s p] ->].
      run_eval. destruct (ltb p lit_0_05); [|eauto].
      destruct (pairwise_tukeyhsd_returns _ R (concat (PyDict.values d))
                  (flat_map (fun '(n, sub) => map (fun _ => n) sub) d))
        as [[h rows] ->].
      destruct (pd_DataFrame_returns _ R rows h) as [df ->]. eauto.
    + destruct (kruskal_returns _ R (PyDict.values d)) as [[s p] ->].
      run_eval. destruct (ltb p lit_0_05); [|eauto].
      destruct (posthoc_dunn_returns _ R (PyDict.values d)) as [df ->].
      destruct (set_columns_returns _ R df (PyDict.keys d)) as [df1 ->].
      destruct (set_index_returns _ R df1 (PyDict.keys d)) as [df2 ->].
      eauto.
Qed.

(** When the library calls return, the analysis branch runs to its end. *)
Lemma analysis_returns d :
  lib_returns lib -> 2 <= length d ->
  exists l o, analysis lib d = (l, inr (Some o)).
Proof.
  intros R Hlen. unfold analysis.
  rewrite (proj2 (Nat.leb_le _ _) Hlen).
  destruct (shapiro_loop_returns d true [] (shapiro_returns _ R))
    as (l1 & [an sl] & E1).
  destruct (levene_returns _ R (PyDict.values d)) as [[s p] E2].
  destruct (comparison_returns d an (gtb p lit_0_05) R)
    as (l2 & c & E3); [exact Hlen|].
  unfold comparison in E3.
  rewrite E1, E2. run_eval. rewrite E3.
  destruct (reasons an (gtb p lit_0_05)) as [jp en]. eauto.
Qed.

End Runs.

(* ===================================================================== *)
(** ** The choice of the method                                         *)
(* ===================================================================== *)

Section Selection.

Variable lib : Lib.

Lemma comparison_method d an ev l c :
  2 <= length d ->
  comparison lib d an ev = (l, inr c) ->
  exists m, decision_table (length d) an ev = Some m /\
            c_method c = method_name m.
Proof.
  intros Hlen. unfold comparison.
  destruct (length d) as [|[|[|n]]] eqn:E; try lia; cbn [Nat.eqb].
  - intros H. apply two_group_inv in H as (-> & _).
    destruct an, ev; eexists; split; reflexivity.
  - intros H. apply multi_group_inv in H as (-> & _).
    destruct an, ev; eexists; split; reflexivity.
Qed.

Lemma method_of_run d l o :
  completes lib d l o ->
  exists m, decision_table (length d) (all_normal o) (is_equal_var o) = Some m
            /\ method o = method_name m.
Proof.
  intros H. apply analysis_inv in H as (Hlen & lc & c & Hc & H).
  decompose [and] H. clear H.
  destruct (comparison_method _ _ _ _ _ Hlen Hc) as (m & Hm & Hn).
  exists m. split; [exact Hm|congruence].
Qed.

End Selection.

(** Two runs with the same number of groups and the same flags choose the
    same method, whatever the samples and the libraries are. *)
Lemma method_depends_on_count_and_flags lib d l o lib' d' l' o' :
  completes lib d l o -> completes lib' d' l' o' ->
  length d' = length d ->
  all_normal o' = all_normal o -> is_equal_var o' = is_equal_var o ->
  method o' = method o.
Proof.
  intros H H' El Ea Ev.
  apply method_of_run in H as (m & Hm & ->).
  apply method_of_run in H' as (m' & Hm' & ->).
  rewrite El, Ea, Ev in Hm'. congruence.
Qed.

(** C1. With at least two groups, the method of a run is the entry of the
    decision table for the number of groups and the two assumption flags
    (Student for 2 groups, normal, equal variance; Welch for 2, normal,
    unequal; Mann-Whitney for 2, not normal; ANOVA with Tukey for 3 or more,
    normal, equal; Kruskal-Wallis with Dunn for every other case of 3 or
    more); any other run with the same number of groups and the same two
    flags has the same method, whatever its samples are; and such a run
    reaches its end whenever the library calls return. *)
Theorem method_follows_decision_table (lib : Lib) (d : dict) :
  2 <= length d ->
  (forall l o, completes lib d l o ->
     (exists m,
        decision_table (length d) (all_normal o) (is_equal_var o) = Some m /\
        method o = method_name m) /\
     (forall lib' d' l' o', completes lib' d' l' o' ->
        length d' = length d ->
        all_normal o' = all_normal o -> is_equal_var o' = is_equal_var o ->
        method o' = method o)) /\
  (lib_returns lib -> exists l o, completes lib d l o).
Proof.
  intros Hlen. split.
  - intros l o H. split.
    + exact (method_of_run lib d l o H).
    + intros lib' d' l' o' H' El Ea Ev.
      exact (method_depends_on_count_and_flags
               lib d l o lib' d' l' o' H H' El Ea Ev).
  - intros R. now apply analysis_returns.
Qed.

(** The decision table is total from two groups on. *)
Lemma decision_table_total n an ev :
  2 <= n -> exists m, decision_table n an ev = Some m.
Proof.
  intros H. destruct n as [|[|[|n]]]; try lia;
    destruct an, ev; eexists; reflexivity.
Qed.

Lemma method_follows_decision_table_witness :
  exists l o,
    completes sample_lib_equal sample_groups2 l o /\
    (exists m,
       decision_table 2 (all_normal o) (is_equal_var o) = Some m /\
       method o = method_name m) /\
    (forall lib' d' l' o', completes lib' d' l' o' ->
       length d' = 2 ->
       all_normal o' = all_normal o -> is_equal_var o' = is_equal_var o ->
       method o' = method o).
Proof.
  destruct (method_follows_decision_table sample_lib_equal sample_groups2)
    as [Hall Hex]; [simpl; lia|].
  destruct Hex as (l & o & Hc);
    [constructor; intros; eexists; reflexivity|].
  exists l, o. split; [exact Hc|exact (Hall l o Hc)].
Defined.

(* ===================================================================== *)
(** ** Assumption flags, post-hoc gating and the idle branch             *)
(* ===================================================================== *)

Lemma existsb_false_filter {A} (p : A -> bool) l :
  existsb p l = false -> filter p l = [].
Proof.
  induction l as [|x l IH]; cbn [existsb filter]; [reflexivity|].
  intros H. apply orb_false_iff in H as [-> H]. now apply IH.
Qed.

Lemma existsb_map_false {A B} (p : B -> bool) (f : A -> B) l :
  (forall x, p (f x) = false) -> existsb p (map f l) = false.
Proof.
  intros H. induction l as [|x l IH]; cbn [map existsb]; [reflexivity|].
  now rewrite H, IH.
Qed.

Lemma filter_map_true {A B} (p : B -> bool) (f : A -> B) l :
  (forall x, p (f x) = true) -> filter p (map f l) = map f l.
Proof.
  intros H. induction l as [|x l IH]; cbn [map filter]; [reflexivity|].
  now rewrite H, IH.
Qed.

Lemma comparison_inv lib d an ev l c :
  2 <= length d ->
  comparison lib d an ev = (l, inr c) ->
  has_posthoc c = (3 <=? length d)%nat && ltb (c_p_final c) lit_0_05 /\
  existsb is_table l = (3 <=? length d)%nat && ltb (c_p_final c) lit_0_05 /\
  existsb is_posthoc_call l =
    (3 <=? length d)%nat && ltb (c_p_final c) lit_0_05 /\
  existsb is_assumption_call l = false /\
  (3 <= length d ->
   c_p_final c =
     pvalue (if an && ev then f_oneway lib (PyDict.values d)
             else kruskal lib (PyDict.values d))).
Proof.
  intros Hlen. unfold comparison.
  destruct (length d) as [|[|[|n]]] eqn:E; try lia; cbn [Nat.eqb Nat.leb].
  - intros H. apply two_group_inv in H as (_ & _ & Hp & Ht & Hc & Ha).
    unfold has_posthoc. rewrite Hp, Ht, Hc, Ha.
    repeat split; try reflexivity. lia.
  - intros H. apply multi_group_inv in H as (_ & _ & Hf & Hp & Ht & Hc & Ha).
    rewrite Hp, Ht, Hc, Ha. repeat split; try reflexivity. now rewrite Hf.
Qed.

(** C7. In a run, [all_normal] holds exactly when the normality test of
    every group returned a p-value strictly greater than 0.05, and
    [is_equal_var] exactly when the one variance test, called once on all the
    groups together, returned a p-value strictly greater than 0.05; the
    normality test is called once per group, and 0.05 is the constant of the
    script (0.05 itself does not pass). *)
Theorem assumption_flags (lib : Lib) (d : dict) :
  2 <= length d ->
  (forall l o, completes lib d l o ->
     (all_normal o = true <->
      forall n v, In (n, v) d ->
        exists s p, shapiro lib v = inr (s, p) /\ gtb p lit_0_05 = true) /\
     (exists s p, levene lib (PyDict.values d) = inr (s, p) /\
                  p_lev o = p /\
                  (is_equal_var o = true <-> gtb p lit_0_05 = true)) /\
     filter is_assumption_call l =
       (map (fun kv => Call_shapiro (snd kv)) d ++
        [Call_levene (PyDict.values d)])%list /\
     gtb lit_0_05 lit_0_05 = false) /\
  (lib_returns lib -> exists l o, completes lib d l o).
Proof.
  intros Hlen. split; [|intros R; now apply analysis_returns].
  intros l o H. apply analysis_inv in H as (_ & lc & c & Hc & H).
  destruct H as (Hsh & Han & [[s p] Hlev] & Hpl & Hev & _ & _ & _ & _ & _
                 & _ & _ & _ & ->).
  apply comparison_inv in Hc as (_ & _ & _ & Ha & _); [|exact Hlen].
  split; [|split; [|split]].
  - rewrite Han, forallb_forall. rewrite Forall_forall in Hsh. split.
    + intros Hall n v Hin. specialize (Hall _ Hin). cbn [snd] in Hall.
      destruct (Hsh _ Hin) as [[s' p'] E]. cbn [snd] in E.
      rewrite E in Hall. now exists s', p'.
    + intros Hall [n v] Hin. destruct (Hall n v Hin) as (s' & p' & E & Hp).
      cbn [snd]. now rewrite E.
  - exists s, p. rewrite Hev, Hpl, Hlev. cbn [pvalue]. tauto.
  - cbn [filter is_assumption_call]. rewrite filter_app.
    rewrite filter_map_true by reflexivity.
    cbn [filter is_assumption_call]. rewrite filter_app.
    rewrite (existsb_false_filter _ _ Ha). reflexivity.
  - reflexivity.
Qed.

Lemma assumption_flags_witness :
  exists l o,
    completes sample_lib_equal sample_groups3 l o /\
    ((all_normal o = true <->
      forall n v, In (n, v) sample_groups3 ->
        exists s p,
          shapiro sample_lib_equal v
            = inr (s, p) /\ gtb p lit_0_05 = true) /\
     (exists s p,
        levene sample_lib_equal
               (PyDict.values sample_groups3) = inr (s, p) /\
        p_lev o = p /\
        (is_equal_var o = true <-> gtb p lit_0_05 = true)) /\
     filter is_assumption_call l =
       (map (fun kv => Call_shapiro (snd kv)) sample_groups3 ++
        [Call_levene (PyDict.values sample_groups3)])%list /\
     gtb lit_0_05 lit_0_05 = false).
Proof.
  destruct (assumption_flags sample_lib_equal sample_groups3)
    as [Hall Hex]; [simpl; lia|].
  destruct Hex as (l & o & Hc);
    [constructor; intros; eexists; reflexivity|].
  exists l, o. split; [exact Hc|exact (Hall l o Hc)].
Defined.

(** C4. In a run, a post-hoc table exists (the variable is set, the
    post-hoc procedure is called and [st.table] shows the result) exactly
    when there are at least 3 groups and the p-value of the omnibus test is
    strictly below 0.05; a run on 2 groups and a run whose omnibus test is
    not significant have none. *)
Theorem posthoc_gating (lib : Lib) (d : dict) :
  2 <= length d ->
  (forall l o, completes lib d l o ->
     let gate := (3 <=? length d)%nat && ltb (p_final o) lit_0_05 in
     (posthoc o <> None <-> gate = true) /\
     existsb is_table l = gate /\
     existsb is_posthoc_call l = gate /\
     (3 <= length d ->
      p_final o =
        pvalue (if all_normal o && is_equal_var o
                then f_oneway lib (PyDict.values d)
                else kruskal lib (PyDict.values d)))) /\
  (lib_returns lib -> exists l o, completes lib d l o).
Proof.
  intros Hlen. split; [|intros R; now apply analysis_returns].
  intros l o H. apply analysis_inv in H as (_ & lc & c & Hc & H).
  destruct H as (_ & _ & _ & _ & _ & _ & Hpf & _ & Hph & _ & _ & _ & _ & ->).
  apply comparison_inv in Hc as (Hp & Ht & Hcall & _ & Hom); [|exact Hlen].
  cbv zeta. rewrite Hpf, Hph. unfold has_posthoc in Hp.
  split; [|split; [|split]].
  - rewrite <- Hp. destruct (c_posthoc c); split; congruence.
  - cbn [existsb is_table orb]. rewrite existsb_app.
    rewrite existsb_map_false by reflexivity.
    cbn [existsb is_table orb]. rewrite existsb_app, Ht.
    cbn. now rewrite orb_false_r.
  - cbn [existsb is_posthoc_call orb]. rewrite existsb_app.
    rewrite existsb_map_false by reflexivity.
    cbn [existsb is_posthoc_call orb]. rewrite existsb_app, Hcall.
    cbn. now rewrite orb_false_r.
  - exact Hom.
Qed.

Lemma posthoc_gating_witness :
  exists l o,
    completes sample_lib_equal sample_groups3 l o /\
    (let gate := (3 <=? length sample_groups3)%nat
                 && ltb (p_final o) lit_0_05 in
     (posthoc o <> None <-> gate = true) /\
     existsb is_table l = gate /\
     existsb is_posthoc_call l = gate /\
     (3 <= length sample_groups3 ->
      p_final o =
        pvalue (if all_normal o && is_equal_var o
                then f_oneway sample_lib_equal
                       (PyDict.values sample_groups3)
                else kruskal sample_lib_equal
                       (PyDict.values sample_groups3)))).
Proof.
  destruct (posthoc_gating sample_lib_equal sample_groups3)
    as [Hall Hex]; [simpl; lia|].
  destruct Hex as (l & o & Hc);
    [constructor; intros; eexists; reflexivity|].
  exists l, o. split; [exact Hc|exact (Hall l o Hc)].
Defined.

(** C8. With fewer than 2 groups in [data_dict] the script takes the
    [else] branch: it shows the message asking for at least 2 groups and the
    disclaimer, returns without raising, calls no statistical capability and
    produces no report. *)
Theorem insufficient_groups_idle (lib : Lib) (d : dict) :
  length d < 2 ->
  analysis lib d =
    ([St_info "Please input data for at least 2 groups.";
      St_divider;
      St_caption "【Disclaimer】";
      St_caption disclaimer], inr None) /\
  existsb is_call (log_of (analysis lib d)) = false /\
  existsb is_report (log_of (analysis lib d)) = false.
Proof.
  intros Hlen. unfold analysis.
  replace (2 <=? length d)%nat with false
    by (symmetry; apply Nat.leb_gt; exact Hlen).
  repeat split.
Qed.

Lemma insufficient_groups_idle_witness :
  analysis sample_lib_equal
    [("A", [Fin false 10 1; Fin false 12 1; Fin false 11 1])] =
    ([St_info "Please input data for at least 2 groups.";
      St_divider;
      St_caption "【Disclaimer】";
      St_caption disclaimer], inr None) /\
  existsb is_call
    (log_of (analysis sample_lib_equal
       [("A", [Fin false 10 1; Fin false 12 1; Fin false 11 1])])) = false /\
  existsb is_report
    (log_of (analysis sample_lib_equal
       [("A", [Fin false 10 1; Fin false 12 1; Fin false 11 1])])) = false.
Proof.
  apply (insufficient_groups_idle
           sample_lib_equal
           [("A", [Fin false 10 1; Fin false 12 1; Fin false 11 1])]).
  simpl. lia.
Defined.

(* ===================================================================== *)
(** ** Lines and substrings of the reports                               *)
(* ===================================================================== *)

Lemma str_app_assoc (s t u : string) : (s ++ t) ++ u = s ++ (t ++ u).
Proof. induction s as [|c s IH]; simpl; [reflexivity|now rewrite IH]. Qed.

Lemma str_app_nil_r (s : string) : s ++ "" = s.
Proof. induction s as [|c s IH]; simpl; [reflexivity|now rewrite IH]. Qed.

Lemma num_char_not_char x c :
  num_char x = false -> num_char c = true -> not_char x c = true.
Proof.
  intros Hx Hc. unfold not_char. destruct (Ascii.eqb c x) eqn:E.
  - apply Ascii.eqb_eq in E. congruence.
  - reflexivity.
Qed.

Lemma num_chars_not_char x s :
  num_char x = false -> all_chars num_char s = true ->
  all_chars (not_char x) s = true.
Proof.
  intros Hx. apply all_chars_weaken. intros c. now apply num_char_not_char.
Qed.

Lemma split_nl_aux_line a : forall rest cur,
  no_lf a = true ->
  split_nl_aux (a ++ String LF rest) cur = (cur ++ a) :: split_nl_aux rest "".
Proof.
  induction a as [|c a IH]; intros rest cur H.
  - cbn [String.append split_nl_aux]. rewrite Ascii.eqb_refl.
    now rewrite str_app_nil_r.
  - cbn [no_lf all_chars] in H. apply andb_true_iff in H as [Hc Ha].
    unfold not_char in Hc. apply negb_true_iff in Hc.
    cbn [String.append split_nl_aux]. rewrite Hc.
    rewrite (IH rest _ Ha), str_app_assoc. reflexivity.
Qed.

(** A first line without a line break is split off as it is. *)
Lemma split_nl_line a rest :
  no_lf a = true -> split_nl (a ++ nl ++ rest) = a :: split_nl rest.
Proof. intros H. unfold split_nl, nl. cbn [String.append]. now apply split_nl_aux_line. Qed.

Lemma starts_with_app sub post : starts_with sub (sub ++ post) = true.
Proof.
  induction sub as [|c sub IH]; [reflexivity|].
  cbn [String.append starts_with]. now rewrite Ascii.eqb_refl.
Qed.

Lemma contains_app pre sub post : contains sub (pre ++ sub ++ post) = true.
Proof.
  induction pre as [|c pre IH].
  - cbn [String.append]. destruct (sub ++ post) eqn:E;
      cbn [contains]; rewrite <- E, starts_with_app; reflexivity.
  - cbn [String.append contains]. rewrite IH. apply orb_true_r.
Qed.

Lemma starts_with_all_chars p sub : forall s,
  starts_with sub s = true -> all_chars p s = true ->
  all_chars p sub = true.
Proof.
  induction sub as [|c sub IH]; intros s Hp Hs; [reflexivity|].
  destruct s as [|c' s]; [discriminate|].
  cbn [starts_with] in Hp. apply andb_true_iff in Hp as [Hc Hp].
  apply Ascii.eqb_eq in Hc as <-.
  cbn [all_chars] in *. apply andb_true_iff in Hs as [-> Hs].
  exact (IH s Hp Hs).
Qed.

(** A string all of whose characters satisfy [p] contains no string with
    a character that does not. *)
Lemma contains_all_chars p sub s :
  all_chars p s = true -> all_chars p sub = false -> contains sub s = false.
Proof.
  intros Hs Hsub. induction s as [|c s IH].
  - cbn [contains]. destruct (starts_with sub "") eqn:E; [|reflexivity].
    rewrite (starts_with_all_chars p sub "" E Hs) in Hsub. discriminate.
  - cbn [contains]. destruct (starts_with sub (String c s)) eqn:E.
    + rewrite (starts_with_all_chars p sub _ E Hs) in Hsub. discriminate.
    + cbn [all_chars] in Hs. apply andb_true_iff in Hs as [_ Hs].
      now rewrite (IH Hs).
Qed.

Lemma no_lf_app s t : no_lf (s ++ t) = no_lf s && no_lf t.
Proof. apply all_chars_app. Qed.

Lemma no_lf_num_chars s : all_chars num_char s = true -> no_lf s = true.
Proof. now apply num_chars_not_char. Qed.

(** The lines of the Japanese report. *)
Lemma jp_report_lines m r sig pd :
  no_lf m = true -> no_lf r = true -> no_lf pd = true ->
  split_nl (jp_report m r sig pd) =
    ["【解析報告書】";
     "1. 手法: " ++ m;
     "2. 理由: " ++ r;
     "3. 結果: " ++ jp_verdict sig ++ " (P=" ++ pd ++ ")";
     ""].
Proof.
  intros Hm Hr Hpd. unfold jp_report.
  rewrite split_nl_line by reflexivity.
  rewrite <- (str_app_assoc "1. 手法: " m).
  rewrite split_nl_line by (rewrite no_lf_app, Hm; reflexivity).
  rewrite <- (str_app_assoc "2. 理由: " r).
  rewrite split_nl_line by (rewrite no_lf_app, Hr; reflexivity).
  replace ("3. 結果: " ++ (if sig then "有意差あり" else "有意差なし") ++
           " (P=" ++ pd ++ ")" ++ nl)
    with (("3. 結果: " ++ jp_verdict sig ++ " (P=" ++ pd ++ ")") ++ nl ++ "")
    by (unfold jp_verdict; now rewrite !str_app_assoc).
  rewrite split_nl_line; [reflexivity|].
  rewrite !no_lf_app, Hpd. now destruct sig.
Qed.

(** The lines of the English report. *)
Lemma en_report_lines m r sig pd :
  no_lf m = true -> no_lf r = true -> no_lf pd = true ->
  split_nl (en_report m r sig pd) =
    ["【Statistical Analysis Report】";
     "1. Method: " ++ m;
     "2. Rationale: " ++ r;
     "3. Results: " ++ en_verdict sig ++ " (P=" ++ pd ++ ")";
     "4. Conclusion: Based on the " ++ m ++ ", the null hypothesis was " ++
       en_decision sig ++ ".";
     ""].
Proof.
  intros Hm Hr Hpd. unfold en_report.
  rewrite split_nl_line by reflexivity.
  rewrite <- (str_app_assoc "1. Method: " m).
  rewrite split_nl_line by (rewrite no_lf_app, Hm; reflexivity).
  rewrite <- (str_app_assoc "2. Rationale: " r).
  rewrite split_nl_line by (rewrite no_lf_app, Hr; reflexivity).
  replace ("3. Results: " ++
           (if sig then "Significant Difference Found"
            else "No Significant Difference") ++
           " (P=" ++ pd ++ ")" ++ nl ++
           "4. Conclusion: Based on the " ++ m ++
           ", the null hypothesis was " ++
           (if sig then "rejected" else "not rejected") ++ "." ++ nl)
    with (("3. Results: " ++ en_verdict sig ++ " (P=" ++ pd ++ ")") ++ nl ++
          ("4. Conclusion: Based on the " ++ m ++
           ", the null hypothesis was " ++ en_decision sig ++ ".") ++
          nl ++ "")
    by (unfold en_verdict, en_decision; now rewrite !str_app_assoc).
  rewrite split_nl_line by (rewrite !no_lf_app, Hpd; now destruct sig).
  rewrite split_nl_line; [reflexivity|].
  rewrite !no_lf_app, Hm. now destruct sig.
Qed.

(* ===================================================================== *)
(** ** The two reports                                                   *)
(* ===================================================================== *)

Lemma comparison_p_disp lib d an ev l c :
  2 <= length d ->
  comparison lib d an ev = (l, inr c) ->
  c_p_disp c =
    if (length d =? 2)%nat || an && ev then p_disp_rule (c_p_final c)
    else format_f 4 (c_p_final c).
Proof.
  intros Hlen. unfold comparison.
  destruct (length d =? 2)%nat; cbn [orb]; intros H.
  - now apply two_group_inv in H as (_ & -> & _).
  - now apply multi_group_inv in H as (_ & -> & _).
Qed.

Lemma p_disp_rule_num_char p : all_chars num_char (p_disp_rule p) = true.
Proof.
  unfold p_disp_rule.
  destruct (ltb p lit_0_001); [apply format_e_num_char|apply format_f_num_char].
Qed.

(** What the texts that a run puts into its reports are made of. *)
Lemma run_strings lib d l o :
  completes lib d l o ->
  (exists m, method o = method_name m) /\
  all_chars num_char (p_disp o) = true /\
  (jp_reason o, en_reason o) = reasons (all_normal o) (is_equal_var o) /\
  is_sig o = ltb (p_final o) lit_0_05 /\
  out_jp_report o = jp_report (method o) (jp_reason o) (is_sig o) (p_disp o) /\
  out_en_report o = en_report (method o) (en_reason o) (is_sig o) (p_disp o).
Proof.
  intros H. destruct (method_of_run lib d l o H) as (m & _ & Hm).
  apply analysis_inv in H as (Hlen & lc & c & Hc & H).
  destruct H as (_ & _ & _ & _ & _ & _ & Hpf & Hpd & _ & Hsig & Hr & Hjp
                 & Hen & _).
  repeat split; try assumption.
  - now exists m.
  - rewrite Hpd, (comparison_p_disp _ _ _ _ _ _ Hlen Hc).
    destruct ((length d =? 2)%nat || all_normal o && is_equal_var o);
      [apply p_disp_rule_num_char|apply format_f_num_char].
Qed.

Lemma method_name_no_lf m : no_lf (method_name m) = true.
Proof. now destruct m. Qed.

Lemma reasons_no_lf an ev :
  no_lf (fst (reasons an ev)) = true /\ no_lf (snd (reasons an ev)) = true.
Proof. destruct an, ev; split; reflexivity. Qed.

(** The lines of the two reports of a run. *)
Lemma run_report_lines lib d l o :
  completes lib d l o ->
  split_nl (out_jp_report o) =
    ["【解析報告書】";
     "1. 手法: " ++ method o;
     "2. 理由: " ++ jp_reason o;
     "3. 結果: " ++ jp_verdict (is_sig o) ++ " (P=" ++ p_disp o ++ ")";
     ""] /\
  split_nl (out_en_report o) =
    ["【Statistical Analysis Report】";
     "1. Method: " ++ method o;
     "2. Rationale: " ++ en_reason o;
     "3. Results: " ++ en_verdict (is_sig o) ++ " (P=" ++ p_disp o ++ ")";
     "4. Conclusion: Based on the " ++ method o ++
       ", the null hypothesis was " ++ en_decision (is_sig o) ++ ".";
     ""] /\
  is_sig o = ltb (p_final o) lit_0_05.
Proof.
  intros H.
  destruct (run_strings lib d l o H) as ([m Hm] & Hpd & Hr & Hsig & -> & ->).
  destruct (reasons_no_lf (all_normal o) (is_equal_var o)) as [Hj He].
  rewrite <- Hr in Hj, He. cbn [fst snd] in Hj, He.
  assert (no_lf (method o) = true) by (rewrite Hm; apply method_name_no_lf).
  apply no_lf_num_chars in Hpd.
  split; [|split]; [now apply jp_report_lines|now apply en_report_lines|].
  exact Hsig.
Qed.

(** C5, as amended. The English report of a run has the four sections
    Method, Rationale, Results and Conclusion, in this order; the Japanese
    report has the three sections 手法 (method), 理由 (rationale) and 結果
    (results), in this order, and no fourth one. *)
Theorem report_sections (lib : Lib) (d : dict) :
  2 <= length d ->
  (forall l o, completes lib d l o ->
     sections (out_en_report o) =
       ["Method"; "Rationale"; "Results"; "Conclusion"] /\
     sections (out_jp_report o) = ["手法"; "理由"; "結果"]) /\
  (lib_returns lib -> exists l o, completes lib d l o).
Proof.
  intros Hlen. split; [|intros R; now apply analysis_returns].
  intros l o H. unfold sections.
  destruct (run_report_lines lib d l o H) as (-> & -> & _).
  split; reflexivity.
Qed.

Lemma report_sections_witness :
  exists l o,
    completes sample_lib_equal sample_groups2 l o /\
    (sections (out_en_report o) =
       ["Method"; "Rationale"; "Results"; "Conclusion"] /\
     sections (out_jp_report o) = ["手法"; "理由"; "結果"]).
Proof.
  destruct (report_sections sample_lib_equal sample_groups2)
    as [Hall Hex]; [simpl; lia|].
  destruct Hex as (l & o & Hc);
    [constructor; intros; eexists; reflexivity|].
  exists l, o. split; [exact Hc|exact (Hall l o Hc)].
Defined.

(** C5 as it is stated fails: the Japanese report of the run on two
    normal groups of equal variance has three sections, and none of them is
    a conclusion. *)
Lemma jp_report_has_no_conclusion :
  match result_of (analysis sample_lib_equal
                            sample_groups2) with
  | inr (Some o) =>
      length (sections (out_jp_report o)) = 3 /\
      length (sections (out_en_report o)) = 4 /\
      contains "4. " (out_jp_report o) = false /\
      contains "Conclusion" (out_jp_report o) = false /\
      contains "結論" (out_jp_report o) = false
  | _ => False
  end.
Proof. vm_compute. repeat split. Qed.

(** C6. The two reports of a run state the same facts: line by line they
    are the Japanese and the English template filled with one method name,
    one verdict flag [is_sig], which is [p_final < 0.05], and one formatted
    p-value [p_disp]. *)
Theorem reports_agree (lib : Lib) (d : dict) :
  2 <= length d ->
  (forall l o, completes lib d l o ->
     split_nl (out_jp_report o) =
       ["【解析報告書】";
        "1. 手法: " ++ method o;
        "2. 理由: " ++ jp_reason o;
        "3. 結果: " ++ jp_verdict (is_sig o) ++ " (P=" ++ p_disp o ++ ")";
        ""] /\
     split_nl (out_en_report o) =
       ["【Statistical Analysis Report】";
        "1. Method: " ++ method o;
        "2. Rationale: " ++ en_reason o;
        "3. Results: " ++ en_verdict (is_sig o) ++ " (P=" ++ p_disp o ++ ")";
        "4. Conclusion: Based on the " ++ method o ++
          ", the null hypothesis was " ++ en_decision (is_sig o) ++ ".";
        ""] /\
     is_sig o = ltb (p_final o) lit_0_05) /\
  (lib_returns lib -> exists l o, completes lib d l o).
Proof.
  intros Hlen. split; [|intros R; now apply analysis_returns].
  intros l o H. exact (run_report_lines lib d l o H).
Qed.

Lemma reports_agree_witness :
  exists l o,
    completes sample_lib_equal sample_groups2 l o /\
    (split_nl (out_jp_report o) =
       ["【解析報告書】";
        "1. 手法: " ++ method o;
        "2. 理由: " ++ jp_reason o;
        "3. 結果: " ++ jp_verdict (is_sig o) ++ " (P=" ++ p_disp o ++ ")";
        ""] /\
     split_nl (out_en_report o) =
       ["【Statistical Analysis Report】";
        "1. Method: " ++ method o;
        "2. Rationale: " ++ en_reason o;
        "3. Results: " ++ en_verdict (is_sig o) ++ " (P=" ++ p_disp o ++ ")";
        "4. Conclusion: Based on the " ++ method o ++
          ", the null hypothesis was " ++ en_decision (is_sig o) ++ ".";
        ""] /\
     is_sig o = ltb (p_final o) lit_0_05).
Proof.
  destruct (reports_agree sample_lib_equal sample_groups2)
    as [Hall Hex]; [simpl; lia|].
  destruct Hex as (l & o & Hc);
    [constructor; intros; eexists; reflexivity|].
  exists l, o. split; [exact Hc|exact (Hall l o Hc)].
Defined.

(* ===================================================================== *)
(** ** The rationale sentences                                           *)
(* ===================================================================== *)

Lemma method_name_inj m m' : method_name m = method_name m' -> m = m'.
Proof. destruct m, m'; intros H; try reflexivity; discriminate H. Qed.

Lemma decision_table_Welch n an ev :
  decision_table n an ev = Some WelchT -> n = 2 /\ an = true /\ ev = false.
Proof.
  destruct n as [|[|[|n]]], an, ev; intros H; try discriminate H; auto.
Qed.

Lemma en_report_contains_reason m r sig pd :
  contains r (en_report m r sig pd) = true.
Proof.
  unfold en_report.
  replace ("【Statistical Analysis Report】" ++ nl ++ "1. Method: " ++ m ++ nl ++
           "2. Rationale: " ++ r ++ nl ++ "3. Results: " ++
           (if sig then "Significant Difference Found"
            else "No Significant Difference") ++
           " (P=" ++ pd ++ ")" ++ nl ++
           "4. Conclusion: Based on the " ++ m ++
           ", the null hypothesis was " ++
           (if sig then "rejected" else "not rejected") ++ "." ++ nl)
    with (("【Statistical Analysis Report】" ++ nl ++ "1. Method: " ++ m ++ nl ++
           "2. Rationale: ") ++ r ++
          (nl ++ "3. Results: " ++
           (if sig then "Significant Difference Found"
            else "No Significant Difference") ++
           " (P=" ++ pd ++ ")" ++ nl ++
           "4. Conclusion: Based on the " ++ m ++
           ", the null hypothesis was " ++
           (if sig then "rejected" else "not rejected") ++ "." ++ nl))
    by (now rewrite !str_app_assoc).
  apply contains_app.
Qed.

(** Without a slash in the method name, an English report with the
    unequal-variance sentence has no slash at all. *)
Lemma en_report_unequal_no_slash m sig pd :
  all_chars (not_char "/"%char) m = true ->
  all_chars num_char pd = true ->
  all_chars (not_char "/"%char) (en_report m en_reason_unequal sig pd) = true.
Proof.
  intros Hm Hpd. apply (num_chars_not_char "/"%char) in Hpd; [|reflexivity].
  unfold en_report. rewrite !all_chars_app, Hm, Hpd. now destruct sig.
Qed.

(** C9. The rationale of a run is chosen by three branches tried in the
    order parametric, non-normal, unequal variance, of which exactly one
    applies; and when the method is Welch's t-test, or Kruskal-Wallis taken
    for 3 or more normal groups of unequal variance, the English report
    contains the unequal-variance sentence and not the equal-variance
    (parametric) one. *)
Theorem unequal_variance_rationale (lib : Lib) (d : dict) :
  2 <= length d ->
  (forall l o, completes lib d l o ->
     (jp_reason o, en_reason o) =
       (if all_normal o && is_equal_var o
        then (jp_reason_parametric, en_reason_parametric)
        else if negb (all_normal o)
        then (jp_reason_nonparametric, en_reason_nonparametric)
        else (jp_reason_unequal, en_reason_unequal)) /\
     (all_normal o && is_equal_var o = true /\ all_normal o = true /\
        en_reason o = en_reason_parametric
      \/ all_normal o && is_equal_var o = false /\ all_normal o = false /\
        en_reason o = en_reason_nonparametric
      \/ all_normal o && is_equal_var o = false /\ all_normal o = true /\
        is_equal_var o = false /\ en_reason o = en_reason_unequal) /\
     (method o = method_name WelchT \/
      (method o = method_name KruskalWallisDunn /\ 3 <= length d /\
       all_normal o = true /\ is_equal_var o = false) ->
      en_reason o = en_reason_unequal /\
      contains en_reason_unequal (out_en_report o) = true /\
      contains en_reason_parametric (out_en_report o) = false)) /\
  (lib_returns lib -> exists l o, completes lib d l o).
Proof.
  intros Hlen. split; [|intros R; now apply analysis_returns].
  intros l o H.
  destruct (method_of_run lib d l o H) as (m & Htab & Hm).
  destruct (run_strings lib d l o H) as (_ & Hpd & Hr & _ & _ & Hen).
  split; [exact Hr|]. split.
  - unfold reasons in Hr.
    destruct (all_normal o), (is_equal_var o); cbn in Hr |- *;
      injection Hr as _ ->; auto 10.
  - intros Hcase.
    assert (all_normal o = true /\ is_equal_var o = false /\
            all_chars (not_char "/"%char) (method o) = true)
      as (Han & Hev & Hslash).
    { destruct Hcase as [Hw|(Hk & _ & Han & Hev)].
      - rewrite Hw in Hm. apply method_name_inj in Hm. subst m.
        apply decision_table_Welch in Htab as (_ & Han & Hev).
        now rewrite Hw.
      - now rewrite Hk. }
    rewrite Han, Hev in Hr. cbn in Hr. injection Hr as _ Hre.
    rewrite Hen, Hre. split; [reflexivity|]. split.
    + apply en_report_contains_reason.
    + apply (contains_all_chars (not_char "/"%char)); [|reflexivity].
      now apply en_report_unequal_no_slash.
Qed.

Lemma unequal_variance_rationale_witness :
  exists l o,
    completes sample_lib_unequal sample_groups2 l o /\
    ((jp_reason o, en_reason o) =
       (if all_normal o && is_equal_var o
        then (jp_reason_parametric, en_reason_parametric)
        else if negb (all_normal o)
        then (jp_reason_nonparametric, en_reason_nonparametric)
        else (jp_reason_unequal, en_reason_unequal)) /\
     (all_normal o && is_equal_var o = true /\ all_normal o = true /\
        en_reason o = en_reason_parametric
      \/ all_normal o && is_equal_var o = false /\ all_normal o = false /\
        en_reason o = en_reason_nonparametric
      \/ all_normal o && is_equal_var o = false /\ all_normal o = true /\
        is_equal_var o = false /\ en_reason o = en_reason_unequal) /\
     (method o = method_name WelchT \/
      (method o = method_name KruskalWallisDunn /\
       3 <= length sample_groups2 /\
       all_normal o = true /\ is_equal_var o = false) ->
      en_reason o = en_reason_unequal /\
      contains en_reason_unequal (out_en_report o) = true /\
      contains en_reason_parametric (out_en_report o) = false)).
Proof.
  destruct (unequal_variance_rationale sample_lib_unequal sample_groups2)
    as [Hall Hex]; [simpl; lia|].
  destruct Hex as (l & o & Hc);
    [constructor; intros; eexists; reflexivity|].
  exists l, o. split; [exact Hc|exact (Hall l o Hc)].
Defined.

(** The run on two normal groups of unequal variance chooses Welch's
    t-test and reports the unequal-variance sentence. *)
Example welch_run :
  match result_of (analysis sample_lib_unequal
                            sample_groups2) with
  | inr (Some o) =>
      method o = method_name WelchT /\
      en_reason o = en_reason_unequal /\
      contains en_reason_unequal (out_en_report o) = true /\
      contains en_reason_parametric (out_en_report o) = false
  | _ => False
  end.
Proof. vm_compute. repeat split. Qed.

(* ===================================================================== *)
(** ** The construction of [data_dict]                                   *)
(* ===================================================================== *)

Section DictFacts.

Context {V : Type}.
Implicit Types (d : PyDict.dict V) (k : string) (v : V).

Lemma set_get_same d k v : PyDict.get (PyDict.set k v d) k = Some v.
Proof.
  induction d as [|[k' v'] d IH]; cbn [PyDict.set PyDict.get].
  - now rewrite String.eqb_refl.
  - destruct (String.eqb k k') eqn:E; cbn [PyDict.get].
    + now rewrite String.eqb_refl.
    + now rewrite E.
Qed.

Lemma set_get_other d k k' v :
  k <> k' -> PyDict.get (PyDict.set k' v d) k = PyDict.get d k.
Proof.
  intros Hne. induction d as [|[k2 v2] d IH]; cbn [PyDict.set PyDict.get].
  - apply String.eqb_neq in Hne. now rewrite Hne.
  - destruct (String.eqb k' k2) eqn:E; cbn [PyDict.get].
    + apply String.eqb_eq in E. subst k2.
      apply String.eqb_neq in Hne. now rewrite Hne.
    + now rewrite IH.
Qed.

Lemma set_keys_present d k v :
  In k (PyDict.keys d) -> PyDict.keys (PyDict.set k v d) = PyDict.keys d.
Proof.
  unfold PyDict.keys.
  induction d as [|[k' v'] d IH]; cbn [PyDict.set map fst In]; [tauto|].
  intros H. destruct (String.eqb k k') eqn:E; cbn [map fst].
  - apply String.eqb_eq in E. now subst.
  - f_equal. apply IH. destruct H as [H|H]; [|exact H].
    subst k'. now rewrite String.eqb_refl in E.
Qed.

Lemma set_keys_absent d k v :
  ~ In k (PyDict.keys d) ->
  PyDict.keys (PyDict.set k v d) = (PyDict.keys d ++ [k])%list.
Proof.
  unfold PyDict.keys.
  induction d as [|[k' v'] d IH]; cbn [PyDict.set map fst In app];
    [reflexivity|].
  intros H. destruct (String.eqb k k') eqn:E; cbn [map fst].
  - apply String.eqb_eq in E. subst. tauto.
  - f_equal. apply IH. tauto.
Qed.

Lemma keys_length d : length (PyDict.keys d) = length d.
Proof. apply length_map. Qed.

Lemma set_length_present d k v :
  In k (PyDict.keys d) -> length (PyDict.set k v d) = length d.
Proof.
  intros H. now rewrite <- !keys_length, set_keys_present.
Qed.

Lemma set_length_le d k v : length (PyDict.set k v d) <= S (length d).
Proof.
  destruct (in_dec string_dec k (PyDict.keys d)) as [H|H].
  - rewrite set_length_present by exact H. lia.
  - rewrite <- !keys_length, set_keys_absent, length_app by exact H.
    cbn [length]. lia.
Qed.

Lemma set_keys_in d k v : In k (PyDict.keys (PyDict.set k v d)).
Proof.
  destruct (in_dec string_dec k (PyDict.keys d)) as [H|H].
  - now rewrite set_keys_present.
  - rewrite set_keys_absent by exact H. apply in_or_app. right. now left.
Qed.

Lemma set_keys_incl d k k' v :
  In k' (PyDict.keys d) -> In k' (PyDict.keys (PyDict.set k v d)).
Proof.
  intros Hin. destruct (in_dec string_dec k (PyDict.keys d)) as [H|H].
  - now rewrite set_keys_present.
  - rewrite set_keys_absent by exact H. apply in_or_app. now left.
Qed.

(** Keys stay distinct. *)
Lemma set_keys_NoDup d k v :
  NoDup (PyDict.keys d) -> NoDup (PyDict.keys (PyDict.set k v d)).
Proof.
  intros Hnd. destruct (in_dec string_dec k (PyDict.keys d)) as [H|H].
  - now rewrite set_keys_present.
  - rewrite set_keys_absent by exact H.
    apply NoDup_app; [exact Hnd|repeat constructor; intros []|].
    intros x Hx [<-|[]]. exact (H Hx).
Qed.

End DictFacts.

Section DataDict.

Variable lib : Lib.

Lemma input_loop_run widgets groups :
  parsed lib widgets groups ->
  forall i d0, exists l,
    input_loop lib i widgets d0 = (l, inr (fold_left store groups d0)) /\
    forallb is_input_widget l = true.
Proof.
  induction 1 as [|[name raw] [n vals] ws gs [Hn Hp] _ IH]; intros i d0.
  - exists []. split; reflexivity.
  - cbn [fst snd] in Hn, Hp. subst n.
    cbn [input_loop fold_left]. rewrite Hp.
    destruct (IH (S i) (store d0 (name, vals))) as (l & Hl & Hw).
    unfold store, valid in Hl. cbn [fst snd] in Hl.
    run_eval. rewrite Hl. eexists. split; [reflexivity|].
    cbn [app forallb is_input_widget andb]. exact Hw.
Qed.

Lemma store_length_le gs : forall d0,
  length (fold_left store gs d0) <= length d0 + length (valid_groups gs).
Proof.
  induction gs as [|g gs IH]; intros d0; cbn [fold_left]; [cbn; lia|].
  specialize (IH (store d0 g)). unfold valid_groups in *.
  cbn [filter]. unfold store in *. destruct (valid (snd g)); cbn [length].
  - pose proof (set_length_le d0 (fst g) (snd g)). lia.
  - exact IH.
Qed.

Lemma store_keys_incl gs : forall d0 k,
  In k (PyDict.keys d0) -> In k (PyDict.keys (fold_left store gs d0)).
Proof.
  induction gs as [|g gs IH]; intros d0 k Hin; cbn [fold_left]; [exact Hin|].
  apply IH. unfold store. destruct (valid (snd g)); [|exact Hin].
  now apply set_keys_incl.
Qed.

Lemma store_keys_NoDup gs : forall d0,
  NoDup (PyDict.keys d0) -> NoDup (PyDict.keys (fold_left store gs d0)).
Proof.
  induction gs as [|g gs IH]; intros d0 Hnd; cbn [fold_left]; [exact Hnd|].
  apply IH. unfold store. destruct (valid (snd g)); [|exact Hnd].
  now apply set_keys_NoDup.
Qed.

(** The value of a key survives the groups that do not store under it. *)
Lemma store_get_kept gs name : forall d0,
  (forall v, In (name, v) gs -> valid v = false) ->
  PyDict.get (fold_left store gs d0) name = PyDict.get d0 name.
Proof.
  induction gs as [|[n v] gs IH]; intros d0 H; cbn [fold_left];
    [reflexivity|].
  rewrite IH by (intros v' Hv'; apply H; now right).
  unfold store. cbn [fst snd]. destruct (valid v) eqn:Ev; [|reflexivity].
  apply set_get_other. intros <-.
  rewrite (H v) in Ev by now left. discriminate.
Qed.

Lemma valid_groups_app g1 g2 :
  valid_groups (g1 ++ g2) = (valid_groups g1 ++ valid_groups g2)%list.
Proof. apply filter_app. Qed.

(** Two valid groups of one name leave fewer entries than valid groups. *)
Lemma store_duplicate_length g1 name vi g2 vj g3 :
  valid vi = true -> valid vj = true ->
  length (fold_left store (g1 ++ (name, vi) :: g2 ++ (name, vj) :: g3) []) <
  length (valid_groups (g1 ++ (name, vi) :: g2 ++ (name, vj) :: g3)).
Proof.
  intros Hi Hj.
  rewrite fold_left_app. cbn [fold_left]. rewrite fold_left_app.
  cbn [fold_left].
  set (d1 := fold_left store g1 []).
  set (d2 := fold_left store g2 (store d1 (name, vi))).
  assert (Hin : In name (PyDict.keys d2)).
  { apply store_keys_incl. unfold store. cbn [fst snd]. rewrite Hi.
    apply set_keys_in. }
  pose proof (store_length_le g1 []) as L1. fold d1 in L1.
  pose proof (store_length_le g2 (store d1 (name, vi))) as L2. fold d2 in L2.
  pose proof (store_length_le g3 (store d2 (name, vj))) as L3.
  assert (length (store d1 (name, vi)) <= S (length d1)) as L1'.
  { unfold store. cbn [fst snd]. rewrite Hi. apply set_length_le. }
  assert (length (store d2 (name, vj)) = length d2) as L2'.
  { unfold store. cbn [fst snd]. rewrite Hj.
    now apply set_length_present. }
  rewrite valid_groups_app. unfold valid_groups at 2. cbn [filter snd].
  rewrite Hi. fold (valid_groups (g2 ++ (name, vj) :: g3)).
  rewrite valid_groups_app. unfold valid_groups at 3. cbn [filter snd].
  rewrite Hj. fold (valid_groups g3).
  rewrite !length_app. cbn [length] in *. rewrite !length_app.
  cbn [length]. lia.
Qed.

End DataDict.

Lemma valid_groups_length_le gs : length (valid_groups gs) <= length gs.
Proof.
  unfold valid_groups. induction gs as [|g gs IH]; cbn [filter length];
    [lia|]. destruct (valid (snd g)); cbn [length]; lia.
Qed.

Lemma valid_groups_length_lt gs g :
  In g gs -> valid (snd g) = false ->
  length (valid_groups gs) < length gs.
Proof.
  unfold valid_groups. induction gs as [|g0 gs IH]; intros Hin Hv;
    [destruct Hin|].
  cbn [filter length]. destruct Hin as [->|Hin].
  - rewrite Hv. pose proof (valid_groups_length_le gs) as H.
    unfold valid_groups in H. lia.
  - specialize (IH Hin Hv). destruct (valid (snd g0)); cbn [length]; lia.
Qed.

(** C10. When two groups have the same name and the texts parse, the
    script raises nothing and shows nothing but the input widgets; the keys
    of [data_dict] are distinct and [data_dict], on which the analysis then
    runs, has fewer entries than groups were supplied. Which values the name
    keeps depends on the sizes. When the later group has at least 3 values
    (and no group of that name after it has), [data_dict] holds the values of
    the later group under the name, and when the earlier group has at least
    3 values too, these are gone: there are fewer entries than groups with at
    least 3 values. When the later group has fewer than 3 values (as have
    the other groups of that name after the earlier one), it replaces
    nothing: the name keeps the values of the earlier group. *)
Theorem later_group_replaces_earlier (lib : Lib)
    (widgets : list (string * string))
    (g1 g2 g3 : list (string * list float)) (name : string)
    (vi vj : list float) :
  parsed lib widgets (g1 ++ (name, vi) :: g2 ++ (name, vj) :: g3) ->
  exists l data_dict,
    build_data_dict lib widgets = (l, inr data_dict) /\
    forallb is_input_widget l = true /\
    NoDup (PyDict.keys data_dict) /\
    length data_dict <
      length (g1 ++ (name, vi) :: g2 ++ (name, vj) :: g3) /\
    (3 <= length vj ->
     (forall v, In (name, v) g3 -> length v < 3) ->
     PyDict.get data_dict name = Some vj /\
     (3 <= length vi ->
      length data_dict <
        length (valid_groups
                  (g1 ++ (name, vi) :: g2 ++ (name, vj) :: g3)))) /\
    (3 <= length vi -> length vj < 3 ->
     (forall v, In (name, v) (g2 ++ g3) -> length v < 3) ->
     PyDict.get data_dict name = Some vi) /\
    main lib widgets =
      ((l ++ log_of (analysis lib data_dict))%list,
       result_of (analysis lib data_dict)).
Proof.
  intros Hp.
  destruct (input_loop_run lib _ _ Hp 0 []) as (l & Hl & Hw).
  exists l, (fold_left store (g1 ++ (name, vi) :: g2 ++ (name, vj) :: g3) []).
  unfold main, build_data_dict. rewrite Hl.
  split; [reflexivity|]. split; [exact Hw|].
  split; [apply store_keys_NoDup; constructor|].
  split; [|split; [|split]].
  - set (gs := (g1 ++ (name, vi) :: g2 ++ (name, vj) :: g3)%list).
    pose proof (valid_groups_length_le gs) as Hle.
    pose proof (store_length_le gs []) as Hst. cbn [length Nat.add] in Hst.
    destruct (valid vi) eqn:Ei.
    + destruct (valid vj) eqn:Ej.
      * pose proof (store_duplicate_length g1 name vi g2 vj g3 Ei Ej) as Hd.
        fold gs in Hd. lia.
      * assert (Hlt : length (valid_groups gs) < length gs).
        { apply (valid_groups_length_lt gs (name, vj)); [|exact Ej].
          unfold gs. apply in_or_app. right. right.
          apply in_or_app. right. now left. }
        lia.
    + assert (Hlt : length (valid_groups gs) < length gs).
      { apply (valid_groups_length_lt gs (name, vi)); [|exact Ei].
        unfold gs. apply in_or_app. right. now left. }
      lia.
  - intros Hj Hlast. apply Nat.leb_le in Hj. fold (valid vj) in Hj. split.
    + rewrite fold_left_app. cbn [fold_left]. rewrite fold_left_app.
      cbn [fold_left]. rewrite store_get_kept.
      * unfold store at 1. cbn [fst snd]. rewrite Hj. apply set_get_same.
      * intros v Hv. apply Nat.leb_gt. now apply Hlast.
    + intros Hi. apply Nat.leb_le in Hi. fold (valid vi) in Hi.
      now apply store_duplicate_length.
  - intros Hi Hj Hrest. apply Nat.leb_le in Hi. fold (valid vi) in Hi.
    rewrite fold_left_app. cbn [fold_left]. rewrite store_get_kept.
    + unfold store at 1. cbn [fst snd]. rewrite Hi. apply set_get_same.
    + intros v Hv. apply Nat.leb_gt. apply in_app_or in Hv.
      destruct Hv as [Hv|[Hv|Hv]].
      * apply Hrest. apply in_or_app. now left.
      * injection Hv as <-. exact Hj.
      * apply Hrest. apply in_or_app. now right.
  - unfold bind, log_of, result_of.
    now destruct (analysis lib _) as [l' r].
Qed.

Lemma later_group_replaces_earlier_witness :
  exists l data_dict,
    build_data_dict sample_lib_equal sample_widgets = (l, inr data_dict) /\
    forallb is_input_widget l = true /\
    NoDup (PyDict.keys data_dict) /\
    length data_dict = 2 /\
    PyDict.get data_dict "A" =
      Some [Fin false 7 1; Fin false 8 1; Fin false 9 1] /\
    main sample_lib_equal sample_widgets =
      ((l ++ log_of (analysis sample_lib_equal data_dict))%list,
       result_of (analysis sample_lib_equal data_dict)).
Proof.
  destruct (later_group_replaces_earlier
              sample_lib_equal sample_widgets
              [] [("B", [Fin false 4 1; Fin false 5 1; Fin false 6 1])] []
              "A" [Fin false 1 1; Fin false 2 1; Fin false 3 1]
              [Fin false 7 1; Fin false 8 1; Fin false 9 1])
    as (l & d & Hb & Hw & Hnd & Hlen & Hlater & _ & Hmain).
  - repeat constructor.
  - exists l, d. split; [exact Hb|]. split; [exact Hw|].
    split; [exact Hnd|]. split; [|split; [|exact Hmain]].
    + vm_compute in Hb. injection Hb as _ <-. reflexivity.
    + exact (proj1 (Hlater ltac:(simpl; lia) ltac:(intros v []))).
Defined.

(** C10 as it is stated fails: the first and the third widget have the
    name "A", the third with two values only; [data_dict] keeps the values of
    the earlier group under "A", and the values of the later group are
    nowhere in it. No exception is raised and only input widgets are
    shown. *)
Lemma short_later_group_does_not_replace :
  match build_data_dict sample_lib_equal short_widgets with
  | (l, inr data_dict) =>
      parse_vals sample_lib_equal "7,8" =
        inr [Fin false 7 1; Fin false 8 1] /\
      PyDict.get data_dict "A" =
        Some [Fin false 1 1; Fin false 2 1; Fin false 3 1] /\
      data_dict =
        [("A", [Fin false 1 1; Fin false 2 1; Fin false 3 1]);
         ("B", [Fin false 4 1; Fin false 5 1; Fin false 6 1])] /\
      forallb is_input_widget l = true
  | _ => False
  end.
Proof. vm_compute. repeat split. Qed.

(** The three widgets of the example leave two entries, the first with
    the values of the third widget. *)
Example duplicate_name_run :
  result_of (build_data_dict sample_lib_equal
                             sample_widgets) =
  inr [("A", [Fin false 7 1; Fin false 8 1; Fin false 9 1]);
       ("B", [Fin false 4 1; Fin false 5 1; Fin false 6 1])].
Proof. vm_compute. reflexivity. Qed.

(** With fewer than 2 groups of at least 3 values the whole script ends
    in the idle branch, without a call of a statistical capability. *)
Lemma main_idle lib widgets groups :
  parsed lib widgets groups ->
  length (valid_groups groups) < 2 ->
  result_of (main lib widgets) = inr None /\
  existsb is_call (log_of (main lib widgets)) = false /\
  existsb is_report (log_of (main lib widgets)) = false.
Proof.
  intros Hp Hlt.
  destruct (input_loop_run lib _ _ Hp 0 []) as (l & Hl & Hw).
  pose proof (store_length_le groups []) as Hle. cbn [length Nat.add] in Hle.
  unfold main, build_data_dict. rewrite Hl. run_eval. unfold analysis.
  replace (2 <=? length (fold_left store groups []))%nat with false
    by (symmetry; apply Nat.leb_gt; lia).
  run_eval. cbn [result_of log_of fst snd]. split; [reflexivity|].
  rewrite !existsb_app. cbn [existsb is_call is_report orb].
  rewrite !orb_false_r. split.
  - clear -Hw. induction l as [|e l IH]; [reflexivity|].
    cbn [forallb existsb] in *. apply andb_true_iff in Hw as [He Hw].
    rewrite (IH Hw). now destruct e.
  - clear -Hw. induction l as [|e l IH]; [reflexivity|].
    cbn [forallb existsb] in *. apply andb_true_iff in Hw as [He Hw].
    rewrite (IH Hw). now destruct e.
Qed.

(* ===================================================================== *)
(** ** The display of the p-value                                        *)
(* ===================================================================== *)

(** The four values of the specification under the display rule of the
    t-test, Mann-Whitney and ANOVA branches. *)
Example p_disp_rule_examples :
  p_disp_rule lit_0_00001 = "1.00e-05" /\
  p_disp_rule lit_0_0005 = "5.00e-04" /\
  p_disp_rule lit_0_0321 = "0.0321" /\
  p_disp_rule lit_0_999 = "0.9990".
Proof. vm_compute. repeat split. Qed.


(** The Kruskal-Wallis branch always shows 4 decimals. *)
Lemma p_disp_kruskal lib d l o :
  completes lib d l o ->
  3 <= length d -> all_normal o && is_equal_var o = false ->
  p_disp o = format_f 4 (p_final o).
Proof.
  intros H H3 Hb. apply analysis_inv in H as (Hlen & lc & c & Hc & H).
  destruct H as (_ & _ & _ & _ & _ & _ & -> & -> & _).
  rewrite (comparison_p_disp _ _ _ _ _ _ Hlen Hc), Hb.
  replace (length d =? 2)%nat with false; [reflexivity|].
  symmetry. apply Nat.eqb_neq. lia.
Qed.

(** The run on three normal groups of equal variance whose ANOVA has the
    p-value 0.000511 shows it in scientific notation. *)
Example anova_p_value_scientific :
  match result_of (analysis (sample_lib (fun _ => lit_1_0) lit_0_5 lit_0_000511)
                            sample_groups3) with
  | inr (Some o) =>
      method o = method_name OneWayAnovaTukey /\
      p_final o = lit_0_000511 /\
      p_disp o = "5.11e-04"
  | _ => False
  end.
Proof. vm_compute. repeat split. Qed.

(** C2 fails in the Kruskal-Wallis branch. The run on the three groups
    1, 2, 3, 4, 5, 100 and 201..206 and 301..306, the first of which is found
    not normal, and whose Kruskal-Wallis test has the p-value 0.000511 (below
    0.001), puts "0.0005" into its reports, where the display rule gives
    "5.11e-04". *)
Theorem kruskal_p_value_not_scientific :
  match analysis sample_lib_kruskal kruskal_groups with
  | (l, inr (Some o)) =>
      all_normal o = false /\
      method o = method_name KruskalWallisDunn /\
      p_final o = lit_0_000511 /\
      ltb (p_final o) lit_0_001 = true /\
      p_disp o = "0.0005" /\
      p_disp_rule (p_final o) = "5.11e-04" /\
      contains "(P=0.0005)" (out_en_report o) = true /\
      contains "(P=0.0005)" (out_jp_report o) = true /\
      existsb is_report l = true
  | _ => False
  end.
Proof. vm_compute. repeat split. Qed.

(* ===================================================================== *)
(** ** Groups without variance                                           *)
(* ===================================================================== *)

(** C3 as it is stated fails: the run on three groups, the third of which
    is 5, 5, 5, with a normality test that returns the p-value 1 on every
    sample, raises nothing and produces the two reports. *)
Lemma zero_variance_group_is_reported :
  zero_variance [Fin false 5 1; Fin false 5 1; Fin false 5 1] = true /\
  In ("C", [Fin false 5 1; Fin false 5 1; Fin false 5 1]) sample_groups3 /\
  match analysis sample_lib_equal
                 sample_groups3 with
  | (l, inr (Some o)) =>
      length (filter is_report l) = 4 /\ all_normal o = true
  | _ => False
  end.
Proof. vm_compute. repeat split. right. right. left. reflexivity. Qed.

(** C3, as amended. The script has no check for a group without
    variance and no error of its own for it: on an input with such a group,
    a run that the library calls let through ends with both reports shown and
    offered for download, the p-values of that group being compared with 0.05
    like all others (a nan p-value is not above 0.05, so it makes
    [all_normal], or [is_equal_var], false); and the run does go through
    whenever the library calls return. *)
Theorem zero_variance_not_checked (lib : Lib) (d : dict)
    (n : string) (v : list float) :
  2 <= length d -> In (n, v) d -> zero_variance v = true ->
  (forall l o, completes lib d l o ->
     In (St_text_area "JP Report" (out_jp_report o) 200) l /\
     In (St_download_button "レポート(JP)を保存" (out_jp_report o)
           "report_jp.txt") l /\
     In (St_text_area "EN Report" (out_en_report o) 200) l /\
     In (St_download_button "Download Report (EN)" (out_en_report o)
           "report_en.txt") l /\
     (all_normal o = true -> gtb (pvalue (shapiro lib v)) lit_0_05 = true) /\
     (pvalue (shapiro lib v) = NaN -> all_normal o = false) /\
     (p_lev o = NaN -> is_equal_var o = false)) /\
  (lib_returns lib -> exists l o, completes lib d l o).
Proof.
  intros Hlen Hin _. split; [|intros R; now apply analysis_returns].
  intros l o H. apply analysis_inv in H as (_ & lc & c & _ & H).
  destruct H as (_ & Han & _ & _ & Hev & _ & _ & _ & _ & _ & _ & _ & _ & ->).
  assert (Hall : all_normal o = true ->
                 gtb (pvalue (shapiro lib v)) lit_0_05 = true).
  { rewrite Han, forallb_forall. intros Hall. exact (Hall (n, v) Hin). }
  repeat split.
  - apply in_cons, in_or_app. right. apply in_cons, in_or_app. right.
    unfold report_events. cbn [In].
    repeat (first [left; reflexivity | right]).
  - apply in_cons, in_or_app. right. apply in_cons, in_or_app. right.
    unfold report_events. cbn [In].
    repeat (first [left; reflexivity | right]).
  - apply in_cons, in_or_app. right. apply in_cons, in_or_app. right.
    unfold report_events. cbn [In].
    repeat (first [left; reflexivity | right]).
  - apply in_cons, in_or_app. right. apply in_cons, in_or_app. right.
    unfold report_events. cbn [In].
    repeat (first [left; reflexivity | right]).
  - exact Hall.
  - intros Hnan. destruct (all_normal o); [|reflexivity].
    specialize (Hall eq_refl). rewrite Hnan in Hall. discriminate Hall.
  - intros Hnan. rewrite Hev, Hnan. reflexivity.
Qed.

Lemma zero_variance_not_checked_witness :
  exists l o,
    completes sample_lib_equal sample_groups3 l o /\
    In (St_text_area "JP Report" (out_jp_report o) 200) l /\
    In (St_download_button "レポート(JP)を保存" (out_jp_report o)
          "report_jp.txt") l /\
    In (St_text_area "EN Report" (out_en_report o) 200) l /\
    In (St_download_button "Download Report (EN)" (out_en_report o)
          "report_en.txt") l /\
    (all_normal o = true ->
     gtb (pvalue (shapiro sample_lib_equal
                    [Fin false 5 1; Fin false 5 1; Fin false 5 1]))
         lit_0_05 = true) /\
    (pvalue (shapiro sample_lib_equal
               [Fin false 5 1; Fin false 5 1; Fin false 5 1]) = NaN ->
     all_normal o = false) /\
    (p_lev o = NaN -> is_equal_var o = false).
Proof.
  destruct (zero_variance_not_checked sample_lib_equal sample_groups3
              "C" [Fin false 5 1; Fin false 5 1; Fin false 5 1])
    as [Hall Hex].
  - simpl. lia.
  - simpl. right. right. left. reflexivity.
  - reflexivity.
  - destruct Hex as (l & o & Hc);
      [constructor; intros; eexists; reflexivity|].
    exists l, o. split; [exact Hc|exact (Hall l o Hc)].
Defined.

(* ===================================================================== *)
(** ** The significance label and the group controls                     *)
(* ===================================================================== *)

Lemma ltb_trans x y z : ltb x y = true -> ltb y z = true -> ltb x z = true.
Proof.
  destruct x as [|nx|sx nx dx], y as [|ny|sy ny dy], z as [|nz|sz nz dz];
    cbn [ltb]; try discriminate; try (intros; assumption);
    try (destruct nx, ny; discriminate);
    try (destruct ny, nz; cbn; intros; congruence);
    try (destruct nx, ny, nz; cbn; intros; congruence).
  intros H1 H2. apply Z.ltb_lt in H1, H2. apply Z.ltb_lt.
  set (a := snum sx nx) in *. set (b := snum sy ny) in *.
  set (c := snum sz nz) in *.
  apply (Z.mul_lt_mono_pos_r (Z.pos dy)); [lia|].
  apply Z.lt_trans with (b * Z.pos dx * Z.pos dz)%Z.
  - replace (a * Z.pos dz * Z.pos dy)%Z with (a * Z.pos dy * Z.pos dz)%Z
      by ring.
    apply Z.mul_lt_mono_pos_r; [lia|exact H1].
  - replace (b * Z.pos dx * Z.pos dz)%Z with (b * Z.pos dz * Z.pos dx)%Z
      by ring.
    replace (c * Z.pos dx * Z.pos dy)%Z with (c * Z.pos dy * Z.pos dx)%Z
      by ring.
    apply Z.mul_lt_mono_pos_r; [lia|exact H2].
Qed.

(** X1. The label of [get_sig_label] agrees with the verdict of the
    reports: it is "ns" exactly when [p < 0.05] fails (so also for nan), it
    is "***" exactly when [p < 0.001]; and the three thresholds are nested,
    a value under 0.001 being under 0.01 and a value under 0.01 under
    0.05. *)
Theorem sig_label_matches_significance (p : float) :
  (get_sig_label p = "ns" <-> ltb p lit_0_05 = false) /\
  (get_sig_label p = "***" <-> ltb p lit_0_001 = true) /\
  (get_sig_label p = "**" <->
   ltb p lit_0_001 = false /\ ltb p lit_0_01 = true) /\
  (get_sig_label p = "*" <->
   ltb p lit_0_01 = false /\ ltb p lit_0_05 = true) /\
  (ltb p lit_0_001 = true -> ltb p lit_0_01 = true) /\
  (ltb p lit_0_01 = true -> ltb p lit_0_05 = true).
Proof.
  assert (H1 : ltb p lit_0_001 = true -> ltb p lit_0_01 = true)
    by (intros H; now apply (ltb_trans p lit_0_001 lit_0_01)).
  assert (H2 : ltb p lit_0_01 = true -> ltb p lit_0_05 = true)
    by (intros H; now apply (ltb_trans p lit_0_01 lit_0_05)).
  unfold get_sig_label.
  destruct (ltb p lit_0_001), (ltb p lit_0_01), (ltb p lit_0_05);
    try (specialize (H1 eq_refl)); try (specialize (H2 eq_refl));
    try discriminate;
    repeat split; intros; try discriminate; try reflexivity;
    try (destruct H; discriminate); auto.
Qed.

Lemma group_controls_bound (session : option nat) add remove :
  match session with None => True | Some g => 2 <= g end ->
  2 <= snd (group_controls session add remove).
Proof.
  intros H. unfold group_controls.
  destruct session as [g|], add, remove; cbn [snd];
    repeat match goal with
           | |- context [(2 <? ?n)%nat] =>
               destruct (Nat.ltb_spec 2 n); cbn [snd]
           end; lia.
Qed.

Lemma reruns_bound clicks : forall session : option nat,
  match session with None => True | Some g => 2 <= g end ->
  match fold_left rerun clicks session with
  | None => clicks = [] /\ session = None
  | Some g => 2 <= g
  end.
Proof.
  induction clicks as [|c clicks IH]; intros session H.
  - cbn. destruct session; auto.
  - cbn [fold_left]. specialize (IH (rerun session c)).
    unfold rerun in *.
    pose proof (group_controls_bound session (fst c) (snd c) H) as Hb.
    specialize (IH Hb).
    destruct (fold_left _ clicks _); [exact IH|].
    destruct IH as [_ IH]. discriminate IH.
Qed.

(** X2. The group controls never let the number of groups fall under 2: a
    new session starts with 3 groups, and after any sequence of reruns,
    whatever buttons were pressed, [g_count] is at least 2. In one rerun
    [g_count] moves by at most 1, and the Remove button is shown exactly when
    the count is above 2 once the Add button has been handled. *)
Theorem g_count_at_least_two (clicks : list (bool * bool)) :
  session_after [] = None /\
  snd (group_controls None false false) = 3 /\
  match session_after clicks with
  | None => clicks = []
  | Some g => 2 <= g
  end /\
  (forall (g : nat) (add remove : bool),
     let g1 := if add then g + 1 else g in
     let r := group_controls (Some g) add remove in
     (In "－ Remove Group" (fst r) <-> 2 < g1) /\
     In "＋ Add Group" (fst r) /\
     g - 1 <= snd r <= g + 1 /\
     (snd r < g1 -> 2 < g1 /\ remove = true)).
Proof.
  split; [reflexivity|]. split; [reflexivity|]. split.
  - unfold session_after. pose proof (reruns_bound clicks None I) as H.
    destruct (fold_left rerun clicks None); [exact H|apply H].
  - intros g add remove. cbv zeta. unfold group_controls.
    destruct (Nat.ltb_spec 2 (if add then g + 1 else g)) as [H|H];
      cbn [fst snd In].
    + repeat split; auto; try (destruct add, remove; lia).
    + repeat split; try (intros [E|[]]; discriminate E);
        try (destruct add; lia); auto.
Qed.

(* ===================================================================== *)
(** ** The parser of the text areas                                      *)
(* ===================================================================== *)

Lemma replace_comma_app a b :
  replace_comma (a ++ b) = replace_comma a ++ replace_comma b.
Proof.
  induction a as [|c a IH]; cbn [String.append replace_comma];
    [reflexivity|now rewrite IH].
Qed.

Lemma replace_comma_token t :
  all_chars token_char t = true -> replace_comma t = t.
Proof.
  induction t as [|c t IH]; cbn [all_chars replace_comma]; [reflexivity|].
  intros H. apply andb_true_iff in H as [Hc Ht]. rewrite (IH Ht).
  unfold token_char in Hc. apply andb_true_iff in Hc as [Hc _].
  apply negb_true_iff in Hc. now rewrite Hc.
Qed.

Lemma token_no_lf t : all_chars token_char t = true -> no_lf t = true.
Proof.
  apply all_chars_weaken. intros c H. unfold token_char in H.
  now apply andb_true_iff in H as [_ H].
Qed.

Lemma str_length_app (a b : string) :
  String.length (a ++ b) = String.length a + String.length b.
Proof. induction a as [|c a IH]; cbn; [reflexivity|now rewrite IH]. Qed.

(** Split the goal along the matches of [ws_prefix]. *)
Ltac split_match :=
  repeat (match goal with
          | |- context [match ?x with _ => _ end] => is_var x; destruct x
          end; cbv beta iota; try discriminate).

Ltac in_list := cbn [In]; repeat (first [left; reflexivity | right]).

Lemma ws_prefix_enum l k :
  ws_prefix l = S k ->
  exists p r, l = (p ++ r)%list /\ length p = S k /\ In p ws_codes.
Proof.
  destruct l as [|c r]; [discriminate|]. unfold ws_prefix.
  destruct ((9 <=? c) && (c <=? 13) || (28 <=? c) && (c <=? 32))%N eqn:E.
  - intros Hk. exists [c], r. split; [reflexivity|]. split; [exact Hk|].
    apply orb_true_iff in E.
    rewrite !andb_true_iff, !N.leb_le in E.
    assert (H : (c = 9 \/ c = 10 \/ c = 11 \/ c = 12 \/ c = 13 \/ c = 28 \/
                 c = 29 \/ c = 30 \/ c = 31 \/ c = 32)%N) by lia.
    unfold ws_codes.
    repeat (destruct H as [->|H]; [in_list|]). subst c. in_list.
  - clear E. split_match.
    + intros Hk. exists [227; 128; 128]%N, r.
      split; [reflexivity|]. split; [exact Hk|in_list].
    + intros Hk. exists [225; 154; 128]%N, r.
      split; [reflexivity|]. split; [exact Hk|in_list].
    + intros Hk. exists [226; 129; 159]%N, r.
      split; [reflexivity|]. split; [exact Hk|in_list].
    + destruct ((128 <=? n) && (n <=? 138) || (n =? 168) || (n =? 169)
                || (n =? 175))%N eqn:E; [|discriminate].
      intros Hk. exists [226; 128; n]%N, r.
      split; [reflexivity|]. split; [exact Hk|].
      rewrite !orb_true_iff, andb_true_iff, !N.leb_le, !N.eqb_eq in E.
      assert (H : (n = 128 \/ n = 129 \/ n = 130 \/ n = 131 \/ n = 132 \/
                   n = 133 \/ n = 134 \/ n = 135 \/ n = 136 \/ n = 137 \/
                   n = 138 \/ n = 168 \/ n = 169 \/ n = 175)%N) by lia.
      unfold ws_codes.
      repeat (destruct H as [->|H]; [in_list|]). subst n. in_list.
    + destruct ((n =? 133) || (n =? 160))%N eqn:E; [|discriminate].
      intros Hk. exists [194; n]%N, r.
      split; [reflexivity|]. split; [exact Hk|].
      rewrite orb_true_iff, !N.eqb_eq in E. unfold ws_codes.
      destruct E as [->| ->]; in_list.
Qed.

(** Every white-space character is found at the head of a text that starts
    with it; it holds no comma, and no line break unless it is the line
    break. *)
Lemma ws_codes_facts :
  Forall (fun p =>
            (forall r, ws_prefix (p ++ r)%list = length p) /\
            (p = [10%N] \/
             Forall (fun c => c <> 10%N /\ c <> 44%N) p))
         ws_codes.
Proof.
  unfold ws_codes.
  repeat (constructor;
          [split;
           [intros r; reflexivity
           |first [left; reflexivity
                  |right; repeat (constructor; [split; discriminate|]);
                   constructor]]|]).
  constructor.
Qed.

Lemma codes_length s : length (codes s) = String.length s.
Proof.
  unfold codes. rewrite length_map.
  induction s as [|c s IH]; cbn; [reflexivity|now rewrite IH].
Qed.

Lemma codes_app a b : codes (a ++ b) = app (codes a) (codes b).
Proof.
  unfold codes. induction a as [|c a IH]; cbn; [reflexivity|].
  now rewrite <- IH.
Qed.

Lemma codes_line_break w : codes w = [10%N] -> w = nl.
Proof.
  destruct w as [|c [|c' w]]; try discriminate.
  unfold codes. cbn [list_ascii_of_string map]. intros H.
  injection H as H. unfold nl, LF. f_equal.
  rewrite <- (ascii_N_embedding c), H. reflexivity.
Qed.

Lemma codes_token w :
  Forall (fun c => c <> 10%N /\ c <> 44%N) (codes w) ->
  all_chars token_char w = true.
Proof.
  unfold codes. induction w as [|c w IH]; [reflexivity|].
  cbn [list_ascii_of_string map all_chars]. intros H.
  inversion H as [|? ? [H10 H44] Hw]; subst. rewrite (IH Hw), andb_true_r.
  unfold token_char. apply andb_true_iff. split; apply negb_true_iff.
  - apply Ascii.eqb_neq. intros ->. now apply H44.
  - apply Ascii.eqb_neq. intros ->. now apply H10.
Qed.

Lemma ws_char_facts w :
  is_ws_char w = true ->
  (forall r, ws_prefix (app (codes w) r) = String.length w) /\
  0 < String.length w /\
  (w = nl \/ all_chars token_char w = true).
Proof.
  unfold is_ws_char. destruct (ws_prefix (codes w)) as [|k] eqn:E;
    [discriminate|].
  intros Hk. apply Nat.eqb_eq in Hk.
  apply ws_prefix_enum in E as (p & r & Hl & Hp & Hin).
  assert (Hr : r = []).
  { apply (f_equal (@length N)) in Hl.
    rewrite codes_length, length_app in Hl.
    destruct r; [reflexivity|cbn [length] in Hl; lia]. }
  subst r. rewrite app_nil_r in Hl.
  pose proof (proj1 (Forall_forall _ _) ws_codes_facts p Hin) as [Ha Hb].
  rewrite Hl. split; [|split].
  - intros r. rewrite Ha. rewrite <- Hl. apply codes_length.
  - lia.
  - destruct Hb as [Hb|Hb].
    + left. apply codes_line_break. now rewrite Hl.
    + right. apply codes_token. now rewrite Hl.
Qed.

Lemma join_length wc :
  Forall (fun w => is_ws_char w = true) wc ->
  length wc <= String.length (join wc).
Proof.
  induction 1 as [|w wc Hw _ IH]; cbn [join fold_right length]; [lia|].
  apply ws_char_facts in Hw as (_ & Hpos & _).
  fold (join wc). rewrite str_length_app. lia.
Qed.

Lemma strip_fuel_ws_chars wc : forall fuel,
  Forall (fun w => is_ws_char w = true) wc -> length wc <= fuel ->
  strip_fuel ws_prefix fuel (codes (join wc)) = [].
Proof.
  induction wc as [|w wc IH]; intros fuel Hwc Hlen.
  - destruct fuel; reflexivity.
  - inversion Hwc as [|? ? Hw Hrest]; subst.
    destruct fuel as [|f]; [cbn in Hlen; lia|].
    apply ws_char_facts in Hw as (Hp & Hpos & _).
    cbn [join fold_right]. fold (join wc). rewrite codes_app.
    cbn [strip_fuel]. rewrite Hp.
    destruct (String.length w) as [|k] eqn:Ek; [lia|].
    rewrite <- Ek, <- codes_length, skipn_app, skipn_all, Nat.sub_diag.
    cbn [app skipn]. apply IH; [exact Hrest|cbn in Hlen; lia].
Qed.

(** A text of white-space characters strips to the empty text. *)
Lemma strip_ws_chars wc :
  Forall (fun w => is_ws_char w = true) wc -> strip (join wc) = "".
Proof.
  intros H. unfold strip.
  rewrite strip_fuel_ws_chars; [reflexivity|exact H|now apply join_length].
Qed.

Lemma join_snoc wc w : join (wc ++ [w]) = join wc ++ w.
Proof.
  unfold join. induction wc as [|x wc IH]; cbn [app fold_right].
  - now rewrite str_app_nil_r.
  - now rewrite IH, str_app_assoc.
Qed.

Lemma concat_join chunks : String.concat "" chunks = join chunks.
Proof.
  unfold join. induction chunks as [|x [|y r] IH]; cbn [String.concat fold_right].
  - reflexivity.
  - now rewrite str_app_nil_r.
  - cbn [String.concat fold_right] in IH. now rewrite IH.
Qed.

Lemma split_nl_aux_no_lf w : forall s cur,
  no_lf w = true -> split_nl_aux (w ++ s) cur = split_nl_aux s (cur ++ w).
Proof.
  induction w as [|c w IH]; intros s cur H; cbn [String.append].
  - now rewrite str_app_nil_r.
  - cbn [no_lf all_chars] in H. apply andb_true_iff in H as [Hc Hw].
    unfold not_char in Hc. apply negb_true_iff in Hc.
    cbn [split_nl_aux]. rewrite Hc, (IH _ _ Hw), str_app_assoc.
    reflexivity.
Qed.

(** The entries of a text of white space and commas are white space. *)
Lemma blank_split chunks : forall wc,
  Forall (fun w => blank_chunk w = true) chunks ->
  Forall (fun w => is_ws_char w = true) wc ->
  Forall (fun t => strip t = "")
         (split_nl_aux (replace_comma (join chunks)) (join wc)).
Proof.
  induction chunks as [|w chunks IH]; intros wc Hch Hwc.
  - cbn [join fold_right replace_comma split_nl_aux].
    constructor; [now apply strip_ws_chars|constructor].
  - inversion Hch as [|? ? Hw Hrest]; subst.
    cbn [join fold_right]. fold (join chunks).
    assert (Hbreak : forall x,
              replace_comma x = nl ->
              Forall (fun t => strip t = "")
                (split_nl_aux (replace_comma (x ++ join chunks))
                              (join wc))).
    { intros x Hx. rewrite replace_comma_app, Hx.
      cbn [nl String.append split_nl_aux]. rewrite Ascii.eqb_refl.
      constructor; [now apply strip_ws_chars|].
      exact (IH [] Hrest (Forall_nil _)). }
    unfold blank_chunk in Hw. destruct (String.eqb_spec w ",") as [->|_].
    + now apply Hbreak.
    + cbn [orb] in Hw. pose proof Hw as Hw'.
      apply ws_char_facts in Hw as (_ & _ & [->|Ht]).
      * now apply Hbreak.
      * rewrite replace_comma_app, (replace_comma_token w Ht).
        rewrite split_nl_aux_no_lf by now apply token_no_lf.
        rewrite <- join_snoc. apply IH; [exact Hrest|].
        apply Forall_app. split; [exact Hwc|now constructor].
Qed.

Lemma parse_lines_blank lib xs :
  Forall (fun t => strip t = "") xs -> parse_lines lib xs = inr [].
Proof.
  induction 1 as [|t xs Ht _ IH]; cbn [parse_lines]; [reflexivity|].
  now rewrite Ht.
Qed.

(** X3. A text area that holds nothing but white space (any character of
    [str.isspace], the ones outside ASCII included), line breaks and commas
    gives the empty list of values, without one call of [float], so that its
    group is not stored in [data_dict]. *)
Theorem blank_text_has_no_values (lib : Lib) (name : string)
    (chunks : list string) (data_dict : dict) :
  Forall (fun w => blank_chunk w = true) chunks ->
  parse_vals lib (String.concat "" chunks) = inr [] /\
  store data_dict (name, []) = data_dict /\
  forall i rest,
    result_of (input_loop lib i ((name, String.concat "" chunks) :: rest)
                          data_dict) =
    result_of (input_loop lib (S i) rest data_dict).
Proof.
  intros H.
  assert (Hp : parse_vals lib (String.concat "" chunks) = inr []).
  { unfold parse_vals, split_nl. apply parse_lines_blank.
    rewrite concat_join. exact (blank_split chunks [] H (Forall_nil _)). }
  split; [exact Hp|]. split; [reflexivity|].
  intros i rest. cbn [input_loop]. rewrite Hp. run_eval.
  cbn [length Nat.leb].
  now destruct (input_loop lib (S i) rest data_dict).
Qed.

(** A text with spaces, commas, a line break, U+3000 and U+00A0. *)
Lemma blank_text_has_no_values_witness :
  parse_vals sample_lib_equal
    (String.concat "" [" "; ","; nl; of_codes [227; 128; 128]%N; ","; of_codes [194; 160]%N; " "])
    = inr [] /\
  store sample_groups2 ("C", []) = sample_groups2 /\
  forall i rest,
    result_of (input_loop sample_lib_equal i
                 (("C", String.concat ""
                          [" "; ","; nl; of_codes [227; 128; 128]%N; ","; of_codes [194; 160]%N; " "])
                  :: rest) sample_groups2) =
    result_of (input_loop sample_lib_equal (S i) rest sample_groups2).
Proof.
  apply (blank_text_has_no_values sample_lib_equal "C"
           [" "; ","; nl; of_codes [227; 128; 128]%N; ","; of_codes [194; 160]%N; " "]
           sample_groups2).
  repeat constructor.
Defined.

Lemma split_nl_token t : no_lf t = true -> split_nl t = [t].
Proof.
  intros H. unfold split_nl.
  assert (G : forall s cur, no_lf s = true ->
                            split_nl_aux s cur = [cur ++ s]).
  { induction s as [|c s IH]; intros cur Hs; cbn [split_nl_aux].
    - now rewrite str_app_nil_r.
    - cbn [no_lf all_chars] in Hs. apply andb_true_iff in Hs as [Hc Hs].
      unfold not_char in Hc. apply negb_true_iff in Hc. rewrite Hc.
      rewrite (IH _ Hs), str_app_assoc. reflexivity. }
  exact (G t "" H).
Qed.

Lemma replace_comma_concat tokens :
  Forall (fun t => all_chars token_char t = true) tokens ->
  replace_comma (String.concat "," tokens) = String.concat nl tokens.
Proof.
  induction 1 as [|t ts Ht Hts IH]; [reflexivity|].
  destruct ts as [|t' ts]; cbn [String.concat].
  - now apply replace_comma_token.
  - rewrite !replace_comma_app, (replace_comma_token t Ht).
    cbn [String.concat] in IH. now rewrite IH.
Qed.

Lemma replace_comma_lines tokens :
  Forall (fun t => all_chars token_char t = true) tokens ->
  replace_comma (String.concat nl tokens) = String.concat nl tokens.
Proof.
  induction 1 as [|t ts Ht Hts IH]; [reflexivity|].
  destruct ts as [|t' ts]; cbn [String.concat].
  - now apply replace_comma_token.
  - rewrite !replace_comma_app, (replace_comma_token t Ht).
    cbn [String.concat] in IH. now rewrite IH.
Qed.

Lemma split_nl_concat t tokens :
  Forall (fun t => all_chars token_char t = true) (t :: tokens) ->
  split_nl (String.concat nl (t :: tokens)) = t :: tokens.
Proof.
  revert t. induction tokens as [|t' ts IH]; intros t H.
  - cbn [String.concat]. apply split_nl_token, token_no_lf.
    now inversion H.
  - inversion H as [|? ? Ht Hts]; subst.
    change (String.concat nl (t :: t' :: ts))
      with (t ++ nl ++ String.concat nl (t' :: ts)).
    rewrite split_nl_line by now apply token_no_lf.
    now rewrite IH.
Qed.

(** X4. Commas and line breaks separate the entries alike: for entries
    without a comma and without a line break, the text that joins them with
    commas and the text that joins them with line breaks give the same
    result, which is the conversion of the entries in their order (blank
    entries left out, the first failing conversion raised). *)
Theorem separators_are_equivalent (lib : Lib) (tokens : list string) :
  Forall (fun t => all_chars token_char t = true) tokens ->
  parse_vals lib (String.concat "," tokens) = parse_lines lib tokens /\
  parse_vals lib (String.concat nl tokens) = parse_lines lib tokens.
Proof.
  intros H. unfold parse_vals.
  rewrite (replace_comma_concat tokens H), (replace_comma_lines tokens H).
  destruct tokens as [|t ts]; [split; reflexivity|].
  now rewrite (split_nl_concat t ts H).
Qed.

Lemma separators_are_equivalent_witness :
  parse_vals sample_lib_equal (String.concat "," ["1"; " 2 "; ""; "30"]) =
    parse_lines sample_lib_equal ["1"; " 2 "; ""; "30"] /\
  parse_vals sample_lib_equal (String.concat nl ["1"; " 2 "; ""; "30"]) =
    parse_lines sample_lib_equal ["1"; " 2 "; ""; "30"].
Proof.
  apply (separators_are_equivalent sample_lib_equal ["1"; " 2 "; ""; "30"]).
  repeat constructor.
Defined.

Lemma parse_lines_raise lib xs1 : forall x xs2 e vs,
  parse_lines lib xs1 = inr vs ->
  truthy (strip x) = true ->
  float_of_str lib (strip x) = inl e ->
  parse_lines lib (xs1 ++ x :: xs2) = inl e.
Proof.
  induction xs1 as [|y ys IH]; intros x xs2 e vs H1 Ht He.
  - cbn [app parse_lines]. now rewrite Ht, He.
  - cbn [app parse_lines] in *.
    destruct (truthy (strip y)).
    + destruct (float_of_str lib (strip y)) as [e'|v]; [discriminate|].
      destruct (parse_lines lib ys) as [e'|vs'] eqn:E; [discriminate|].
      now rewrite (IH x xs2 e vs' eq_refl Ht He).
    + now apply (IH x xs2 e vs).
Qed.

Lemma input_loop_raise lib w1 g1 :
  parsed lib w1 g1 ->
  forall name raw w2 e i d0,
    parse_vals lib raw = inl e ->
    exists l,
      input_loop lib i (w1 ++ (name, raw) :: w2) d0 = (l, inl e) /\
      forallb is_input_widget l = true /\
      length l = 2 * (length w1 + 1).
Proof.
  induction 1 as [|[n r] [n' vals] ws gs [Hn Hp] _ IH];
    intros name raw w2 e i d0 He.
  - cbn [app input_loop]. rewrite He. run_eval.
    eexists. split; [reflexivity|]. split; reflexivity.
  - cbn [fst snd] in Hn, Hp. cbn [app input_loop]. rewrite Hp.
    destruct (IH name raw w2 e (S i)
                (if (3 <=? length vals)%nat then PyDict.set n vals d0
                 else d0) He) as (l & Hl & Hw & Hlen).
    run_eval. rewrite Hl. eexists. split; [reflexivity|].
    cbn [app forallb is_input_widget andb length]. split; [exact Hw|].
    rewrite Hlen. cbn [length]. lia.
Qed.

(** X5. An entry that [float] rejects aborts the whole script: when the
    groups before parse, and in a later text area the entries before convert
    or are blank but one entry makes [float] raise, the script raises that
    exception; up to then it has created the input widgets of the groups up
    to this one and nothing else, so no later widget, no statistical call
    and no report. *)
Theorem bad_entry_aborts_script (lib : Lib)
    (w1 w2 : list (string * string)) (g1 : list (string * list float))
    (name raw x : string) (xs1 xs2 : list string) (vs : list float)
    (e : exn) :
  parsed lib w1 g1 ->
  split_nl (replace_comma raw) = (xs1 ++ x :: xs2)%list ->
  parse_lines lib xs1 = inr vs ->
  truthy (strip x) = true ->
  float_of_str lib (strip x) = inl e ->
  exists l,
    main lib (w1 ++ (name, raw) :: w2) = (l, inl e) /\
    forallb is_input_widget l = true /\
    length l = 2 * (length w1 + 1) /\
    existsb is_call l = false /\
    existsb is_report l = false.
Proof.
  intros Hp Hs H1 Ht He.
  assert (Hraw : parse_vals lib raw = inl e).
  { unfold parse_vals. rewrite Hs.
    exact (parse_lines_raise lib xs1 x xs2 e vs H1 Ht He). }
  destruct (input_loop_raise lib w1 g1 Hp name raw w2 e 0 [] Hraw)
    as (l & Hl & Hw & Hlen).
  exists l. unfold main, build_data_dict. rewrite Hl.
  split; [reflexivity|]. split; [exact Hw|]. split; [exact Hlen|].
  clear -Hw. induction l as [|ev l IH]; [split; reflexivity|].
  cbn [forallb existsb] in *. apply andb_true_iff in Hw as [He Hw].
  destruct (IH Hw) as [-> ->]. now destruct ev.
Qed.

Lemma bad_entry_aborts_script_witness :
  exists l,
    main sample_lib_equal bad_widgets =
      (l, inl (PyExc "ValueError" "could not convert string to float")) /\
    forallb is_input_widget l = true /\
    length l = 2 * (1 + 1) /\
    existsb is_call l = false /\
    existsb is_report l = false.
Proof.
  apply (bad_entry_aborts_script sample_lib_equal
           [("A", "1,2,3")] [("C", "7,8,9")]
           [("A", [Fin false 1 1; Fin false 2 1; Fin false 3 1])]
           "B" "4,x,6" "x" ["4"] ["6"] [Fin false 4 1]).
  - repeat constructor.
  - reflexivity.
  - reflexivity.
  - reflexivity.
  - reflexivity.
Defined.

(* ===================================================================== *)
(** ** What [data_dict] holds                                            *)
(* ===================================================================== *)

Lemma input_loop_inv lib widgets : forall i d0 l d,
  input_loop lib i widgets d0 = (l, inr d) ->
  exists groups,
    parsed lib widgets groups /\
    d = fold_left store groups d0 /\
    forallb is_input_widget l = true /\
    length l = 2 * length widgets.
Proof.
  induction widgets as [|[name raw] ws IH]; intros i d0 l d H.
  - cbn [input_loop] in H. apply ret_inr in H as [-> <-].
    exists []. repeat split. constructor.
  - cbn [input_loop] in H. run_inv H.
    apply IH in H as (gs & Hp & -> & Hw & Hlen).
    exists ((name, a) :: gs). split; [|split; [|split]].
    + constructor; [split; [reflexivity|assumption]|exact Hp].
    + reflexivity.
    + cbn [app forallb is_input_widget andb]. exact Hw.
    + cbn [app length]. rewrite Hlen. lia.
Qed.

Lemma set_Forall {V} (P : string * V -> Prop) k v (d : PyDict.dict V) :
  Forall P d -> P (k, v) -> Forall P (PyDict.set k v d).
Proof.
  intros Hd Hkv. induction Hd as [|[k' v'] d Hx Hd IH]; cbn [PyDict.set].
  - now constructor.
  - destruct (String.eqb k k'); constructor; auto.
Qed.

Lemma store_valid gs : forall d0,
  Forall (fun kv => valid (snd kv) = true) d0 ->
  Forall (fun kv => valid (snd kv) = true) (fold_left store gs d0).
Proof.
  induction gs as [|g gs IH]; intros d0 H; cbn [fold_left]; [exact H|].
  apply IH. unfold store. destruct (valid (snd g)) eqn:E; [|exact H].
  now apply set_Forall.
Qed.

Lemma store_keys_from gs : forall d0 k,
  In k (PyDict.keys (fold_left store gs d0)) ->
  In k (PyDict.keys d0) \/ In k (map fst gs).
Proof.
  induction gs as [|g gs IH]; intros d0 k H; cbn [fold_left] in H;
    [now left|].
  apply IH in H as [H|H]; [|right; now right].
  unfold store in H. destruct (valid (snd g)); [|now left].
  destruct (in_dec string_dec (fst g) (PyDict.keys d0)) as [Hin|Hin].
  - rewrite set_keys_present in H by exact Hin. now left.
  - rewrite set_keys_absent in H by exact Hin.
    apply in_app_or in H as [H|[<-|[]]]; [now left|right; now left].
Qed.

Lemma parsed_names lib widgets groups :
  parsed lib widgets groups -> map fst groups = map fst widgets.
Proof.
  induction 1 as [|w g ws gs [Hn _] _ IH]; cbn [map]; [reflexivity|].
  now rewrite Hn, IH.
Qed.

Lemma parsed_length lib widgets groups :
  parsed lib widgets groups -> length groups = length widgets.
Proof.
  intros H. rewrite <- (length_map fst groups), <- (length_map fst widgets).
  now rewrite (parsed_names lib widgets groups H).
Qed.

(** X6. Whatever the widgets hold, a [data_dict] that the input loop has
    built has distinct names, only groups of at least 3 values, only names
    that some widget has, and at most as many groups as there are widgets;
    the loop has shown the two input widgets of every group and nothing
    else. *)
Theorem data_dict_invariant (lib : Lib) (widgets : list (string * string))
    (l : list event) (data_dict : dict) :
  build_data_dict lib widgets = (l, inr data_dict) ->
  NoDup (PyDict.keys data_dict) /\
  Forall (fun kv => 3 <= length (snd kv)) data_dict /\
  (forall k, In k (PyDict.keys data_dict) -> In k (map fst widgets)) /\
  length data_dict <= length widgets /\
  forallb is_input_widget l = true /\
  length l = 2 * length widgets.
Proof.
  intros H. apply input_loop_inv in H as (gs & Hp & -> & Hw & Hlen).
  split; [apply store_keys_NoDup; constructor|].
  split; [|split; [|split; [|split; assumption]]].
  - pose proof (store_valid gs [] (Forall_nil _)) as Hv.
    eapply Forall_impl; [|exact Hv].
    intros kv Hkv. now apply Nat.leb_le.
  - intros k Hk. apply store_keys_from in Hk as [[]|Hk].
    now rewrite <- (parsed_names lib widgets gs Hp).
  - pose proof (store_length_le gs []) as Hle. cbn [length Nat.add] in Hle.
    rewrite <- (parsed_length lib widgets gs Hp).
    unfold valid_groups in Hle. pose proof (filter_length_le
      (fun g : string * list float => valid (snd g)) gs). lia.
Qed.

Lemma data_dict_invariant_witness :
  NoDup (PyDict.keys [("A", [Fin false 7 1; Fin false 8 1; Fin false 9 1]);
                      ("B", [Fin false 4 1; Fin false 5 1; Fin false 6 1])])
  /\
  Forall (fun kv : string * list float => 3 <= length (snd kv))
    [("A", [Fin false 7 1; Fin false 8 1; Fin false 9 1]);
     ("B", [Fin false 4 1; Fin false 5 1; Fin false 6 1])] /\
  (forall k,
     In k (PyDict.keys
             [("A", [Fin false 7 1; Fin false 8 1; Fin false 9 1]);
              ("B", [Fin false 4 1; Fin false 5 1; Fin false 6 1])]) ->
     In k (map fst sample_widgets)) /\
  length [("A", [Fin false 7 1; Fin false 8 1; Fin false 9 1]);
          ("B", [Fin false 4 1; Fin false 5 1; Fin false 6 1])]
    <= length sample_widgets /\
  forallb is_input_widget
    (log_of (build_data_dict sample_lib_equal sample_widgets)) = true /\
  length (log_of (build_data_dict sample_lib_equal sample_widgets)) =
    2 * length sample_widgets.
Proof.
  apply (data_dict_invariant sample_lib_equal sample_widgets).
  vm_compute. reflexivity.
Defined.

Lemma store_get gs name : forall d0,
  PyDict.get (fold_left store gs d0) name =
  last_valid name gs (PyDict.get d0 name).
Proof.
  unfold last_valid.
  induction gs as [|[n v] gs IH]; intros d0; cbn [fold_left];
    [reflexivity|].
  rewrite IH. f_equal. unfold store. cbn [fst snd].
  destruct (valid v); cbn [andb]; [|reflexivity].
  destruct (String.eqb name n) eqn:E.
  - apply String.eqb_eq in E. subst n. apply set_get_same.
  - apply String.eqb_neq in E. now apply set_get_other.
Qed.

Lemma last_valid_none name gs : forall acc,
  last_valid name gs acc = None <->
  acc = None /\ forall v, In (name, v) gs -> length v < 3.
Proof.
  unfold last_valid.
  induction gs as [|[n v] gs IH]; intros acc; cbn [fold_left In].
  - split; [intros ->; split; [reflexivity|tauto]|tauto].
  - rewrite IH. cbn [fst snd]. unfold valid.
    destruct (Nat.leb_spec 3 (length v)) as [Hv|Hv]; cbn [andb].
    + destruct (String.eqb_spec name n) as [->|Hne].
      * split; [intros [? _]; discriminate|].
        intros [_ H]. specialize (H v (or_introl eq_refl)). lia.
      * split; intros [Ha H]; (split; [exact Ha|]); intros v' Hin.
        -- destruct Hin as [E|Hin]; [congruence|now apply H].
        -- apply H. now right.
    + split; intros [Ha H]; (split; [exact Ha|]); intros v' Hin.
      * destruct Hin as [E|Hin]; [|now apply H].
        injection E as _ <-. exact Hv.
      * apply H. now right.
Qed.

(** X7. Lookup after the input loop: when the texts parse, the loop
    returns a [data_dict] in which a name has the values of the last group
    of that name with at least 3 values, and is absent ([KeyError]) when no
    group of that name has 3 values. *)
Theorem data_dict_lookup (lib : Lib) (widgets : list (string * string))
    (groups : list (string * list float)) :
  parsed lib widgets groups ->
  exists l data_dict,
    build_data_dict lib widgets = (l, inr data_dict) /\
    (forall name,
       PyDict.get data_dict name = last_valid name groups None) /\
    (forall name,
       PyDict.get data_dict name = None <->
       forall v, In (name, v) groups -> length v < 3).
Proof.
  intros Hp. destruct (input_loop_run lib _ _ Hp 0 []) as (l & Hl & _).
  exists l, (fold_left store groups []).
  split; [exact Hl|].
  assert (Hget : forall name,
            PyDict.get (fold_left store groups []) name =
            last_valid name groups None)
    by (intros name; apply store_get).
  split; [exact Hget|].
  intros name. rewrite Hget, last_valid_none. tauto.
Qed.

Lemma data_dict_lookup_witness :
  exists l data_dict,
    build_data_dict sample_lib_equal sample_widgets = (l, inr data_dict) /\
    (forall name,
       PyDict.get data_dict name =
       last_valid name
         [("A", [Fin false 1 1; Fin false 2 1; Fin false 3 1]);
          ("B", [Fin false 4 1; Fin false 5 1; Fin false 6 1]);
          ("A", [Fin false 7 1; Fin false 8 1; Fin false 9 1])] None) /\
    (forall name,
       PyDict.get data_dict name = None <->
       forall v,
         In (name, v)
           [("A", [Fin false 1 1; Fin false 2 1; Fin false 3 1]);
            ("B", [Fin false 4 1; Fin false 5 1; Fin false 6 1]);
            ("A", [Fin false 7 1; Fin false 8 1; Fin false 9 1])] ->
         length v < 3).
Proof.
  apply (data_dict_lookup sample_lib_equal sample_widgets).
  repeat constructor.
Defined.

Lemma set_absent {V} k v (d : PyDict.dict V) :
  ~ In k (PyDict.keys d) -> PyDict.set k v d = (d ++ [(k, v)])%list.
Proof.
  unfold PyDict.keys.
  induction d as [|[k' v'] d IH]; cbn [PyDict.set map fst In app];
    [reflexivity|].
  intros H. destruct (String.eqb_spec k k') as [->|Hne]; [tauto|].
  f_equal. apply IH. tauto.
Qed.

Lemma store_distinct gs : forall d0,
  NoDup (map fst gs) ->
  (forall k, In k (map fst gs) -> ~ In k (PyDict.keys d0)) ->
  fold_left store gs d0 = (d0 ++ valid_groups gs)%list.
Proof.
  induction gs as [|[n v] gs IH]; intros d0 Hnd Hdis.
  - cbn. now rewrite app_nil_r.
  - cbn [map fst] in Hnd. inversion Hnd as [|? ? Hn Hnd']; subst.
    cbn [fold_left]. unfold valid_groups. cbn [filter snd].
    unfold store at 2. cbn [fst snd].
    destruct (valid v).
    + rewrite IH; [|exact Hnd'|].
      * rewrite set_absent by (apply Hdis; now left).
        now rewrite <- app_assoc.
      * intros k Hk Hin.
        rewrite set_keys_absent in Hin by (apply Hdis; now left).
        apply in_app_or in Hin as [Hin|[<-|[]]].
        -- apply (Hdis k); [now right|exact Hin].
        -- exact (Hn Hk).
    + apply IH; [exact Hnd'|]. intros k Hk. apply Hdis. now right.
Qed.

(** X8. With distinct names nothing is lost: when the texts parse and no
    two widgets have the same name, [data_dict] is the list of the groups of
    at least 3 values, in the order of the widgets, and the script goes on as
    the analysis of exactly these groups; with 2 or more such groups and
    library calls that return, it reaches its end and produces the
    reports. *)
Theorem distinct_names_keep_all_groups (lib : Lib)
    (widgets : list (string * string))
    (groups : list (string * list float)) :
  parsed lib widgets groups ->
  NoDup (map fst widgets) ->
  exists l_in,
    build_data_dict lib widgets = (l_in, inr (valid_groups groups)) /\
    forallb is_input_widget l_in = true /\
    main lib widgets =
      ((l_in ++ log_of (analysis lib (valid_groups groups)))%list,
       result_of (analysis lib (valid_groups groups))) /\
    (2 <= length (valid_groups groups) -> lib_returns lib ->
     exists l o,
       completes lib (valid_groups groups) l o /\
       main lib widgets = ((l_in ++ l)%list, inr (Some o)) /\
       existsb is_report l = true).
Proof.
  intros Hp Hnd. destruct (input_loop_run lib _ _ Hp 0 []) as (l & Hl & Hw).
  rewrite store_distinct in Hl;
    [|now rewrite (parsed_names lib widgets groups Hp)|intros k _ []].
  cbn [app] in Hl. exists l. split; [exact Hl|]. split; [exact Hw|].
  assert (Hmain : main lib widgets =
            ((l ++ log_of (analysis lib (valid_groups groups)))%list,
             result_of (analysis lib (valid_groups groups)))).
  { unfold main, build_data_dict. rewrite Hl.
    unfold bind, log_of, result_of.
    now destruct (analysis lib (valid_groups groups)) as [l' r]. }
  split; [exact Hmain|].
  intros Hlen R.
  destruct (analysis_returns lib (valid_groups groups) R Hlen)
    as (l' & o & Hrun).
  exists l', o. split; [exact Hrun|].
  rewrite Hmain, Hrun. split; [reflexivity|].
  apply analysis_inv in Hrun as (_ & lc & c & _ & H).
  destruct H as (_ & _ & _ & _ & _ & _ & _ & _ & _ & _ & _ & _ & _ & ->).
  cbn [existsb is_report orb]. rewrite existsb_app. cbn [existsb].
  rewrite existsb_app. unfold report_events. cbn [existsb is_report orb].
  now rewrite !orb_true_r.
Qed.

Lemma distinct_names_keep_all_groups_witness :
  exists l_in,
    build_data_dict sample_lib_equal
      [("A", "1,2,3"); ("B", "4,5"); ("C", "7,8,9")] =
      (l_in, inr (valid_groups
                    [("A", [Fin false 1 1; Fin false 2 1; Fin false 3 1]);
                     ("B", [Fin false 4 1; Fin false 5 1]);
                     ("C", [Fin false 7 1; Fin false 8 1; Fin false 9 1])]))
    /\
    forallb is_input_widget l_in = true /\
    main sample_lib_equal [("A", "1,2,3"); ("B", "4,5"); ("C", "7,8,9")] =
      ((l_in ++ log_of (analysis sample_lib_equal
                  (valid_groups
                    [("A", [Fin false 1 1; Fin false 2 1; Fin false 3 1]);
                     ("B", [Fin false 4 1; Fin false 5 1]);
                     ("C", [Fin false 7 1; Fin false 8 1; Fin false 9 1])])))
       %list,
       result_of (analysis sample_lib_equal
                  (valid_groups
                    [("A", [Fin false 1 1; Fin false 2 1; Fin false 3 1]);
                     ("B", [Fin false 4 1; Fin false 5 1]);
                     ("C", [Fin false 7 1; Fin false 8 1; Fin false 9 1])])))
    /\
    (2 <= length (valid_groups
                    [("A", [Fin false 1 1; Fin false 2 1; Fin false 3 1]);
                     ("B", [Fin false 4 1; Fin false 5 1]);
                     ("C", [Fin false 7 1; Fin false 8 1; Fin false 9 1])]) ->
     lib_returns sample_lib_equal ->
     exists l o,
       completes sample_lib_equal
         (valid_groups
            [("A", [Fin false 1 1; Fin false 2 1; Fin false 3 1]);
             ("B", [Fin false 4 1; Fin false 5 1]);
             ("C", [Fin false 7 1; Fin false 8 1; Fin false 9 1])]) l o /\
       main sample_lib_equal [("A", "1,2,3"); ("B", "4,5"); ("C", "7,8,9")] =
         ((l_in ++ l)%list, inr (Some o)) /\
       existsb is_report l = true).
Proof.
  apply (distinct_names_keep_all_groups sample_lib_equal
           [("A", "1,2,3"); ("B", "4,5"); ("C", "7,8,9")]).
  - repeat constructor.
  - repeat constructor; cbn; intuition discriminate.
Defined.

(* ===================================================================== *)
(** ** The events of a run                                               *)
(* ===================================================================== *)

Section RunLog.

Variable lib : Lib.

(** The log of a completed 2-group comparison. *)
Lemma two_group_log d an ev l c :
  two_group_comparison lib d an ev = (l, inr c) ->
  exists gn0 gn1 rest v1 v2 s,
    PyDict.keys d = gn0 :: gn1 :: rest /\
    PyDict.get d gn0 = Some v1 /\ PyDict.get d gn1 = Some v2 /\
    (if an then ttest_ind lib v1 v2 ev else mannwhitneyu lib v1 v2)
      = inr (s, c_p_final c) /\
    l = [if an then Call_ttest_ind v1 v2 ev else Call_mannwhitneyu v1 v2;
         St_success (method_banner (c_method c));
         St_metric "P-value" (c_p_disp c)].
Proof.
  unfold two_group_comparison, method_banner.
  destruct (PyDict.keys d) as [|gn0 [|gn1 ks]] eqn:Ek; try discriminate.
  destruct (PyDict.get d gn0) as [v1|] eqn:E0; try discriminate.
  destruct (PyDict.get d gn1) as [v2|] eqn:E1; try discriminate.
  intros H. exists gn0, gn1, ks, v1, v2.
  destruct an; run_inv H; subst c; injection Hc as <- <-;
    cbn [c_method c_p_disp c_p_final];
    eexists; repeat split; eassumption.
Qed.

(** The log of a completed comparison of 3 or more groups. *)
Lemma multi_group_log d an ev l c :
  multi_group_comparison lib d an ev = (l, inr c) ->
  exists s l_post,
    (if an && ev then f_oneway lib (PyDict.values d)
     else kruskal lib (PyDict.values d)) = inr (s, c_p_final c) /\
    posthoc_log lib d (an && ev) c l_post /\
    l = ((if an && ev then Call_f_oneway (PyDict.values d)
          else Call_kruskal (PyDict.values d))
         :: (if an && ev then St_success (method_banner (c_method c))
             else St_warning (method_banner (c_method c)))
         :: shown_p_value 3 (an && ev) (c_p_disp c)
         :: l_post)%list.
Proof.
  unfold multi_group_comparison, method_banner, posthoc_log, shown_p_value.
  intros H. destruct (an && ev); run_inv H;
    match type of H with
    | context [ltb ?p lit_0_05] => destruct (ltb p lit_0_05) eqn:Hp
    end; run_inv H; subst c; cbn [c_p_final c_method c_p_disp c_posthoc];
    rewrite Hp; cbn [Nat.eqb];
    eexists; eexists; (split; [eassumption|]); split;
    try reflexivity; eauto 10.
Qed.

End RunLog.

Lemma filter_shapiro_calls p (d : dict) :
  (forall v, p (Call_shapiro v) = false) ->
  filter p (map (fun kv => Call_shapiro (snd kv)) d) = [].
Proof.
  intros H. apply existsb_false_filter. now apply existsb_map_false.
Qed.

(** The comparison part of the log of a completed run. *)
Lemma run_comparison lib d l o :
  completes lib d l o ->
  2 <= length d /\
  exists lc c,
    comparison lib d (all_normal o) (is_equal_var o) = (lc, inr c) /\
    method o = c_method c /\ p_final o = c_p_final c /\
    p_disp o = c_p_disp c /\ posthoc o = c_posthoc c /\
    (forall e, In e lc -> In e l) /\
    forall p,
      (forall e, is_frame e = true -> p e = false) ->
      filter p l = filter p lc.
Proof.
  intros H. apply analysis_inv in H as (Hlen & lc & c & Hc & H).
  destruct H as (_ & _ & _ & _ & _ & Hm & Hpf & Hpd & Hph & _ & _ & _ & _
                 & ->).
  split; [exact Hlen|]. exists lc, c. repeat (split; [assumption|]).
  split.
  - intros e He. apply in_cons, in_or_app. right.
    apply in_cons, in_or_app. now left.
  - intros p Hn.
    cbn [filter]. rewrite (Hn (St_header _)) by reflexivity.
    rewrite filter_app, (filter_shapiro_calls p d)
      by (intros v; now apply Hn).
    cbn [app filter]. rewrite (Hn (Call_levene _)) by reflexivity.
    rewrite filter_app. unfold report_events. cbn [filter].
    rewrite !Hn by reflexivity. now rewrite app_nil_r.
Qed.

(** X9. In a run exactly one hypothesis test is called, the one of the
    method: for 2 groups the t-test on the two groups in their order, with
    [equal_var] set to the variance flag, when all groups are normal, and the
    Mann-Whitney test otherwise; for 3 or more groups the ANOVA on all groups
    when they are normal with equal variance, and the Kruskal-Wallis test
    otherwise. [p_final] is the p-value of that call. *)
Theorem one_test_per_run (lib : Lib) (d : dict) (l : list event)
    (o : Outcome) :
  completes lib d l o ->
  NoDup (PyDict.keys d) ->
  exists e s,
    test_call lib d (all_normal o) (is_equal_var o)
      = Some (e, inr (s, p_final o)) /\
    filter is_test_call l = [e].
Proof.
  intros H Hnd.
  destruct (run_comparison lib d l o H)
    as (Hlen & lc & c & Hc & _ & -> & _ & _ & _ & Hf).
  rewrite (Hf is_test_call) by now intros [].
  clear Hf H. unfold comparison in Hc.
  destruct d as [|[k0 v0] [|[k1 v1] [|x r]]]; cbn [length] in Hlen;
    try lia; cbn [length Nat.eqb] in Hc.
  - apply two_group_log in Hc
      as (gn0 & gn1 & rest & v1' & v2' & s & Hk & H0 & H1 & Ht & ->).
    cbn [PyDict.keys map fst] in Hk, Hnd. injection Hk as <- <- _.
    cbn [PyDict.get] in H0, H1. rewrite String.eqb_refl in H0.
    injection H0 as <-.
    inversion Hnd as [|? ? Hn _]; subst.
    destruct (String.eqb_spec k1 k0) as [->|_];
      [exfalso; apply Hn; now left|].
    rewrite String.eqb_refl in H1. injection H1 as <-.
    cbn [test_call].
    destruct (all_normal o); rewrite Ht; eexists; eexists;
      split; reflexivity.
  - apply multi_group_log in Hc as (s & lp & Ht & Hp & ->).
    assert (Hlp : filter is_test_call lp = []).
    { unfold posthoc_log in Hp.
      destruct (ltb (c_p_final c) lit_0_05);
        [destruct (all_normal o && is_equal_var o)|].
      - destruct Hp as (? & ? & ? & _ & _ & _ & ->). reflexivity.
      - destruct Hp as (? & ? & ? & _ & _ & _ & _ & ->). reflexivity.
      - destruct Hp as [_ ->]. reflexivity. }
    cbn [test_call].
    destruct (all_normal o && is_equal_var o); rewrite Ht;
      eexists; eexists; (split; [reflexivity|]);
      unfold shown_p_value; cbn [filter is_test_call Nat.eqb];
      now rewrite Hlp.
Qed.

Lemma one_test_per_run_witness :
  exists l o,
    completes sample_lib_unequal sample_groups2 l o /\
    exists e s,
      test_call sample_lib_unequal sample_groups2
                (all_normal o) (is_equal_var o)
        = Some (e, inr (s, p_final o)) /\
      filter is_test_call l = [e].
Proof.
  destruct (analysis_returns sample_lib_unequal sample_groups2)
    as (l & o & Hc);
    [constructor; intros; eexists; reflexivity|simpl; lia|].
  exists l, o. split; [exact Hc|].
  apply (one_test_per_run sample_lib_unequal sample_groups2 l o Hc).
  repeat constructor; cbn; intuition discriminate.
Defined.

(** The Welch run calls the t-test without pooled variance, once. *)
Example welch_test_call :
  filter is_test_call (log_of (analysis sample_lib_unequal sample_groups2)) =
  [Call_ttest_ind [Fin false 10 1; Fin false 12 1; Fin false 11 1]
                  [Fin false 20 1; Fin false 22 1; Fin false 21 1] false].
Proof. vm_compute. reflexivity. Qed.

Lemma shown_p_value_multi n b pd :
  3 <= n -> shown_p_value n b pd = shown_p_value 3 b pd.
Proof.
  intros H. unfold shown_p_value.
  replace (n =? 2)%nat with false; [reflexivity|].
  symmetry. apply Nat.eqb_neq. lia.
Qed.

(** X10. What a run shows on the screen agrees with what its reports
    say: there is exactly one method banner, it names the method of the
    reports (as a warning for Kruskal-Wallis, as a success message
    otherwise), and the p-value shown next to it (the metric for 2 groups,
    the line "Overall P-value" for 3 or more) is the string [p_disp] that the
    reports embed. *)
Theorem screen_agrees_with_reports (lib : Lib) (d : dict)
    (l : list event) (o : Outcome) :
  completes lib d l o ->
  let parametric := all_normal o && is_equal_var o in
  filter is_banner l =
    [if (3 <=? length d)%nat && negb parametric
     then St_warning (method_banner (method o))
     else St_success (method_banner (method o))] /\
  In (shown_p_value (length d) parametric (p_disp o)) l.
Proof.
  intros H. cbv zeta.
  destruct (run_comparison lib d l o H)
    as (Hlen & lc & c & Hc & -> & _ & -> & _ & Hin & Hf).
  rewrite (Hf is_banner) by now intros [].
  clear Hf H. unfold comparison in Hc.
  destruct (length d) as [|[|[|n]]] eqn:E; try lia;
    cbn [Nat.eqb Nat.leb andb] in *.
  - apply two_group_log in Hc
      as (gn0 & gn1 & rest & v1 & v2 & s & _ & _ & _ & _ & ->).
    split.
    + now destruct (all_normal o).
    + apply Hin. unfold shown_p_value. cbn. auto.
  - apply multi_group_log in Hc as (s & lp & _ & Hp & ->).
    assert (Hlp : filter is_banner lp = []).
    { unfold posthoc_log in Hp.
      destruct (ltb (c_p_final c) lit_0_05);
        [destruct (all_normal o && is_equal_var o)|].
      - destruct Hp as (? & ? & ? & _ & _ & _ & ->). reflexivity.
      - destruct Hp as (? & ? & ? & _ & _ & _ & _ & ->). reflexivity.
      - destruct Hp as [_ ->]. reflexivity. }
    split.
    + destruct (all_normal o && is_equal_var o);
        unfold shown_p_value; cbn [filter is_banner Nat.eqb negb];
        now rewrite Hlp.
    + apply Hin. rewrite shown_p_value_multi by lia.
      right. right. now left.
Qed.

Lemma screen_agrees_with_reports_witness :
  exists l o,
    completes sample_lib_kruskal kruskal_groups l o /\
    filter is_banner l =
      [if (3 <=? length kruskal_groups)%nat
          && negb (all_normal o && is_equal_var o)
       then St_warning (method_banner (method o))
       else St_success (method_banner (method o))] /\
    In (shown_p_value (length kruskal_groups)
          (all_normal o && is_equal_var o) (p_disp o)) l.
Proof.
  destruct (analysis_returns sample_lib_kruskal kruskal_groups)
    as (l & o & Hc);
    [constructor; intros; eexists; reflexivity|simpl; lia|].
  exists l, o. split; [exact Hc|].
  exact (screen_agrees_with_reports sample_lib_kruskal kruskal_groups
           l o Hc).
Defined.






(** In the run on the three sample groups the Tukey procedure is called,
    with nine observations and nine labels. *)
Example tukey_call_run :
  filter is_posthoc_call (log_of (analysis sample_lib_equal sample_groups3)) =
  [Call_pairwise_tukeyhsd
     [Fin false 10 1; Fin false 12 1; Fin false 11 1;
      Fin false 20 1; Fin false 22 1; Fin false 21 1;
      Fin false 5 1; Fin false 5 1; Fin false 5 1]
     ["A"; "A"; "A"; "B"; "B"; "B"; "C"; "C"; "C"]].
Proof. vm_compute. reflexivity. Qed.

(* ===================================================================== *)
(** ** Runs that raise                                                   *)
(* ===================================================================== *)

Section Failures.

Variable lib : Lib.

Lemma shapiro_loop_silent items : forall an sl,
  existsb is_report (fst (shapiro_loop lib items an sl)) = false.
Proof.
  induction items as [|[n v] rest IH]; intros an sl; [reflexivity|].
  cbn [shapiro_loop]. destruct (shapiro lib v) as [e|[s p]]; run_eval.
  - reflexivity.
  - specialize (IH (an && gtb p lit_0_05)
                   (app sl [n ++ "(p=" ++ format_f 4 p ++ ")"])).
    destruct (shapiro_loop lib rest _ _) as [l r]. cbn [fst] in *.
    cbn [app existsb is_report orb]. exact IH.
Qed.

Lemma comparison_silent d an ev :
  existsb is_report (fst (comparison lib d an ev)) = false.
Proof.
  unfold comparison. destruct (length d =? 2)%nat.
  - unfold two_group_comparison.
    destruct (PyDict.keys d) as [|gn0 [|gn1 ks]]; try reflexivity.
    destruct (PyDict.get d gn0) as [v1|]; try reflexivity.
    destruct (PyDict.get d gn1) as [v2|]; try reflexivity.
    destruct an.
    + destruct (ttest_ind lib v1 v2 ev) as [e|[s p]]; reflexivity.
    + destruct (mannwhitneyu lib v1 v2) as [e|[s p]]; reflexivity.
  - unfold multi_group_comparison. destruct (an && ev).
    + destruct (f_oneway lib (PyDict.values d)) as [e|[s p]];
        [reflexivity|]. run_eval.
      destruct (ltb p lit_0_05); [|reflexivity].
      destruct (pairwise_tukeyhsd lib _ _) as [e|[h rows]]; [reflexivity|].
      destruct (pd_DataFrame lib rows h) as [e|df]; reflexivity.
    + destruct (kruskal lib (PyDict.values d)) as [e|[s p]];
        [reflexivity|]. run_eval.
      destruct (ltb p lit_0_05); [|reflexivity].
      destruct (posthoc_dunn lib _) as [e|df0]; [reflexivity|].
      destruct (set_columns lib df0 _) as [e|df1]; [reflexivity|].
      destruct (set_index lib df1 _) as [e|df2]; reflexivity.
Qed.

Lemma analysis_reports d :
  existsb is_report (log_of (analysis lib d)) = true <->
  exists o, result_of (analysis lib d) = inr (Some o).
Proof.
  split.
  2:{ intros [o Ho]. destruct (analysis lib d) as [l r] eqn:E.
      cbn [result_of log_of fst snd] in *. subst r.
      apply analysis_inv in E as (_ & lc & c & _ & H).
      destruct H as (_ & _ & _ & _ & _ & _ & _ & _ & _ & _ & _ & _ & _ & ->).
      cbn [existsb is_report orb]. rewrite existsb_app. cbn [existsb].
      rewrite existsb_app. unfold report_events.
      cbn [existsb is_report orb]. now rewrite !orb_true_r. }
  unfold analysis. destruct (2 <=? length d)%nat; [|discriminate].
  pose proof (shapiro_loop_silent d true []) as H1.
  destruct (shapiro_loop lib d true []) as [l1 [e|[an sl]]];
    cbn [fst] in H1; run_eval.
  - unfold log_of. cbn [fst]. rewrite !existsb_app, H1. discriminate.
  - destruct (levene lib (PyDict.values d)) as [e|[s p]].
    + unfold log_of. cbn [fst]. rewrite !existsb_app, H1. discriminate.
    + pose proof (comparison_silent d an (gtb p lit_0_05)) as H2.
      unfold comparison in H2.
      destruct (if (length d =? 2)%nat
                then two_group_comparison lib d an (gtb p lit_0_05)
                else multi_group_comparison lib d an (gtb p lit_0_05))
        as [lc [e|c]]; cbn [fst] in H2.
      * unfold log_of. cbn [fst]. rewrite !existsb_app, H1, H2.
        discriminate.
      * destruct (reasons an (gtb p lit_0_05)) as [jp en].
        intros _. eexists. reflexivity.
Qed.

Lemma input_loop_quiet widgets : forall i d0,
  forallb is_input_widget (fst (input_loop lib i widgets d0)) = true.
Proof.
  induction widgets as [|[name raw] ws IH]; intros i d0; [reflexivity|].
  cbn [input_loop]. destruct (parse_vals lib raw) as [e|vals]; run_eval;
    [reflexivity|].
  specialize (IH (S i) (if (3 <=? length vals)%nat
                        then PyDict.set name vals d0 else d0)).
  destruct (input_loop lib (S i) ws _) as [l r]. exact IH.
Qed.

End Failures.

Lemma input_widgets_no_report l :
  forallb is_input_widget l = true -> existsb is_report l = false.
Proof.
  induction l as [|e l IH]; [reflexivity|].
  cbn [forallb existsb]. intros H. apply andb_true_iff in H as [He Hl].
  rewrite (IH Hl). now destruct e.
Qed.

(** X12. No partial report: the script shows or offers a report exactly
    when it reaches its end in the analysis branch. A run that raises (in the
    parser or in any library call, the post-hoc ones included) and a run with
    fewer than 2 groups have no report event at all. *)
Theorem reports_only_when_completed (lib : Lib)
    (widgets : list (string * string)) (d : dict) :
  (existsb is_report (log_of (analysis lib d)) = true <->
   exists o, result_of (analysis lib d) = inr (Some o)) /\
  (existsb is_report (log_of (main lib widgets)) = true <->
   exists o, result_of (main lib widgets) = inr (Some o)) /\
  (forall e, result_of (main lib widgets) = inl e ->
             existsb is_report (log_of (main lib widgets)) = false).
Proof.
  split; [apply analysis_reports|].
  assert (Hmain : existsb is_report (log_of (main lib widgets)) = true <->
                  exists o, result_of (main lib widgets) = inr (Some o)).
  { unfold main, build_data_dict.
    pose proof (input_loop_quiet lib widgets 0 []) as Hq.
    destruct (input_loop lib 0 widgets []) as [l [e|dd]]; cbn [fst] in Hq;
      apply input_widgets_no_report in Hq.
    - cbn [bind log_of result_of fst snd]. rewrite Hq.
      split; [discriminate|intros [o Ho]; discriminate].
    - cbn [bind]. pose proof (analysis_reports lib dd) as Ha.
      destruct (analysis lib dd) as [l' r].
      cbn [log_of result_of fst snd] in *.
      now rewrite existsb_app, Hq. }
  split; [exact Hmain|].
  intros e He. destruct (existsb is_report (log_of (main lib widgets)));
    [|reflexivity].
  destruct (proj1 Hmain eq_refl) as [o Ho]. congruence.
Qed.

(** The script on widgets with an entry that is no number shows no
    report. *)
Example bad_entry_no_report :
  existsb is_report (log_of (main sample_lib_equal bad_widgets)) = false.
Proof. vm_compute. reflexivity. Qed.

(* ===================================================================== *)
(** ** Edge values of the p-value                                        *)
(* ===================================================================== *)

Lemma en_report_contains_result m r sig pd :
  contains (en_verdict sig ++ " (P=" ++ pd ++ ")") (en_report m r sig pd)
    = true.
Proof.
  unfold en_report.
  replace ("【Statistical Analysis Report】" ++ nl ++ "1. Method: " ++ m ++ nl ++
           "2. Rationale: " ++ r ++ nl ++ "3. Results: " ++
           (if sig then "Significant Difference Found"
            else "No Significant Difference") ++
           " (P=" ++ pd ++ ")" ++ nl ++
           "4. Conclusion: Based on the " ++ m ++
           ", the null hypothesis was " ++
           (if sig then "rejected" else "not rejected") ++ "." ++ nl)
    with (("【Statistical Analysis Report】" ++ nl ++ "1. Method: " ++ m ++ nl ++
           "2. Rationale: " ++ r ++ nl ++ "3. Results: ") ++
          (en_verdict sig ++ " (P=" ++ pd ++ ")") ++
          (nl ++ "4. Conclusion: Based on the " ++ m ++
           ", the null hypothesis was " ++
           (if sig then "rejected" else "not rejected") ++ "." ++ nl))
    by (unfold en_verdict; now rewrite !str_app_assoc).
  apply contains_app.
Qed.

Lemma en_report_contains_decision m r sig pd :
  contains (", the null hypothesis was " ++ en_decision sig ++ ".")
           (en_report m r sig pd) = true.
Proof.
  unfold en_report.
  replace ("【Statistical Analysis Report】" ++ nl ++ "1. Method: " ++ m ++ nl ++
           "2. Rationale: " ++ r ++ nl ++ "3. Results: " ++
           (if sig then "Significant Difference Found"
            else "No Significant Difference") ++
           " (P=" ++ pd ++ ")" ++ nl ++
           "4. Conclusion: Based on the " ++ m ++
           ", the null hypothesis was " ++
           (if sig then "rejected" else "not rejected") ++ "." ++ nl)
    with (("【Statistical Analysis Report】" ++ nl ++ "1. Method: " ++ m ++ nl ++
           "2. Rationale: " ++ r ++ nl ++ "3. Results: " ++
           (if sig then "Significant Difference Found"
            else "No Significant Difference") ++
           " (P=" ++ pd ++ ")" ++ nl ++
           "4. Conclusion: Based on the " ++ m) ++
          (", the null hypothesis was " ++ en_decision sig ++ ".") ++ nl)
    by (unfold en_decision; now rewrite !str_app_assoc).
  apply contains_app.
Qed.

Lemma jp_report_contains_result m r sig pd :
  contains (jp_verdict sig ++ " (P=" ++ pd ++ ")") (jp_report m r sig pd)
    = true.
Proof.
  unfold jp_report.
  replace ("【解析報告書】" ++ nl ++ "1. 手法: " ++ m ++ nl ++
           "2. 理由: " ++ r ++ nl ++ "3. 結果: " ++
           (if sig then "有意差あり" else "有意差なし") ++
           " (P=" ++ pd ++ ")" ++ nl)
    with (("【解析報告書】" ++ nl ++ "1. 手法: " ++ m ++ nl ++
           "2. 理由: " ++ r ++ nl ++ "3. 結果: ") ++
          (jp_verdict sig ++ " (P=" ++ pd ++ ")") ++ nl)
    by (unfold jp_verdict; now rewrite !str_app_assoc).
  apply contains_app.
Qed.

(** X13. A test that returns nan as its p-value is reported as not
    significant: the run goes to its end, [is_sig] is false, the p-value is
    shown as "nan", no post-hoc procedure is called and no table shown, and
    the reports say "No Significant Difference (P=nan)", "有意差なし (P=nan)"
    and that the null hypothesis was not rejected. *)
Theorem nan_p_value_reported_not_significant (lib : Lib) (d : dict)
    (l : list event) (o : Outcome) :
  completes lib d l o ->
  p_final o = NaN ->
  is_sig o = false /\
  p_disp o = "nan" /\
  posthoc o = None /\
  filter is_posthoc_call l = [] /\
  filter is_table l = [] /\
  contains "No Significant Difference (P=nan)" (out_en_report o) = true /\
  contains ", the null hypothesis was not rejected." (out_en_report o)
    = true /\
  contains "有意差なし (P=nan)" (out_jp_report o) = true.
Proof.
  intros H Hnan.
  destruct (run_strings lib d l o H) as (_ & _ & _ & Hsig & Hjp & Hen).
  destruct (run_comparison lib d l o H)
    as (Hlen & lc & c & Hc & _ & Hpf & Hpd & Hph & _ & Hf).
  rewrite Hnan in Hsig. cbn [ltb] in Hsig.
  rewrite Hpf in Hnan.
  pose proof (comparison_p_disp _ _ _ _ _ _ Hlen Hc) as Hdisp.
  rewrite Hnan in Hdisp.
  assert (Hd : p_disp o = "nan").
  { rewrite Hpd, Hdisp.
    now destruct ((length d =? 2)%nat || all_normal o && is_equal_var o). }
  apply comparison_inv in Hc as (Hp & Ht & Hcall & _ & _); [|exact Hlen].
  rewrite Hnan in Hp, Ht, Hcall. cbn [ltb] in Hp, Ht, Hcall.
  rewrite andb_false_r in Hp, Ht, Hcall.
  split; [exact Hsig|]. split; [exact Hd|]. split.
  { rewrite Hph. unfold has_posthoc in Hp. now destruct (c_posthoc c). }
  split.
  { rewrite (Hf is_posthoc_call) by now intros [].
    now apply existsb_false_filter. }
  split.
  { rewrite (Hf is_table) by now intros [].
    now apply existsb_false_filter. }
  rewrite Hen, Hjp, Hsig, Hd.
  split; [|split].
  - exact (en_report_contains_result (method o) (en_reason o) false "nan").
  - exact (en_report_contains_decision (method o) (en_reason o) false "nan").
  - exact (jp_report_contains_result (method o) (jp_reason o) false "nan").
Qed.

Lemma nan_p_value_reported_not_significant_witness :
  exists l o,
    completes (sample_lib (fun _ => lit_1_0) lit_0_5 NaN) sample_groups3 l o /\
    is_sig o = false /\
    p_disp o = "nan" /\
    posthoc o = None /\
    filter is_posthoc_call l = [] /\
    filter is_table l = [] /\
    contains "No Significant Difference (P=nan)" (out_en_report o) = true /\
    contains ", the null hypothesis was not rejected." (out_en_report o)
      = true /\
    contains "有意差なし (P=nan)" (out_jp_report o) = true.
Proof.
  destruct (analysis_returns (sample_lib (fun _ => lit_1_0) lit_0_5 NaN)
              sample_groups3) as (l & o & Hc);
    [constructor; intros; eexists; reflexivity|simpl; lia|].
  exists l, o. split; [exact Hc|].
  apply (nan_p_value_reported_not_significant
           (sample_lib (fun _ => lit_1_0) lit_0_5 NaN) sample_groups3 l o Hc).
  unfold completes in Hc. vm_compute in Hc.
  injection Hc as _ <-. reflexivity.
Defined.

Lemma round_half_even_zero a b :
  (2 * a < b)%N -> round_half_even a b = 0%N.
Proof.
  intros H. unfold round_half_even.
  rewrite N.div_small, N.mod_small by lia.
  destruct (N.compare_spec (2 * a) b); [lia|reflexivity|lia].
Qed.


Lemma format_f4_tiny n den :
  (20000 * n < N.pos den)%N -> format_f 4 (Fin false n den) = "0.0000".
Proof.
  intros H. unfold format_f.
  change (10 ^ N.of_nat 4)%N with 10000%N.
  rewrite round_half_even_zero by lia. reflexivity.
Qed.

Lemma tiny_is_significant n den :
  (20000 * n < N.pos den)%N -> ltb (Fin false n den) lit_0_05 = true.
Proof.
  intros H. unfold ltb, lit_0_05, snum. apply Z.ltb_lt.
  assert (H' : (20000 * Z.of_N n < Z.pos den)%Z) by lia.
  lia.
Qed.

(** X14. In the Kruskal-Wallis branch a p-value under 0.00005 is shown
    as "0.0000": the run declares the difference significant and its reports
    say "Significant Difference Found (P=0.0000)" and "有意差あり
    (P=0.0000)", whatever the p-value is. *)
Theorem kruskal_tiny_p_value_shown_as_zero (lib : Lib) (d : dict)
    (l : list event) (o : Outcome) (n : N) (den : positive) :
  completes lib d l o ->
  3 <= length d ->
  all_normal o && is_equal_var o = false ->
  p_final o = Fin false n den ->
  (20000 * n < N.pos den)%N ->
  method o = method_name KruskalWallisDunn /\
  is_sig o = true /\
  p_disp o = "0.0000" /\
  contains "Significant Difference Found (P=0.0000)" (out_en_report o)
    = true /\
  contains "有意差あり (P=0.0000)" (out_jp_report o) = true.
Proof.
  intros H H3 Hb Hp Hn.
  destruct (method_of_run lib d l o H) as (m & Hm & Hname).
  destruct (run_strings lib d l o H) as (_ & _ & _ & Hsig & Hjp & Hen).
  pose proof (p_disp_kruskal lib d l o H H3 Hb) as Hd.
  rewrite Hp in Hd, Hsig.
  rewrite (format_f4_tiny n den Hn) in Hd.
  rewrite (tiny_is_significant n den Hn) in Hsig.
  split.
  { rewrite Hname. f_equal.
    destruct (length d) as [|[|[|k]]]; try lia.
    cbn [decision_table] in Hm.
    destruct (all_normal o), (is_equal_var o); try discriminate Hb;
      congruence. }
  split; [exact Hsig|]. split; [exact Hd|].
  rewrite Hen, Hjp, Hsig, Hd. split.
  - exact (en_report_contains_result (method o) (en_reason o) true "0.0000").
  - exact (jp_report_contains_result (method o) (jp_reason o) true "0.0000").
Qed.

Lemma kruskal_tiny_p_value_shown_as_zero_witness :
  exists l o,
    completes (sample_lib (fun _ => lit_1_0) lit_0_0321 lit_0_00001)
              sample_groups3 l o /\
    method o = method_name KruskalWallisDunn /\
    is_sig o = true /\
    p_disp o = "0.0000" /\
    contains "Significant Difference Found (P=0.0000)" (out_en_report o)
      = true /\
    contains "有意差あり (P=0.0000)" (out_jp_report o) = true.
Proof.
  destruct (analysis_returns
              (sample_lib (fun _ => lit_1_0) lit_0_0321 lit_0_00001)
              sample_groups3) as (l & o & Hc);
    [constructor; intros; eexists; reflexivity|simpl; lia|].
  exists l, o. split; [exact Hc|].
  apply (kruskal_tiny_p_value_shown_as_zero
           (sample_lib (fun _ => lit_1_0) lit_0_0321 lit_0_00001)
           sample_groups3 l o
           5902958103587057 590295810358705651712 Hc).
  - simpl. lia.
  - unfold completes in Hc. vm_compute in Hc.
    injection Hc as _ <-. reflexivity.
  - unfold completes in Hc. vm_compute in Hc.
    injection Hc as _ <-. reflexivity.
  - reflexivity.
Defined.








(* ===================================================================== *)
(** ** The assumption checks: their log and their failures               *)
(* ===================================================================== *)

Lemma shapiro_loop_raise lib d1 : forall n v d2 e an sl,
  Forall (fun kv => returns (shapiro lib (snd kv))) d1 ->
  shapiro lib v = inl e ->
  shapiro_loop lib (d1 ++ (n, v) :: d2) an sl =
    (map (fun kv => Call_shapiro (snd kv)) (d1 ++ [(n, v)]), inl e).
Proof.
  induction d1 as [|[n1 v1] d1 IH]; intros n v d2 e an sl Hall He.
  - cbn [app shapiro_loop map snd]. rewrite He. reflexivity.
  - inversion Hall as [|? ? [[s p] Hv] Hall']; subst. cbn [snd] in Hv.
    cbn [app shapiro_loop map snd]. rewrite Hv. run_eval.
    now rewrite (IH n v d2 e _ _ Hall' He).
Qed.

(** X16. The assumption checks fail fast. When the normality test raises
    on a group, the run raises that exception, having called the test on the
    groups up to this one, in the order of [data_dict], and nothing after it:
    no variance test, no hypothesis test. When the normality tests return and
    the variance test raises, the run raises that exception after the
    normality calls and the one variance call, before any hypothesis test. *)
Theorem assumption_check_failure (lib : Lib) (d : dict) :
  2 <= length d ->
  (forall d1 n v d2 e,
     d = (d1 ++ (n, v) :: d2)%list ->
     Forall (fun kv => returns (shapiro lib (snd kv))) d1 ->
     shapiro lib v = inl e ->
     analysis lib d =
       (St_header "📊 Results & Analysis Log"
        :: map (fun kv => Call_shapiro (snd kv)) (d1 ++ [(n, v)]),
        inl e)) /\
  (forall e,
     Forall (fun kv => returns (shapiro lib (snd kv))) d ->
     levene lib (PyDict.values d) = inl e ->
     analysis lib d =
       (St_header "📊 Results & Analysis Log"
        :: map (fun kv => Call_shapiro (snd kv)) d
        ++ [Call_levene (PyDict.values d)],
        inl e)).
Proof.
  intros Hlen. split.
  - intros d1 n v d2 e Hd Hall He. unfold analysis.
    rewrite (proj2 (Nat.leb_le _ _) Hlen). subst d. run_eval.
    rewrite (shapiro_loop_raise lib d1 n v d2 e true [] Hall He).
    reflexivity.
  - intros e Hall He. unfold analysis.
    rewrite (proj2 (Nat.leb_le _ _) Hlen).
    assert (Hs : exists r, shapiro_loop lib d true [] =
                   (map (fun kv => Call_shapiro (snd kv)) d, inr r)).
    { clear -Hall. generalize true as an, (@nil string) as sl.
      induction Hall as [|[n v] d [[s p] Hv] _ IH]; intros an sl.
      - eexists. reflexivity.
      - cbn [snd] in Hv. cbn [shapiro_loop map snd]. rewrite Hv. run_eval.
        destruct (IH (an && gtb p lit_0_05)
                     (app sl [n ++ "(p=" ++ format_f 4 p ++ ")"]))
          as [r ->].
        eexists. reflexivity. }
    destruct Hs as [[an sl] ->]. rewrite He. reflexivity.
Qed.

Lemma assumption_check_failure_witness :
  2 <= length sample_groups3 /\
  analysis (failing_lib zero_variance false) sample_groups3 =
    (St_header "📊 Results & Analysis Log"
     :: map (fun kv => Call_shapiro (snd kv)) sample_groups3,
     inl (PyExc "ValueError" "shapiro")) /\
  analysis (failing_lib (fun _ => false) true) sample_groups3 =
    (St_header "📊 Results & Analysis Log"
     :: map (fun kv => Call_shapiro (snd kv)) sample_groups3
     ++ [Call_levene (PyDict.values sample_groups3)],
     inl (PyExc "ValueError" "levene")).
Proof.
  split; [simpl; lia|]. split.
  - apply (proj1 (assumption_check_failure (failing_lib zero_variance false)
                    sample_groups3 ltac:(simpl; lia))
             [("A", [Fin false 10 1; Fin false 12 1; Fin false 11 1]);
              ("B", [Fin false 20 1; Fin false 22 1; Fin false 21 1])]
             "C" [Fin false 5 1; Fin false 5 1; Fin false 5 1] []
             (PyExc "ValueError" "shapiro")).
    + reflexivity.
    + repeat constructor; eexists; reflexivity.
    + reflexivity.
  - apply (proj2 (assumption_check_failure (failing_lib (fun _ => false) true)
                    sample_groups3 ltac:(simpl; lia))
             (PyExc "ValueError" "levene")).
    + repeat constructor; eexists; reflexivity.
    + reflexivity.
Defined.

(** The normality test that raises on the third of the sample groups
    stops the run after three calls; the variance test that raises stops the
    run on two groups after its call. *)
Example shapiro_failure_run :
  analysis (failing_lib zero_variance false) sample_groups3 =
    ([St_header "📊 Results & Analysis Log";
      Call_shapiro [Fin false 10 1; Fin false 12 1; Fin false 11 1];
      Call_shapiro [Fin false 20 1; Fin false 22 1; Fin false 21 1];
      Call_shapiro [Fin false 5 1; Fin false 5 1; Fin false 5 1]],
     inl (PyExc "ValueError" "shapiro")) /\
  analysis (failing_lib zero_variance true) sample_groups2 =
    ([St_header "📊 Results & Analysis Log";
      Call_shapiro [Fin false 10 1; Fin false 12 1; Fin false 11 1];
      Call_shapiro [Fin false 20 1; Fin false 22 1; Fin false 21 1];
      Call_levene [[Fin false 10 1; Fin false 12 1; Fin false 11 1];
                   [Fin false 20 1; Fin false 22 1; Fin false 21 1]]],
     inl (PyExc "ValueError" "levene")).
Proof. vm_compute. split; reflexivity. Qed.

Lemma analysis_shapiro_log lib d l o :
  analysis lib d = (l, inr (Some o)) ->
  shapiro_log o = map (shapiro_entry lib) d.
Proof.
  unfold analysis. destruct (2 <=? length d)%nat.
  2:{ intros H. run_inv H. discriminate. }
  intros H. run_inv H.
  apply shapiro_loop_inv in Hc as (_ & _ & _ & Hsl).
  destruct (reasons b (gtb f0 lit_0_05)) as [jp en].
  run_inv H. apply some_inj in H. subst o.
  cbv beta iota delta [shapiro_log]. exact Hsl.
Qed.

(** X17. The diagnostic log of a completed run has one entry for every
    stored group, in the order of [data_dict]: the name of the group and the
    p-value of its normality test at four decimals. The expander shows these
    entries joined by commas, and below them the p-value of the variance
    test on all groups, at four decimals too. *)
Theorem diagnostic_log_lists_every_group (lib : Lib) (d : dict)
    (l : list event) (o : Outcome) :
  completes lib d l o ->
  shapiro_log o = map (shapiro_entry lib) d /\
  length (shapiro_log o) = length d /\
  exists l1 l2,
    l = (l1
         ++ [St_expander "Detailed Diagnostic Log";
             St_write ("・Normality (Shapiro-Wilk): " ++
                       String.concat ", " (map (shapiro_entry lib) d));
             St_write ("・Equal Variance (Levene): p = " ++
                       format_f 4 (pvalue (levene lib (PyDict.values d))))]
         ++ l2)%list.
Proof.
  intros H. pose proof (analysis_shapiro_log lib d l o H) as Hsl.
  split; [exact Hsl|]. split; [now rewrite Hsl, length_map|].
  apply analysis_inv in H as (_ & lc & c & _ & H).
  destruct H as (_ & _ & _ & Hpl & _ & _ & _ & _ & _ & _ & _ & _ & _ & ->).
  rewrite Hsl, Hpl.
  exists (St_header "📊 Results & Analysis Log"
          :: map (fun kv => Call_shapiro (snd kv)) d
          ++ Call_levene (PyDict.values d) :: lc)%list.
  eexists. cbn [app]. f_equal. rewrite <- app_assoc. cbn [app].
  reflexivity.
Qed.

Lemma diagnostic_log_lists_every_group_witness :
  exists l o,
    completes sample_lib_equal sample_groups2 l o /\
    shapiro_log o = ["A(p=1.0000)"; "B(p=1.0000)"].
Proof.
  destruct (analysis sample_lib_equal sample_groups2) as [l [e|[o|]]] eqn:E;
    try (vm_compute in E; discriminate).
  exists l, o. split; [exact E|].
  destruct (diagnostic_log_lists_every_group sample_lib_equal
              sample_groups2 l o E) as (-> & _).
  vm_compute. reflexivity.
Defined.

(* ===================================================================== *)
(** ** The reports on the screen and in the files                        *)
(* ===================================================================== *)

(** X18. A completed run shows and offers exactly two reports, the
    Japanese one before the English one. The text of each download is the
    text of the report shown in its tab, and both are built from the method,
    the rationale of the two assumption flags, the verdict of [p_final]
    against 0.05 and the displayed p-value. *)
Theorem saved_report_is_shown_report (lib : Lib) (d : dict)
    (l : list event) (o : Outcome) :
  completes lib d l o ->
  out_jp_report o =
    jp_report (method o)
      (fst (reasons (all_normal o) (is_equal_var o)))
      (ltb (p_final o) lit_0_05) (p_disp o) /\
  out_en_report o =
    en_report (method o)
      (snd (reasons (all_normal o) (is_equal_var o)))
      (ltb (p_final o) lit_0_05) (p_disp o) /\
  filter is_report l =
    [St_text_area "JP Report" (out_jp_report o) 200;
     St_download_button "レポート(JP)を保存" (out_jp_report o)
       "report_jp.txt";
     St_text_area "EN Report" (out_en_report o) 200;
     St_download_button "Download Report (EN)" (out_en_report o)
       "report_en.txt"].
Proof.
  intros H. apply analysis_inv in H as (_ & lc & c & Hc & H).
  destruct H as (_ & _ & _ & _ & _ & _ & _ & _ & _ & Hsig & Hr & Hjp & Hen
                 & ->).
  rewrite <- Hr, <- Hsig. cbn [fst snd].
  split; [exact Hjp|]. split; [exact Hen|].
  pose proof (comparison_silent lib d (all_normal o) (is_equal_var o)) as Hs.
  rewrite Hc in Hs. cbn [fst] in Hs.
  cbn [filter is_report]. rewrite filter_app.
  rewrite (filter_shapiro_calls is_report d) by reflexivity.
  cbn [app filter is_report]. rewrite filter_app.
  rewrite (existsb_false_filter _ _ Hs). reflexivity.
Qed.

Lemma saved_report_is_shown_report_witness :
  exists l o,
    completes sample_lib_equal sample_groups2 l o /\
    filter is_report l =
      [St_text_area "JP Report" (out_jp_report o) 200;
       St_download_button "レポート(JP)を保存" (out_jp_report o)
         "report_jp.txt";
       St_text_area "EN Report" (out_en_report o) 200;
       St_download_button "Download Report (EN)" (out_en_report o)
         "report_en.txt"].
Proof.
  destruct (analysis sample_lib_equal sample_groups2) as [l [e|[o|]]] eqn:E;
    try (vm_compute in E; discriminate).
  exists l, o. split; [exact E|].
  exact (proj2 (proj2 (saved_report_is_shown_report sample_lib_equal
                         sample_groups2 l o E))).
Defined.

(* ===================================================================== *)
(** ** The table of Dunn's test                                          *)
(* ===================================================================== *)


